(** * CreditTwin: the twin-matching decision engine

    A shallow embedding of the decision core of the repository:

    - [Engine/embeddings.py]   (feature encoding),
    - [Engine/twin_search.py]  (cohort analysis, decision policy, signals),
    - [UI/credit-decision-twin/backend/services.py]
                               (cosine similarity, anomaly score),

    followed by the properties the specification states about them.

    Conventions of the embedding.

    - Python floats and ints are read as exact rationals ([Q]); the
      thresholds [0.99], [0.05], ... are the rationals they denote.  The
      comparisons of the source ([>=], [<], [>], [==]) are the boolean
      comparisons on [Q].  One comparison is made on the double the code
      computed and not on the rational it approximates: the fraud test
      of [find_twins] reads the average similarity through the parameter
      [average] of the engine.
    - A [string] is a Python [str] whose characters are code points below
      256.
    - Library functions whose values are not rational ([numpy.log1p],
      [numpy.sqrt]), the printing of floats, the vector index and the LLM
      service are parameters of the sections that use them.
    - Code that can raise returns a [result]; a dictionary key that can be
      absent or hold [None] is an [entry]. *)

From Stdlib Require Import QArith Qround Qminmax ZArith List String Ascii Bool.
From Stdlib Require Import Lia Lqa DecimalString Sorted RelationClasses.
From Stdlib Require Import Permutation.
Import ListNotations.

Open Scope Q_scope.

(* ================================================================= *)
(** ** Python values and exceptions *)

Module Py.

Inductive exn : Type :=
| TypeError
| ValueError
| KeyError
| IndexError
| ZeroDivisionError
| BackendError.

Inductive result (A : Type) : Type :=
| Ok (a : A)
| Raise (e : exn).

Arguments Ok {A} a.
Arguments Raise {A} e.

Definition bind {A B : Type} (c : result A) (k : A -> result B) : result B :=
  match c with
  | Ok a => k a
  | Raise e => Raise e
  end.

(** What a dictionary holds under a key: nothing, [None], or a value. *)
Inductive entry (A : Type) : Type :=
| Missing
| PyNone
| Val (a : A).

Arguments Missing {A}.
Arguments PyNone {A}.
Arguments Val {A} a.

(** [d.get(k, default)]: the default replaces a missing key only. *)
Definition get_default {A : Type} (e : entry A) (d : A) : option A :=
  match e with
  | Missing => Some d
  | PyNone => None
  | Val a => Some a
  end.

(** [d.get(k)]: a missing key reads as [None]. *)
Definition get {A : Type} (e : entry A) : option A :=
  match e with
  | Val a => Some a
  | _ => None
  end.

Definition Qlt_bool (x y : Q) : bool := negb (Qle_bool y x).

(** Truth value of a number. *)
Definition truthy (x : Q) : bool := negb (Qeq_bool x 0).

(** [x or d] for an optional number [x]. *)
Definition or_else (x : option Q) (d : Q) : Q :=
  match x with
  | Some v => if truthy v then v else d
  | None => d
  end.

(** [min(a, b)] and [max(a, b)]: the first argument wins ties. *)
Definition min (a b : Q) : Q := if Qlt_bool b a then b else a.
Definition max (a b : Q) : Q := if Qlt_bool a b then b else a.

(** [x / y].  A zero divisor is an error of the embedding, so that a
    function proved to return [Ok] never divides by zero. *)
Definition div (x y : Q) : result Q :=
  if Qeq_bool y 0 then Raise ZeroDivisionError else Ok (x / y).

(** [int(x)]: truncation toward zero. *)
Definition int (x : Q) : Z := Z.quot (Qnum x) (Zpos (Qden x)).

(** Rounding to the nearest integer, halves to the even neighbour. *)
Definition round_half_even (x : Q) : Z :=
  let f := Qfloor x in
  let r := x - inject_Z f in
  if Qlt_bool r 0.5 then f
  else if Qlt_bool 0.5 r then (f + 1)%Z
  else if Z.even f then f else (f + 1)%Z.

(** [round(x, n)] for [n >= 0] decimals. *)
Definition round (x : Q) (n : nat) : Q :=
  let s := inject_Z (10 ^ Z.of_nat n) in
  inject_Z (round_half_even (x * s)) / s.

(** [round(x, -2)]: to the nearest hundred. *)
Definition round_hundreds (x : Q) : Q :=
  inject_Z (round_half_even (x / 100)) * 100.

(** [str(n)] for an integer. *)
Definition str_int (z : Z) : string := NilZero.string_of_int (Z.to_int z).

(** [f"{x:.0f}"]. *)
Definition format_0f (x : Q) : string := str_int (round_half_even x).

(** [f"{n:,}"] for an integer: groups of three digits from the right. *)
Fixpoint group3 (rev_digits : list ascii) : list ascii :=
  match rev_digits with
  | a :: b :: c :: ((_ :: _) as rest) => a :: b :: c :: ","%char :: group3 rest
  | l => l
  end.

Definition format_commas (z : Z) : string :=
  let digits := list_ascii_of_string (str_int (Z.abs z)) in
  let body := string_of_list_ascii (rev (group3 (rev digits))) in
  if (z <? 0)%Z then String "-"%char body else body.

(** [c.isspace()] for the characters a [string] holds, the code points
    below 256: the controls 9 to 13 and 28 to 31, the space, the next
    line U+0085 and the no-break space U+00A0.  [s.strip()] removes them
    at both ends. *)
Definition is_space (c : ascii) : bool :=
  let n := nat_of_ascii c in
  ((9 <=? n) && (n <=? 13) || (28 <=? n) && (n <=? 32)
   || (n =? 133) || (n =? 160))%nat.

Fixpoint lstrip (l : list ascii) : list ascii :=
  match l with
  | c :: rest => if is_space c then lstrip rest else l
  | [] => []
  end.

Definition strip (s : string) : string :=
  string_of_list_ascii
    (rev (lstrip (rev (lstrip (list_ascii_of_string s))))).

(** [s.lower()] on the ASCII range. *)
Definition lower_char (c : ascii) : ascii :=
  let n := nat_of_ascii c in
  if ((65 <=? n) && (n <=? 90))%nat then ascii_of_nat (n + 32) else c.

Fixpoint lower (s : string) : string :=
  match s with
  | EmptyString => EmptyString
  | String c rest => String (lower_char c) (lower rest)
  end.

(** [s.replace(c, '')] for a one-character [c]. *)
Fixpoint without (c : ascii) (s : string) : string :=
  match s with
  | EmptyString => EmptyString
  | String c' rest =>
      if Ascii.eqb c' c then without c rest else String c' (without c rest)
  end.

(** [f"{x:.1f}"]; a negative value that rounds to zero prints without
    its sign. *)
Definition format_1f (x : Q) : string :=
  let r := round_half_even (x * 10) in
  let digits :=
    (str_int (Z.abs r / 10) ++ "." ++ str_int (Z.abs r mod 10))%string in
  if (r <? 0)%Z then String "-"%char digits else digits.

End Py.

Notation "x <- c ;; k" := (Py.bind c (fun x => k))
  (at level 61, c at next level, right associativity).

(* ================================================================= *)
(** ** Engine/config.py *)

Definition VECTOR_SIZE : nat := 50.

(* ================================================================= *)
(** ** Engine/embeddings.py *)

Module Embeddings.

(** The application dictionary.  A key is absent ([None]) or holds a
    value: a number for the numeric keys, a string for the categorical
    ones. *)
Record application : Type := {
  requested_amount : option Q;
  annual_income_snapshot : option Q;
  dti_snapshot : option Q;
  payment_to_income_ratio : option Q;
  loan_to_income_ratio : option Q;
  revolving_utilization_snapshot : option Q;
  fico_snapshot : option Q;
  credit_history_length_snapshot : option Q;
  nb_previous_loans : option Q;
  open_accounts : option Q;
  total_accounts : option Q;
  delinquencies_2y : option Q;
  inquiries_6m : option Q;
  public_records : option Q;
  term : option string;
  grade : option string;
  loan_purpose : option string
}.

Definition grades : list (string * Q) :=
  [ ("A", 1.0); ("B", 0.85); ("C", 0.70); ("D", 0.55);
    ("E", 0.40); ("F", 0.25); ("G", 0.10) ]%string.

Fixpoint dict_get (d : list (string * Q)) (k : string) (default : Q) : Q :=
  match d with
  | (k', v) :: rest => if String.eqb k' k then v else dict_get rest k default
  | [] => default
  end.

Definition encode_grade (grade : option string) : Q :=
  match grade with
  | None => 0.5
  | Some ""%string => 0.5
  | Some g => dict_get grades (Py.strip g) 0.5
  end.

(** [1.0 if d.get(k) == s else 0.0] *)
Definition one_hot (x : option string) (s : string) : Q :=
  match x with
  | Some v => if String.eqb v s then 1.0 else 0.0
  | None => 0.0
  end.

Section Encoder.

(** [numpy.log1p]. *)
Variable log1p : Q -> Q.

Definition features (a : application) : list Q :=
  [ log1p (Py.or_else (requested_amount a) 0) / 15;
    log1p (Py.or_else (annual_income_snapshot a) 0) / 15;
    Py.min (Py.or_else (dti_snapshot a) 0 / 100) 1;
    Py.min (Py.or_else (payment_to_income_ratio a) 0) 1;
    Py.min (Py.or_else (loan_to_income_ratio a) 0) 1;
    Py.min (Py.or_else (revolving_utilization_snapshot a) 0 / 100) 1;
    Py.or_else (fico_snapshot a) 650 / 850;
    Py.min (Py.or_else (credit_history_length_snapshot a) 0 / 50) 1;
    Py.min (Py.or_else (nb_previous_loans a) 0 / 10) 1;
    Py.min (Py.or_else (open_accounts a) 0 / 30) 1;
    Py.min (Py.or_else (total_accounts a) 0 / 50) 1;
    Py.min (Py.or_else (delinquencies_2y a) 0 / 10) 1;
    Py.min (Py.or_else (inquiries_6m a) 0 / 10) 1;
    Py.min (Py.or_else (public_records a) 0 / 5) 1;
    one_hot (term a) " 36 months";
    one_hot (term a) " 60 months";
    encode_grade (grade a);
    one_hot (loan_purpose a) "debt_consolidation";
    one_hot (loan_purpose a) "credit_card";
    one_hot (loan_purpose a) "home_improvement";
    one_hot (loan_purpose a) "other";
    one_hot (loan_purpose a) "major_purchase" ].

(** The [while] loop appends zeros up to [vector_size]; the slice
    keeps the first [vector_size] coordinates. *)
Definition pad (vector : list Q) (vector_size : nat) : list Q :=
  vector ++ repeat 0.0 (vector_size - List.length vector).

Definition create_application_vector
    (a : application) (vector_size : nat) : list Q :=
  firstn vector_size (pad (features a) vector_size).

End Encoder.

End Embeddings.


(* ================================================================= *)
(** ** Engine/twin_search.py *)

(** The payload stored with a historical case.  Its shape is the one
    [Engine/buildvector_store.py] writes: ["outcome"] and
    ["requested_amount"] are always present and may hold [None]; the other
    keys are read with [.get], so they are [entry]s; the two flags hold
    booleans when present. *)
Module Payload.

Record t : Type := {
  application_id : Py.entry string;
  outcome : option string;
  requested_amount : option Q;
  fico : Py.entry Q;
  dti : Py.entry Q;
  is_fraud_suspect : option bool;
  is_comeback_story : option bool
}.

End Payload.

Module TwinSearch.

Import Embeddings.

Definition FRAUD_SIMILARITY_LIMIT : Q := 0.999.

(** One hit of the index: [{"payload": ..., "score": ...}]. *)
Record neighbor : Type := {
  payload : Payload.t;
  score : Q
}.

(** One entry of ["top_twins"]. *)
Record twin_summary : Type := {
  ts_application_id : option string;
  ts_similarity : Q;
  ts_outcome : option string;
  ts_requested_amount : option Q;
  ts_fico : option Q;
  ts_dti : option Q
}.

(** The dictionary [analyze_twins] returns.  ["rejected_count"] is a key
    of the dictionary of the non-empty case only. *)
Record analysis_dict : Type := {
  total_twins : nat;
  success_count : nat;
  default_count : nat;
  late_count : nat;
  rejected_count : option nat;
  success_rate : Q;
  default_rate : Q;
  late_rate : Q;
  avg_similarity : Q;
  top_twins : list twin_summary
}.

(** [analysis.get("rejected_count", 0)], as the engine reads the key. *)
Definition get_rejected_count (a : analysis_dict) : nat :=
  match rejected_count a with
  | Some n => n
  | None => 0%nat
  end.

Definition outcome_is (label : string) (r : neighbor) : bool :=
  match Payload.outcome (payload r) with
  | Some o => String.eqb o label
  | None => false
  end.

(** [sum(1 for r in results if r["payload"]["outcome"] == label)] *)
Definition count_outcome (label : string) (results : list neighbor) : nat :=
  List.length (filter (outcome_is label) results).

(** [sum(r["score"] for r in results)] *)
Definition sum_scores (results : list neighbor) : Q :=
  fold_left Qplus (map score results) 0.

Definition of_nat (n : nat) : Q := inject_Z (Z.of_nat n).

Definition summarize (r : neighbor) : twin_summary :=
  let p := payload r in
  {| ts_application_id := Py.get (Payload.application_id p);
     ts_similarity := Py.round (score r) 3;
     ts_outcome := Payload.outcome p;
     ts_requested_amount := Payload.requested_amount p;
     ts_fico := Py.get (Payload.fico p);
     ts_dti := Py.get (Payload.dti p) |}.

Definition analyze_twins (results : list neighbor) : Py.result analysis_dict :=
  let total := List.length results in
  if Nat.eqb total 0 then
    Py.Ok {| total_twins := 0;
             success_count := 0;
             default_count := 0;
             late_count := 0;
             rejected_count := None;
             success_rate := 0.0;
             default_rate := 0.0;
             late_rate := 0.0;
             avg_similarity := 0.0;
             top_twins := [] |}
  else
    let success := count_outcome "success" results in
    let default := count_outcome "default" results in
    let late := count_outcome "late_payments" results in
    let rejected := count_outcome "rejected" results in
    avg_score <- Py.div (sum_scores results) (of_nat total) ;;
    let top := map summarize (firstn 5 results) in
    s_rate <- Py.div (of_nat success) (of_nat total) ;;
    d_rate <- Py.div (of_nat default) (of_nat total) ;;
    l_rate <- Py.div (of_nat late) (of_nat total) ;;
    Py.Ok {| total_twins := total;
             success_count := success;
             default_count := default;
             late_count := late;
             rejected_count := Some rejected;
             success_rate := s_rate;
             default_rate := d_rate;
             late_rate := l_rate;
             avg_similarity := avg_score;
             top_twins := top |}.

(** The secondary artifacts. *)
Record roadmap_dict : Type := {
  target_fico : option Q;
  target_dti : Q;
  roadmap_message : string
}.

Record offer_dict : Type := {
  offer_type : string;
  offer_amount : Q;
  offer_message : string
}.

Record nudge_dict : Type := {
  nudge_title : string;
  nudge_message : string
}.

(** The dictionary a decision is.  A field is [None] (or [Missing]) when
    the dictionary has no such key. *)
Record decision_dict : Type := {
  decision : string;
  confidence : Q;
  reason : string;
  conditions : option (list string);
  recommended_amount : Py.entry Q;
  analysis : option analysis_dict;
  twins_found : option nat;
  action : option string;
  is_fraud_suspect : option bool;
  roadmap : option roadmap_dict;
  alternative_offer : option offer_dict;
  nudge : option nudge_dict;
  explanation : option string
}.

(** A dictionary with the keys every path sets, and no other. *)
Definition base_decision (d : string) (c : Q) (r : string) : decision_dict :=
  {| decision := d; confidence := c; reason := r;
     conditions := None; recommended_amount := Py.Missing;
     analysis := None; twins_found := None; action := None;
     is_fraud_suspect := None; roadmap := None;
     alternative_offer := None; nudge := None; explanation := None |}.

Definition with_terms (d : decision_dict)
    (conds : list string) (amount : Py.entry Q) : decision_dict :=
  {| decision := decision d; confidence := confidence d; reason := reason d;
     conditions := Some conds; recommended_amount := amount;
     analysis := analysis d; twins_found := twins_found d;
     action := action d; is_fraud_suspect := is_fraud_suspect d;
     roadmap := roadmap d; alternative_offer := alternative_offer d;
     nudge := nudge d; explanation := explanation d |}.

Definition with_analysis (d : decision_dict) (a : analysis_dict) : decision_dict :=
  {| decision := decision d; confidence := confidence d; reason := reason d;
     conditions := conditions d; recommended_amount := recommended_amount d;
     analysis := Some a; twins_found := twins_found d;
     action := action d; is_fraud_suspect := is_fraud_suspect d;
     roadmap := roadmap d; alternative_offer := alternative_offer d;
     nudge := nudge d; explanation := explanation d |}.

Definition with_roadmap (d : decision_dict) (r : roadmap_dict) : decision_dict :=
  {| decision := decision d; confidence := confidence d; reason := reason d;
     conditions := conditions d; recommended_amount := recommended_amount d;
     analysis := analysis d; twins_found := twins_found d;
     action := action d; is_fraud_suspect := is_fraud_suspect d;
     roadmap := Some r; alternative_offer := alternative_offer d;
     nudge := nudge d; explanation := explanation d |}.

Definition with_offer (d : decision_dict) (o : offer_dict) : decision_dict :=
  {| decision := decision d; confidence := confidence d; reason := reason d;
     conditions := conditions d; recommended_amount := recommended_amount d;
     analysis := analysis d; twins_found := twins_found d;
     action := action d; is_fraud_suspect := is_fraud_suspect d;
     roadmap := roadmap d; alternative_offer := Some o;
     nudge := nudge d; explanation := explanation d |}.

Definition with_nudge (d : decision_dict) (n : nudge_dict) : decision_dict :=
  {| decision := decision d; confidence := confidence d; reason := reason d;
     conditions := conditions d; recommended_amount := recommended_amount d;
     analysis := analysis d; twins_found := twins_found d;
     action := action d; is_fraud_suspect := is_fraud_suspect d;
     roadmap := roadmap d; alternative_offer := alternative_offer d;
     nudge := Some n; explanation := explanation d |}.

Definition with_explanation (d : decision_dict) (e : string) : decision_dict :=
  {| decision := decision d; confidence := confidence d; reason := reason d;
     conditions := conditions d; recommended_amount := recommended_amount d;
     analysis := analysis d; twins_found := twins_found d;
     action := action d; is_fraud_suspect := is_fraud_suspect d;
     roadmap := roadmap d; alternative_offer := alternative_offer d;
     nudge := nudge d; explanation := Some e |}.

(** [application.get("requested_amount")] as a dictionary value. *)
Definition amount_entry (application : Embeddings.application) : Py.entry Q :=
  match Embeddings.requested_amount application with
  | Some v => Py.Val v
  | None => Py.PyNone
  end.

(** [application.get("requested_amount", 0)] *)
Definition amount_or_zero (application : Embeddings.application) : Q :=
  match Embeddings.requested_amount application with
  | Some v => v
  | None => 0
  end.

(** [f"{int(success_rate*100)}"] *)
Definition percent (rate : Q) : string := Py.str_int (Py.int (rate * 100)).

Definition make_decision
    (a : analysis_dict) (application : Embeddings.application) : decision_dict :=
  let success_rate := success_rate a in
  let default_rate := default_rate a in
  if Qle_bool 0.99 success_rate && Py.Qlt_bool default_rate 0.05 then
    with_analysis
      (with_terms
         (base_decision "APPROVED" (avg_similarity a)
            ("Exceptional " ++ percent success_rate
             ++ "% success rate observed among similar financial profiles."))
         [] (amount_entry application))
      a
  else if Qle_bool 0.90 success_rate && Py.Qlt_bool default_rate 0.10 then
    let conditions0 : list string := [] in
    let recommended0 := amount_entry application in
    let '(conditions1, recommended1) :=
      if Py.Qlt_bool 0.05 default_rate then
        (conditions0 ++ ["Mandatory 25% reduction in requested amount"%string],
         Py.Val (amount_or_zero application * 0.75))
      else (conditions0, recommended0) in
    let conditions2 :=
      if Py.Qlt_bool 0.10 (late_rate a) then
        conditions1 ++ ["Interest rate premium (+1.5% APR)"%string]
      else conditions1 in
    let conditions3 :=
      match conditions2 with
      | [] => conditions2 ++ ["Standard conditions with enhanced monitoring"%string]
      | _ :: _ => conditions2
      end in
    with_analysis
      (with_terms
         (base_decision "APPROVED_WITH_CONDITIONS" (avg_similarity a)
            "Solid historical performance with minor risk overhead.")
         conditions3 recommended1)
      a
  else if Qle_bool 0.85 success_rate then
    with_analysis
      (base_decision "MANUAL_REVIEW" (avg_similarity a)
         ("Success rate is " ++ percent success_rate
          ++ "%. Performance data is within a neutral range requiring human oversight."))
      a
  else
    with_analysis
      (base_decision "REJECTED" (avg_similarity a)
         ("Inadequate success likelihood (" ++ percent success_rate
          ++ "%). Historical comparisons show significant default risk."))
      a.

(** [sub in s] *)
Fixpoint contains (sub s : string) : bool :=
  if String.prefix sub s then true
  else match s with
       | EmptyString => false
       | String _ rest => contains sub rest
       end.

Definition generate_friendly_explanation (decision_data : decision_dict) : string :=
  let decision := decision decision_data in
  let success_rate :=
    match analysis decision_data with
    | Some a => success_rate a * 100
    | None => 0 * 100
    end in
  let rejected_count :=
    match analysis decision_data with
    | Some a => match rejected_count a with Some n => n | None => 0%nat end
    | None => 0%nat
    end in
  let total :=
    match analysis decision_data with
    | Some a => total_twins a
    | None => 0%nat
    end in
  if String.eqb decision "APPROVED" then
    let msg :=
      ("Your application shows a very strong alignment with successful historical cases. "
       ++ "With a " ++ Py.format_0f success_rate
       ++ "% success rate among your 'financial twins,' we have high "
       ++ "confidence in this approval.")%string in
    if (0 <? rejected_count)%nat then
      (msg ++ " Only " ++ Py.str_int (Z.of_nat rejected_count) ++ " out of "
       ++ Py.str_int (Z.of_nat total)
       ++ " similar matches were previously rejected.")%string
    else msg
  else if String.eqb decision "APPROVED_WITH_CONDITIONS" then
    ("We've approved your request with tailored conditions to ensure your success. "
     ++ "Applicants with your profile have a solid " ++ Py.format_0f success_rate
     ++ "% success rate, "
     ++ "though we've identified moderate risks that require slight adjustments to the loan terms. "
     ++ "This approach helps balance your current needs with long-term financial safety.")%string
  else if String.eqb decision "REJECTED" then
    ("After comparing your application to thousands of 'financial twins,' we cannot approve your request today. "
     ++ "The historical data for similar profiles indicates a higher risk of repayment challenges. "
     ++ "We recommend focusing on your debt-to-income ratio or credit score to improve your profile for future requests.")%string
  else if String.eqb decision "ANOMALY_DETECTED" then
    ("Your unique financial request has been flagged for prioritized manual review by our experts. "
     ++ "Because we found very few similar historical cases, we want to ensure a human specialist "
     ++ "personally evaluates your situation rather than relying on automated matching. "
     ++ "This ensures you receive a fair and comprehensive assessment.")%string
  else if String.eqb decision "MANUAL_REVIEW" then
    ("The engine has categorized your request for manual underwriting because the outcomes "
     ++ "of your 'financial twins' were inconsistent. Since " ++ Py.format_0f success_rate
     ++ "% of similar cases "
     ++ "succeeded while others faced challenges, a human specialist will now perform a targeted "
     ++ "final check to ensure we reach the most fair and accurate decision for you.")%string
  else
    "Your application is being analyzed using our financial twin matching engine to ensure a fair and data-driven decision."%string.

(** [filters = {"requested_amount": {"$gte": ..., "$lte": ...}}] *)
Record amount_filter : Type := {
  gte : Q;
  lte : Q
}.

(** Truth value of a flag read with [.get(key, 0)]. *)
Definition flag (f : option bool) : bool :=
  match f with
  | Some b => b
  | None => false
  end.

(** [sum(fraud_flags)]: [True] counts for one. *)
Definition sum_flags (flags : list bool) : nat :=
  fold_left (fun acc (b : bool) => if b then S acc else acc) flags 0%nat.

Section Engine.

(** [numpy.log1p], and [str] of a float. *)
Variable log1p : Q -> Q.
Variable float_str : Q -> string.

(** [vector_store.search_similar]: the hits, best first, or an exception. *)
Variable search_similar :
  list Q -> nat -> option amount_filter -> Py.result (list neighbor).

(** [llm_explanation.get_llm_explanation]: a text, or [None]. *)
Variable get_llm_explanation :
  decision_dict -> Embeddings.application -> option string.

(** The double [sum(r["score"] for r in results) / total] that
    [analyze_twins] stores under ["avg_similarity"], as a function of
    the scores.  How the interpreter accumulates the doubles is not
    fixed here (one rounded addition per score, compensated from
    Python 3.12 on), and at a threshold it matters: 23 scores of
    0.9990000000000001 average to the double 0.999.  The comparison of
    step 5 is made on this value; the field [avg_similarity] of the
    analysis keeps the exact mean. *)
Variable average : list Q -> Q.

(** [get_llm_explanation(d, app) or generate_friendly_explanation(d)] *)
Definition explain (d : decision_dict) (app : Embeddings.application) : string :=
  match get_llm_explanation d app with
  | Some (String c s) => String c s
  | _ => generate_friendly_explanation d
  end.

(** The ["roadmap"] dictionary, built from the payload of a comeback twin. *)
Definition make_roadmap (best_comeback : Payload.t) : Py.result roadmap_dict :=
  let fico := Py.get_default (Payload.fico best_comeback) 700 in
  dti <- match Py.get_default (Payload.dti best_comeback) 20.0 with
         | Some v => Py.Ok (Py.round v 1)
         | None => Py.Raise Py.TypeError
         end ;;
  fico_int <- match Py.get_default (Payload.fico best_comeback) 0 with
              | Some v => Py.Ok (Py.int v)
              | None => Py.Raise Py.TypeError
              end ;;
  let dti_str := match Py.get (Payload.dti best_comeback) with
                 | Some v => float_str v
                 | None => "None"%string
                 end in
  Py.Ok {| target_fico := fico;
           target_dti := dti;
           roadmap_message :=
             ("We found profiles identical to yours that were successful after improving their FICO to "
              ++ Py.str_int fico_int ++ "+ and lowering DTI to " ++ dti_str ++ "%.")%string |}.

(** Step 7, first half: the path to success. *)
Definition attach_roadmap
    (results : list neighbor) (d : decision_dict) : Py.result decision_dict :=
  let comebacks :=
    filter (fun r => flag (Payload.is_comeback_story (payload r))) results in
  match comebacks with
  | best :: _ =>
      r <- make_roadmap (payload best) ;;
      Py.Ok (with_roadmap d r)
  | [] => Py.Ok d
  end.

(** Step 7, second half: the safer loan amount. *)
Definition attach_offer
    (results : list neighbor) (new_application : Embeddings.application)
    (d : decision_dict) : Py.result decision_dict :=
  let successful_twins := filter (outcome_is "success") results in
  match successful_twins with
  | _ :: _ =>
      let total :=
        fold_left Qplus
          (map (fun r => Py.or_else (Payload.requested_amount (payload r)) 0)
               successful_twins) 0 in
      avg_safe_amount <- Py.div total (of_nat (List.length successful_twins)) ;;
      if Py.Qlt_bool avg_safe_amount (amount_or_zero new_application * 0.8) then
        Py.Ok (with_offer d
          {| offer_type := "SAFER_AMOUNT";
             offer_amount := Py.round_hundreds avg_safe_amount;
             offer_message :=
               ("While your current request is high, your financial twins were highly successful with loans around $"
                ++ Py.format_commas (Py.int avg_safe_amount) ++ ".")%string |})
      else Py.Ok d
  | [] => Py.Ok d
  end.

(** Step 8: the nudge. *)
Definition attach_nudge
    (new_application : Embeddings.application) (d : decision_dict) : decision_dict :=
  if contains "APPROVED" (decision d) then
    let first_loan :=
      match Embeddings.nb_previous_loans new_application with
      | Some n => Qeq_bool n 0
      | None => true
      end in
    if first_loan then
      with_nudge d
        {| nudge_title := "Build Your Legacy";
           nudge_message := "80% of clients who started with this loan successfully upgraded to our Home Improvement line within 18 months." |}
    else d
  else d.

(** Steps 1 and 2 of [find_twins]: the vector, the amount filter, and the
    search inside its [try]; any exception leaves [results = []]. *)
Definition amount_filters
    (new_application : Embeddings.application) : option amount_filter :=
  match Embeddings.requested_amount new_application with
  | Some v =>
      if Py.truthy v then Some {| gte := v * 0.7; lte := v * 1.3 |} else None
  | None => None
  end.

Definition query
    (new_application : Embeddings.application) (top_k : nat) : list neighbor :=
  let vector := create_application_vector log1p new_application VECTOR_SIZE in
  let filters := amount_filters new_application in
  match search_similar vector top_k filters with
  | Py.Ok hits => hits
  | Py.Raise _ => []
  end.

Definition find_twins
    (new_application : Embeddings.application) (top_k : nat) (threshold : Q)
    : Py.result decision_dict :=
  let results := query new_application top_k in
  if (List.length results <? 10)%nat then
    let result :=
      {| decision := "ANOMALY_DETECTED";
         confidence := 0.0;
         reason := ("Only " ++ Py.str_int (Z.of_nat (List.length results))
                    ++ " similar cases found (minimum 10 required)")%string;
         conditions := None; recommended_amount := Py.Missing;
         analysis := None;
         twins_found := Some (List.length results);
         action := Some "MANUAL_REVIEW_REQUIRED"%string;
         is_fraud_suspect := None; roadmap := None;
         alternative_offer := None; nudge := None; explanation := None |} in
    Py.Ok (with_explanation result (explain result new_application))
  else
    analysis <- analyze_twins results ;;
    let fraud_flags :=
      map (fun r => flag (Payload.is_fraud_suspect (payload r)))
          (firstn 20 results) in
    if (5 <=? sum_flags fraud_flags)%nat
       || Py.Qlt_bool FRAUD_SIMILARITY_LIMIT (average (map score results)) then
      let decision :=
        {| decision := "REJECTED";
           confidence := 1.0;
           reason := "IDENTITY_ANOMALY: Our system detected patterns unusually similar to known high-risk applications.";
           conditions := None; recommended_amount := Py.Missing;
           analysis := Some analysis;
           twins_found := None; action := None;
           is_fraud_suspect := Some true; roadmap := None;
           alternative_offer := None; nudge := None; explanation := None |} in
      Py.Ok (with_explanation decision (explain decision new_application))
    else
      let decision0 := make_decision analysis new_application in
      decision1 <-
        (if String.eqb (decision decision0) "REJECTED" then
           d <- attach_roadmap results decision0 ;;
           attach_offer results new_application d
         else Py.Ok decision0) ;;
      let decision2 := attach_nudge new_application decision1 in
      Py.Ok (with_explanation decision2 (explain decision2 new_application)).

End Engine.

End TwinSearch.

(* ================================================================= *)
(** ** UI/credit-decision-twin/backend/services.py *)

Module Services.

(** [models.FinancialTwin] *)
Record FinancialTwin : Type := {
  id : string;
  borrower_id : string;
  age : Z;
  credit_score : Z;
  income : Q;
  debt : Q;
  assets : Q;
  loan_amount : Q;
  tenure : Z;
  employment : string;
  sector : string;
  purpose : string;
  region : string;
  decision : string;
  outcome : string;
  days_late : Z;
  similarity : Q
}.

(** [numpy.dot] on one-dimensional arrays: the shapes must agree. *)
Fixpoint dot (vec_a vec_b : list Q) : Py.result Q :=
  match vec_a, vec_b with
  | [], [] => Py.Ok 0
  | x :: a, y :: b => rest <- dot a b ;; Py.Ok (x * y + rest)
  | _, _ => Py.Raise Py.ValueError
  end.

Definition sum_squares (vec : list Q) : Q :=
  fold_right (fun x acc => x * x + acc) 0 vec.

Section Similarity.

(** [numpy.sqrt] *)
Variable sqrt : Q -> Q.

(** [numpy.linalg.norm] *)
Definition norm (vec : list Q) : Q := sqrt (sum_squares vec).

Definition cosine_similarity (vec_a vec_b : list Q) : Py.result Q :=
  dot_product <- dot vec_a vec_b ;;
  let norm_a := norm vec_a in
  let norm_b := norm vec_b in
  if Qeq_bool norm_a 0 || Qeq_bool norm_b 0 then Py.Ok 0.0
  else Py.div dot_product (norm_a * norm_b).

End Similarity.

(** [sum(t.similarity for t in twins)] *)
Definition sum_similarity (twins : list FinancialTwin) : Q :=
  fold_left Qplus (map similarity twins) 0.

Definition calculate_anomaly_score (twins : list FinancialTwin) : Py.result Q :=
  match twins with
  | [] => Py.Ok 1.0
  | first :: _ =>
      let n := List.length twins in
      let max_sim := similarity first in
      avg_sim <- Py.div (sum_similarity twins) (inject_Z (Z.of_nat n)) ;;
      decay_rate <-
        (if (10 <=? n)%nat && Py.Qlt_bool 0 max_sim then
           match nth_error twins (Nat.min 9 (n - 1)) with
           | Some tenth =>
               Py.div (similarity first - similarity tenth) max_sim
           | None => Py.Raise Py.IndexError
           end
         else Py.Ok 0.0) ;;
      let anomaly_from_similarity := 1 - max_sim in
      let anomaly_from_decay := decay_rate in
      let anomaly_from_density := 1 - avg_sim in
      let anomaly_score :=
        anomaly_from_similarity * 0.4
        + anomaly_from_decay * 0.3
        + anomaly_from_density * 0.3 in
      Py.Ok (Py.min 1.0 (Py.max 0.0 anomaly_score))
  end.

Definition EMPLOYMENT_TYPES : list string :=
  ["full-time"; "part-time"; "self-employed"; "contractor"; "retired"]%string.

Definition SECTORS : list string :=
  ["technology"; "healthcare"; "finance"; "retail"; "manufacturing";
   "education"; "government"; "other"]%string.

Definition PURPOSES : list string :=
  ["home"; "auto"; "personal"; "business"; "education";
   "debt-consolidation"]%string.

Definition REGIONS : list string :=
  ["northeast"; "southeast"; "midwest"; "southwest"; "west"]%string.

(** A historical case, or an applicant: a dictionary in which a key is
    absent ([None]) or holds what its producers write, a number under a
    numeric key and a string under a categorical one. *)
Module Case.

Record t : Type := {
  id : option string;
  borrower_id : option string;
  age : option Z;
  credit_score : option Z;
  income : option Q;
  debt : option Q;
  assets : option Q;
  loan_amount : option Q;
  tenure : option Z;
  employment : option string;
  sector : option string;
  purpose : option string;
  region : option string;
  delinquencies : option Z;
  utilization : option Z;
  history_length : option Z;
  decision : option string;
  outcome : option string;
  days_late : option Z
}.

End Case.

Definition normalize_feature (value min_val max_val : Q) : Py.result Q :=
  if Qeq_bool max_val min_val then Py.Ok 0.5
  else Py.div (value - min_val) (max_val - min_val).

(** [get_num(key, default)]: the number under the key, or the default. *)
Definition get_num (x : option Q) (default : Q) : Q :=
  match x with
  | Some v => v
  | None => default
  end.

Definition get_int (x : option Z) (default : Q) : Q :=
  get_num (option_map inject_Z x) default.

(** [.lower().replace('-', '').replace('_', '').replace(' ', '')] *)
Definition clean (s : string) : string :=
  Py.without " " (Py.without "_" (Py.without "-" (Py.lower s))).

(** [valid_options[-1]] *)
Definition last_option (valid_options : list string) : Py.result string :=
  match rev valid_options with
  | opt :: _ => Py.Ok opt
  | [] => Py.Raise Py.IndexError
  end.

Definition matches (lower_val opt_clean : string) : bool :=
  String.eqb lower_val opt_clean
  || TwinSearch.contains opt_clean lower_val
  || TwinSearch.contains lower_val opt_clean.

Definition map_categorical (value : option string) (valid_options : list string)
    : Py.result string :=
  match value with
  | None => last_option valid_options
  | Some EmptyString => last_option valid_options
  | Some v =>
      let lower_val := clean v in
      match find (fun opt => matches lower_val (clean opt)) valid_options with
      | Some opt => Py.Ok opt
      | None => last_option valid_options
      end
  end.

(** [options.index(x)] *)
Fixpoint index (x : string) (options : list string) : Py.result nat :=
  match options with
  | [] => Py.Raise Py.ValueError
  | opt :: rest =>
      if String.eqb opt x then Py.Ok 0%nat
      else i <- index x rest ;; Py.Ok (S i)
  end.

(** [OPTIONS.index(map_categorical(value, OPTIONS)) / len(OPTIONS)] *)
Definition categorical (value : option string) (options : list string)
    : Py.result Q :=
  opt <- map_categorical value options ;;
  i <- index opt options ;;
  Py.div (inject_Z (Z.of_nat i)) (inject_Z (Z.of_nat (List.length options))).

Definition create_feature_vector (applicant : Case.t) : Py.result (list Q) :=
  f_age <- normalize_feature (get_int (Case.age applicant) 35) 18 80 ;;
  f_score <- normalize_feature (get_int (Case.credit_score applicant) 650) 300 850 ;;
  f_income <- normalize_feature (get_num (Case.income applicant) 50000) 10000 500000 ;;
  f_debt <- normalize_feature (get_num (Case.debt applicant) 0) 0 300000 ;;
  f_assets <- normalize_feature (get_num (Case.assets applicant) 0) 0 2000000 ;;
  f_loan <- normalize_feature (get_num (Case.loan_amount applicant) 10000) 1000 500000 ;;
  f_tenure <- normalize_feature (get_int (Case.tenure applicant) 36) 6 84 ;;
  f_delinq <- normalize_feature (get_int (Case.delinquencies applicant) 0) 0 12 ;;
  f_util <- normalize_feature (get_int (Case.utilization applicant) 30) 0 100 ;;
  f_history <- normalize_feature (get_int (Case.history_length applicant) 5) 0 50 ;;
  c_employment <- categorical (Case.employment applicant) EMPLOYMENT_TYPES ;;
  c_sector <- categorical (Case.sector applicant) SECTORS ;;
  c_purpose <- categorical (Case.purpose applicant) PURPOSES ;;
  c_region <- categorical (Case.region applicant) REGIONS ;;
  Py.Ok [f_age; f_score; f_income; f_debt; f_assets; f_loan; f_tenure;
         f_delinq; f_util; f_history;
         c_employment; c_sector; c_purpose; c_region].

(** [similarities.sort(key=lambda x: x[1], reverse=True)]: the sort is
    stable, cases of equal similarity keep their order. *)
Fixpoint insert_desc (x : Case.t * Q) (sorted : list (Case.t * Q))
    : list (Case.t * Q) :=
  match sorted with
  | [] => [x]
  | y :: rest =>
      if Qle_bool (snd y) (snd x) then x :: sorted
      else y :: insert_desc x rest
  end.

Definition sort_desc (similarities : list (Case.t * Q)) : list (Case.t * Q) :=
  fold_right insert_desc [] similarities.

Definition or_text (x : option string) (default : string) : string :=
  match x with
  | Some s => s
  | None => default
  end.

Definition or_int (x : option Z) (default : Z) : Z :=
  match x with
  | Some z => z
  | None => default
  end.

Definition to_twin (scored : Case.t * Q) : FinancialTwin :=
  let case := fst scored in
  {| id := or_text (Case.id case) "UNKNOWN";
     borrower_id := or_text (Case.borrower_id case) "UNKNOWN";
     age := or_int (Case.age case) 0;
     credit_score := or_int (Case.credit_score case) 0;
     income := get_num (Case.income case) 0;
     debt := get_num (Case.debt case) 0;
     assets := get_num (Case.assets case) 0;
     loan_amount := get_num (Case.loan_amount case) 0;
     tenure := or_int (Case.tenure case) 0;
     employment := or_text (Case.employment case) "unknown";
     sector := or_text (Case.sector case) "unknown";
     purpose := or_text (Case.purpose case) "unknown";
     region := or_text (Case.region case) "unknown";
     decision := or_text (Case.decision case) "UNKNOWN";
     outcome := or_text (Case.outcome case) "UNKNOWN";
     days_late := or_int (Case.days_late case) 0;
     similarity := snd scored |}.

(** [models.AnomalyFlag], [models.DecisionResult] and the enumerations
    of its fields. *)
Module AnomalyFlag.

Record t : Type := {
  type : string;
  text : string
}.

End AnomalyFlag.

Inductive Decision : Type := APPROVE | CONDITIONAL | DECLINE.

Inductive RiskTier : Type := LOW | MEDIUM | HIGH.

Module DecisionResult.

Record t : Type := {
  decision : Decision;
  confidence : Q;
  risk_tier : RiskTier;
  reason : string;
  default_rate : Q;
  avg_days_late : Q;
  repaid_count : nat;
  default_count : nat
}.

(** The model checks [confidence] against [ge=0, le=1]; its
    [ValidationError] is a [ValueError]. *)
Definition validated (d : t) : Py.result t :=
  if Qle_bool 0 (confidence d) && Qle_bool (confidence d) 1 then Py.Ok d
  else Py.Raise Py.ValueError.

End DecisionResult.

Definition detect_anomaly_flags (applicant : Case.t)
    : Py.result (list AnomalyFlag.t) :=
  let income := get_num (Case.income applicant) 0 in
  let credit_score := get_int (Case.credit_score applicant) 0 in
  let loan_amount := get_num (Case.loan_amount applicant) 0 in
  let debt := get_num (Case.debt applicant) 0 in
  let assets := get_num (Case.assets applicant) 0 in
  let utilization := get_int (Case.utilization applicant) 0 in
  let delinquencies := get_int (Case.delinquencies applicant) 0 in
  let history_length := get_int (Case.history_length applicant) 0 in
  let flags0 : list AnomalyFlag.t := [] in
  let flags1 :=
    if Py.Qlt_bool 150000 income && Py.Qlt_bool credit_score 600 then
      flags0 ++ [ {| AnomalyFlag.type := "warning";
                     AnomalyFlag.text :=
                       "High income but low credit score - unusual combination" |} ]
    else flags0 in
  let flags2 :=
    if Py.Qlt_bool (income * 2) loan_amount && Py.Qlt_bool history_length 3 then
      flags1 ++ [ {| AnomalyFlag.type := "warning";
                     AnomalyFlag.text :=
                       "Large loan request with thin credit history" |} ]
    else flags1 in
  let flags3 :=
    if Py.Qlt_bool 80 utilization && Py.Qlt_bool 500000 assets then
      flags2 ++ [ {| AnomalyFlag.type := "info";
                     AnomalyFlag.text :=
                       "High utilization despite significant assets" |} ]
    else flags2 in
  let flags4 :=
    if Py.Qlt_bool 3 delinquencies && Py.Qlt_bool 700 credit_score then
      flags3 ++ [ {| AnomalyFlag.type := "warning";
                     AnomalyFlag.text :=
                       "Recent delinquencies inconsistent with credit score" |} ]
    else flags3 in
  dti <- (if Py.Qlt_bool 0 income then Py.div debt income else Py.Ok 0) ;;
  if Py.Qlt_bool 0.5 dti then
    Py.Ok (flags4 ++ [ {| AnomalyFlag.type := "alert";
                          AnomalyFlag.text :=
                            ("High debt-to-income ratio: "
                             ++ Py.format_1f (dti * 100) ++ "%")%string |} ])
  else Py.Ok flags4.

(** [sum(1 for t in twins if t.outcome == 'DEFAULTED')] *)
Definition defaulted (twins : list FinancialTwin) : nat :=
  List.length (filter (fun t => String.eqb (outcome t) "DEFAULTED") twins).

(** [sum(t.days_late for t in twins)] *)
Definition total_days_late (twins : list FinancialTwin) : Z :=
  fold_left Z.add (map days_late twins) 0%Z.

Definition make_decision
    (twins : list FinancialTwin) (anomaly_score : Q) (applicant : Case.t)
    : Py.result DecisionResult.t :=
  match twins with
  | [] =>
      DecisionResult.validated
        {| DecisionResult.decision := DECLINE;
           DecisionResult.confidence := 0.5;
           DecisionResult.risk_tier := HIGH;
           DecisionResult.reason :=
             "Insufficient historical data to evaluate application";
           DecisionResult.default_rate := 0.0;
           DecisionResult.avg_days_late := 0.0;
           DecisionResult.repaid_count := 0;
           DecisionResult.default_count := 0 |}
  | _ :: _ =>
      let n := inject_Z (Z.of_nat (List.length twins)) in
      let default_count := defaulted twins in
      let repaid_count := (List.length twins - default_count)%nat in
      default_rate <- Py.div (inject_Z (Z.of_nat default_count)) n ;;
      avg_days_late <- Py.div (inject_Z (total_days_late twins)) n ;;
      let '(decision, confidence, risk_tier, reason) :=
        if Py.Qlt_bool default_rate 0.1 && Py.Qlt_bool anomaly_score 0.3 then
          (APPROVE, 0.85 + (1 - default_rate) * 0.1 - anomaly_score * 0.1, LOW,
           "Strong cohort performance and typical profile"%string)
        else if Py.Qlt_bool default_rate 0.2 && Py.Qlt_bool anomaly_score 0.5 then
          (CONDITIONAL, 0.7 + (1 - default_rate) * 0.1 - anomaly_score * 0.1,
           MEDIUM,
           "Moderate risk - additional verification recommended"%string)
        else if Py.Qlt_bool 0.6 anomaly_score then
          (DECLINE, 0.6 + anomaly_score * 0.3, HIGH,
           "Profile significantly different from historical cases"%string)
        else if Py.Qlt_bool 0.25 default_rate then
          (DECLINE, 0.7 + default_rate * 0.2, HIGH,
           "Similar borrowers have high default rates"%string)
        else
          (CONDITIONAL, 0.65, MEDIUM,
           "Mixed signals - manual review recommended"%string) in
      DecisionResult.validated
        {| DecisionResult.decision := decision;
           DecisionResult.confidence := Py.min 0.99 confidence;
           DecisionResult.risk_tier := risk_tier;
           DecisionResult.reason := reason;
           DecisionResult.default_rate := default_rate;
           DecisionResult.avg_days_late := avg_days_late;
           DecisionResult.repaid_count := repaid_count;
           DecisionResult.default_count := default_count |}
  end.

(** [models.CreditApplication], as the request model has validated it. *)
Inductive EmploymentType : Type :=
  FULL_TIME | PART_TIME | SELF_EMPLOYED | CONTRACTOR | RETIRED.

Inductive Sector : Type :=
  TECHNOLOGY | HEALTHCARE | FINANCE | RETAIL | MANUFACTURING
| SECTOR_EDUCATION | GOVERNMENT | OTHER.

Inductive LoanPurpose : Type :=
  HOME | AUTO | PERSONAL | BUSINESS | EDUCATION | DEBT_CONSOLIDATION.

Inductive Region : Type :=
  NORTHEAST | SOUTHEAST | MIDWEST | SOUTHWEST | WEST.

Definition employment_value (e : EmploymentType) : string :=
  match e with
  | FULL_TIME => "full-time"
  | PART_TIME => "part-time"
  | SELF_EMPLOYED => "self-employed"
  | CONTRACTOR => "contractor"
  | RETIRED => "retired"
  end.

Definition sector_value (s : Sector) : string :=
  match s with
  | TECHNOLOGY => "technology"
  | HEALTHCARE => "healthcare"
  | FINANCE => "finance"
  | RETAIL => "retail"
  | MANUFACTURING => "manufacturing"
  | SECTOR_EDUCATION => "education"
  | GOVERNMENT => "government"
  | OTHER => "other"
  end.

Definition purpose_value (p : LoanPurpose) : string :=
  match p with
  | HOME => "home"
  | AUTO => "auto"
  | PERSONAL => "personal"
  | BUSINESS => "business"
  | EDUCATION => "education"
  | DEBT_CONSOLIDATION => "debt-consolidation"
  end.

Definition region_value (r : Region) : string :=
  match r with
  | NORTHEAST => "northeast"
  | SOUTHEAST => "southeast"
  | MIDWEST => "midwest"
  | SOUTHWEST => "southwest"
  | WEST => "west"
  end.

Module CreditApplication.

Record t : Type := {
  age : Z;
  credit_score : Z;
  income : Q;
  debt : Q;
  assets : Q;
  loan_amount : Q;
  tenure : Z;
  employment : EmploymentType;
  sector : Sector;
  purpose : LoanPurpose;
  region : Region
}.

End CreditApplication.

Module CreditDecisionResponse.

Record t : Type := {
  twins : list FinancialTwin;
  anomaly_score : Q;
  flags : list AnomalyFlag.t;
  decision : DecisionResult.t
}.

End CreditDecisionResponse.

(** The dictionary [process_credit_application] builds from the
    application: eleven keys. *)
Definition applicant_of (application : CreditApplication.t) : Case.t :=
  {| Case.id := None;
     Case.borrower_id := None;
     Case.age := Some (CreditApplication.age application);
     Case.credit_score := Some (CreditApplication.credit_score application);
     Case.income := Some (CreditApplication.income application);
     Case.debt := Some (CreditApplication.debt application);
     Case.assets := Some (CreditApplication.assets application);
     Case.loan_amount := Some (CreditApplication.loan_amount application);
     Case.tenure := Some (CreditApplication.tenure application);
     Case.employment :=
       Some (employment_value (CreditApplication.employment application));
     Case.sector := Some (sector_value (CreditApplication.sector application));
     Case.purpose := Some (purpose_value (CreditApplication.purpose application));
     Case.region := Some (region_value (CreditApplication.region application));
     Case.delinquencies := None;
     Case.utilization := None;
     Case.history_length := None;
     Case.decision := None;
     Case.outcome := None;
     Case.days_late := None |}.

Section Engine.

(** [numpy.sqrt], and the global [historical_cases]. *)
Variable sqrt : Q -> Q.
Variable historical_cases : list Case.t.

Fixpoint score_cases (applicant_vector : list Q) (cases : list Case.t)
    : Py.result (list (Case.t * Q)) :=
  match cases with
  | [] => Py.Ok []
  | case :: rest =>
      case_vector <- create_feature_vector case ;;
      similarity <- cosine_similarity sqrt applicant_vector case_vector ;;
      scored <- score_cases applicant_vector rest ;;
      Py.Ok ((case, similarity) :: scored)
  end.

Definition find_financial_twins (applicant : Case.t) (k : nat)
    : Py.result (list FinancialTwin) :=
  match historical_cases with
  | [] => Py.Ok []
  | _ :: _ =>
      applicant_vector <- create_feature_vector applicant ;;
      similarities <- score_cases applicant_vector historical_cases ;;
      Py.Ok (map to_twin (firstn k (sort_desc similarities)))
  end.

Definition process_credit_application (application : CreditApplication.t)
    : Py.result CreditDecisionResponse.t :=
  let applicant := applicant_of application in
  twins <- find_financial_twins applicant 50 ;;
  anomaly_score <- calculate_anomaly_score twins ;;
  flags <- detect_anomaly_flags applicant ;;
  decision <- make_decision twins anomaly_score applicant ;;
  Py.Ok {| CreditDecisionResponse.twins := twins;
           CreditDecisionResponse.anomaly_score := anomaly_score;
           CreditDecisionResponse.flags := flags;
           CreditDecisionResponse.decision := decision |}.

End Engine.

End Services.

(* ================================================================= *)
(** ** Engine/vector_store.py *)

Module VectorStore.

(** A condition of a Qdrant filter: a range bound or an exact match on a
    payload field. *)
Inductive range_bound : Type := Gte | Lte | Gt | Lt.

Inductive scalar : Type :=
| Text (s : string)
| Number (q : Q).

Inductive condition : Type :=
| FieldRange (key : string) (bound : range_bound) (operand : Q)
| FieldMatch (key : string) (value : scalar).

(** The [filters] dictionary: under each field, a dictionary of
    operators or a value to match. *)
Inductive filter_value : Type :=
| Operators (ops : list (string * Q))
| Exact (value : scalar).

Definition filters_dict : Type := list (string * filter_value).

(** A point of the collection, and a hit of a query. *)
Record point : Type := {
  point_id : Z;
  point_vector : list Q;
  point_payload : Payload.t
}.

Record scored_point : Type := {
  hit_payload : Payload.t;
  hit_score : Q
}.

(** The [if / elif] chain over the operator of a range query; an
    operator it does not name adds no condition. *)
Definition range_condition (field operator : string) (operand : Q)
    : list condition :=
  if String.eqb operator "$gte" then [FieldRange field Gte operand]
  else if String.eqb operator "$lte" then [FieldRange field Lte operand]
  else if String.eqb operator "$gt" then [FieldRange field Gt operand]
  else if String.eqb operator "$lt" then [FieldRange field Lt operand]
  else [].

Definition field_conditions (entry : string * filter_value) : list condition :=
  match entry with
  | (field, Operators ops) =>
      flat_map (fun '(operator, operand) => range_condition field operator operand)
               ops
  | (field, Exact value) => [FieldMatch field value]
  end.

(** [query_filter]: [None] without filters, and also when no condition
    came out of them. *)
Definition build_filter (filters : option filters_dict) : option (list condition) :=
  match filters with
  | None => None
  | Some [] => None
  | Some entries =>
      match flat_map field_conditions entries with
      | [] => None
      | must_conditions => Some must_conditions
      end
  end.

Definition valid_point (p : point) : bool :=
  (0 <=? point_id p)%Z && Nat.eqb (List.length (point_vector p)) VECTOR_SIZE.

(** The slices [points_data[i:i + batch_size]] for [i] in
    [range(0, len(points_data), batch_size)], [batch_size] positive. *)
Fixpoint slices_from (fuel batch_size : nat) (points_data : list point)
    : list (list point) :=
  match fuel, points_data with
  | S fuel', _ :: _ =>
      firstn batch_size points_data
      :: slices_from fuel' batch_size (skipn batch_size points_data)
  | _, _ => []
  end.

Definition slices (batch_size : nat) (points_data : list point)
    : list (list point) :=
  slices_from (List.length points_data) batch_size points_data.

Section Client.

(** The Qdrant client: its collection is a state of type [store];
    [query_points] answers or raises, [upsert] leaves a new state and
    says whether it raised. *)
Variable store : Type.
Variable query_points :
  store -> list Q -> Z -> option (list condition) -> Py.result (list scored_point).
Variable upsert : store -> list point -> store * option Py.exn.

(** Any exception inside the [try] is raised again as a plain
    [Exception], here [BackendError]. *)
Definition search_similar
    (st : store) (vector : list Q) (top_k : Z) (filters : option filters_dict)
    : Py.result (list TwinSearch.neighbor) :=
  if negb (Nat.eqb (List.length vector) VECTOR_SIZE) then Py.Raise Py.ValueError
  else if (top_k <? 1)%Z then Py.Raise Py.ValueError
  else
    let query_filter := build_filter filters in
    match query_points st vector top_k query_filter with
    | Py.Ok points =>
        Py.Ok (map (fun hit => {| TwinSearch.payload := hit_payload hit;
                                  TwinSearch.score := hit_score hit |})
                   points)
    | Py.Raise _ => Py.Raise Py.BackendError
    end.

Definition upsert_vector
    (st : store) (id : Z) (vector : list Q) (payload : Payload.t)
    : store * Py.result bool :=
  if (id <? 0)%Z then (st, Py.Raise Py.ValueError)
  else if negb (Nat.eqb (List.length vector) VECTOR_SIZE)
  then (st, Py.Raise Py.ValueError)
  else
    match upsert st [ {| point_id := id; point_vector := vector;
                         point_payload := payload |} ] with
    | (st', None) => (st', Py.Ok true)
    | (st', Some _) => (st', Py.Raise Py.BackendError)
    end.

(** The loop over the batches: every point of a batch is checked before
    the batch is sent. *)
Fixpoint upload (st : store) (batches : list (list point)) (total_uploaded : nat)
    : store * Py.result nat :=
  match batches with
  | [] => (st, Py.Ok total_uploaded)
  | batch :: rest =>
      if forallb valid_point batch then
        match upsert st batch with
        | (st', None) => upload st' rest (total_uploaded + List.length batch)
        | (st', Some _) => (st', Py.Raise Py.BackendError)
        end
      else (st, Py.Raise Py.BackendError)
  end.

Definition batch_upsert_vectors
    (st : store) (points_data : list point) (batch_size : Z)
    : store * Py.result nat :=
  match points_data with
  | [] => (st, Py.Ok 0%nat)
  | _ :: _ =>
      if (batch_size =? 0)%Z then (st, Py.Raise Py.BackendError)
      else if (batch_size <? 0)%Z then (st, Py.Ok 0%nat)
      else upload st (slices (Z.to_nat batch_size) points_data) 0
  end.

End Client.

End VectorStore.

(* ================================================================= *)
(** ** Engine/buildvector_store.py *)

Module BuildVectorStore.

(** An entry of [loan_requests.json].  Every key is present; [None] is
    the JSON [null]. *)
Record loan_request : Type := {
  features : Embeddings.application;
  application_id : string;
  outcome_category : option string;
  is_fraud_suspect : option Q;
  is_comeback_story : option Q
}.

(** [float(x) if x else None] *)
Definition stored_number (x : option Q) : Py.entry Q :=
  match x with
  | Some v => if Py.truthy v then Py.Val v else Py.PyNone
  | None => Py.PyNone
  end.

(** [bool(app.get(key, 0))] *)
Definition stored_flag (x : option Q) : bool :=
  match x with
  | Some v => Py.truthy v
  | None => false
  end.

(** The keys of the payload that [twin_search.py] reads. *)
Definition payload_of (app : loan_request) : Payload.t :=
  {| Payload.application_id := Py.Val (application_id app);
     Payload.outcome := outcome_category app;
     Payload.requested_amount :=
       Py.get (stored_number (Embeddings.requested_amount (features app)));
     Payload.fico := stored_number (Embeddings.fico_snapshot (features app));
     Payload.dti := stored_number (Embeddings.dti_snapshot (features app));
     Payload.is_fraud_suspect := Some (stored_flag (is_fraud_suspect app));
     Payload.is_comeback_story := Some (stored_flag (is_comeback_story app)) |}.

Section Builder.

Variable log1p : Q -> Q.

(** [points_data]: one point per application, numbered by [enumerate]. *)
Fixpoint prepare_from (idx : nat) (applications : list loan_request)
    : list VectorStore.point :=
  match applications with
  | [] => []
  | app :: rest =>
      {| VectorStore.point_id := Z.of_nat idx;
         VectorStore.point_vector :=
           Embeddings.create_application_vector log1p (features app) VECTOR_SIZE;
         VectorStore.point_payload := payload_of app |}
      :: prepare_from (S idx) rest
  end.

Definition prepare_points (applications : list loan_request)
    : list VectorStore.point :=
  prepare_from 0 applications.

End Builder.

End BuildVectorStore.

(* ================================================================= *)
(** ** [find_twins] on the vector store, as [Engine/app.py] calls it *)

Module App.

Import Embeddings TwinSearch.

(** The dictionary [find_twins] passes as [filters]. *)
Definition filters_of (f : amount_filter) : VectorStore.filters_dict :=
  [ ("requested_amount"%string,
     VectorStore.Operators [("$gte"%string, gte f); ("$lte"%string, lte f)]) ].

Section Server.

Variable log1p : Q -> Q.
Variable float_str : Q -> string.
Variable get_llm_explanation : decision_dict -> application -> option string.
Variable average : list Q -> Q.

(** The Qdrant client and the state of its collection. *)
Variable store : Type.
Variable query_points :
  store -> list Q -> Z -> option (list VectorStore.condition)
  -> Py.result (list VectorStore.scored_point).

(** [search_similar(vector=vector, top_k=top_k, filters=filters)] as
    [find_twins] calls it. *)
Definition search (st : store)
    (vector : list Q) (top_k : nat) (filters : option amount_filter)
    : Py.result (list neighbor) :=
  VectorStore.search_similar store query_points st vector (Z.of_nat top_k)
    (option_map filters_of filters).

(** [find_twins] bound to the vector store. *)
Definition find_twins (st : store)
    (new_application : application) (top_k : nat) (threshold : Q)
    : Py.result decision_dict :=
  TwinSearch.find_twins log1p float_str (search st) get_llm_explanation
    average new_application top_k threshold.

End Server.

End App.

(* ================================================================= *)
(** * The statements of the specification

    Definitions that follow the words of the specification; the
    properties below compare the code with them. *)

Module Spec.

Import Embeddings.

(** The arithmetic mean of a list of numbers. *)
Definition total (l : list Q) : Q := fold_right Qplus 0 l.

Definition mean (l : list Q) : Q := total l / inject_Z (Z.of_nat (List.length l)).

(** The ratio-like and count-like features: the coordinate each one is
    encoded at, the field it is read from, and its domain cap. *)
Definition capped_features : list (nat * (application -> option Q) * Q) :=
  [ (2%nat, dti_snapshot, 100);
    (3%nat, payment_to_income_ratio, 1);
    (4%nat, loan_to_income_ratio, 1);
    (5%nat, revolving_utilization_snapshot, 100);
    (7%nat, credit_history_length_snapshot, 50);
    (8%nat, nb_previous_loans, 10);
    (9%nat, open_accounts, 30);
    (10%nat, total_accounts, 50);
    (11%nat, delinquencies_2y, 10);
    (12%nat, inquiries_6m, 10);
    (13%nat, public_records, 5) ].

(** The value of an optional field, absent meaning zero. *)
Definition value (x : option Q) : Q :=
  match x with
  | Some v => v
  | None => 0
  end.

(** The documented input domain: no ratio and no count is negative. *)
Definition in_domain (a : application) : Prop :=
  forall i fld cap, In (i, fld, cap) capped_features -> 0 <= value (fld a).

(** The number of neighbors whose outcome is exactly [label]. *)
Definition outcome_dec (o1 o2 : option string) : {o1 = o2} + {o1 <> o2}.
Proof. decide equality. apply string_dec. Defined.

Definition outcomes (results : list TwinSearch.neighbor) : list (option string) :=
  map (fun r => Payload.outcome (TwinSearch.payload r)) results.

Definition labelled (label : string) (results : list TwinSearch.neighbor) : nat :=
  count_occ outcome_dec (outcomes results) (Some label).

(** A neighbor whose outcome is none of the four categories that are
    counted. *)
Definition uncategorised (r : TwinSearch.neighbor) : Prop :=
  forall label,
    In label ["success"; "default"; "late_payments"; "rejected"]%string ->
    Payload.outcome (TwinSearch.payload r) <> Some label.

(** A count divided by the size of the cohort. *)
Definition rate (count : nat) (results : list TwinSearch.neighbor) : Q :=
  inject_Z (Z.of_nat count) / inject_Z (Z.of_nat (List.length results)).




(** A neighbor carries a flag when its payload holds it set. *)
Definition carries (f : option bool) : bool :=
  match f with
  | Some true => true
  | _ => false
  end.

Definition fraud_suspects (results : list TwinSearch.neighbor) : nat :=
  List.length
    (filter (fun r => carries (Payload.is_fraud_suspect (TwinSearch.payload r)))
            (firstn 20 results)).

(** The fraud signal: five flagged neighbors among the top twenty, or an
    average similarity above 0.999. *)
Definition fraud_signal (results : list TwinSearch.neighbor) : Prop :=
  (5 <= fraud_suspects results)%nat
  \/ 0.999 < mean (map TwinSearch.score results).

(** The same signal on the average similarity the engine computed, a
    double: the value its comparison reads. *)
Definition fraud_signal_on
    (average_similarity : Q) (results : list TwinSearch.neighbor) : Prop :=
  (5 <= fraud_suspects results)%nat \/ 0.999 < average_similarity.

(** The first neighbor, in the order of the list, that carries the
    comeback-story flag. *)
Definition first_comeback
    (results : list TwinSearch.neighbor) : option TwinSearch.neighbor :=
  find (fun r => carries (Payload.is_comeback_story (TwinSearch.payload r)))
       results.

(** The similarity-based anomaly score: the top similarity is the
    largest one, [top1] and [top10] are the first and the tenth of the
    list. *)
Definition descending (sims : list Q) : Prop :=
  Sorted (fun x y => y <= x) sims.

Definition top_similarity (sims : list Q) : Q :=
  match sims with
  | [] => 0
  | s :: rest => fold_left Qmax rest s
  end.

Definition decay (sims : list Q) : Q :=
  match sims, nth_error sims 9 with
  | top1 :: _, Some top10 =>
      if Qlt_le_dec 0 top1 then (top1 - top10) / top1 else 0
  | _, _ => 0
  end.

Definition clamp01 (x : Q) : Q :=
  if Qlt_le_dec x 0 then 0 else if Qlt_le_dec 1 x then 1 else x.

Definition anomaly_score (sims : list Q) : Q :=
  clamp01 (0.4 * (1 - top_similarity sims)
           + 0.3 * decay sims
           + 0.3 * (1 - mean sims)).

(** A record in which every numeric field holding zero is dropped. *)
Definition forget_zero (x : option Q) : option Q :=
  match x with
  | Some v => if Qeq_bool v 0 then None else Some v
  | None => None
  end.

Definition forget_zeros (a : application) : application :=
  {| requested_amount := forget_zero (requested_amount a);
     annual_income_snapshot := forget_zero (annual_income_snapshot a);
     dti_snapshot := forget_zero (dti_snapshot a);
     payment_to_income_ratio := forget_zero (payment_to_income_ratio a);
     loan_to_income_ratio := forget_zero (loan_to_income_ratio a);
     revolving_utilization_snapshot :=
       forget_zero (revolving_utilization_snapshot a);
     fico_snapshot := forget_zero (fico_snapshot a);
     credit_history_length_snapshot :=
       forget_zero (credit_history_length_snapshot a);
     nb_previous_loans := forget_zero (nb_previous_loans a);
     open_accounts := forget_zero (open_accounts a);
     total_accounts := forget_zero (total_accounts a);
     delinquencies_2y := forget_zero (delinquencies_2y a);
     inquiries_6m := forget_zero (inquiries_6m a);
     public_records := forget_zero (public_records a);
     term := term a;
     grade := grade a;
     loan_purpose := loan_purpose a |}.

(** A string of whitespace around a text. *)
Definition padded (before : list ascii) (text : string) (after : list ascii)
    : string :=
  string_of_list_ascii (before ++ list_ascii_of_string text ++ after).

Definition blank (l : list ascii) : Prop :=
  Forall (fun c => Py.is_space c = true) l.

(** Two decisions with the same verdict, terms and analysis. *)
Definition same_core (d d' : TwinSearch.decision_dict) : Prop :=
  TwinSearch.decision d' = TwinSearch.decision d
  /\ TwinSearch.confidence d' = TwinSearch.confidence d
  /\ TwinSearch.conditions d' = TwinSearch.conditions d
  /\ TwinSearch.recommended_amount d' = TwinSearch.recommended_amount d
  /\ TwinSearch.analysis d' = TwinSearch.analysis d
  /\ TwinSearch.is_fraud_suspect d' = TwinSearch.is_fraud_suspect d.

(** The application names no previous loan. *)
Definition first_loan (a : application) : Prop :=
  match nb_previous_loans a with
  | Some n => n == 0
  | None => True
  end.

(** The requested amounts of the successful neighbors, [None] and zero
    alike counting for zero. *)
Definition successful_amounts (results : list TwinSearch.neighbor) : list Q :=
  map (fun r => value (Payload.requested_amount (TwinSearch.payload r)))
      (filter (TwinSearch.outcome_is "success") results).

(** The operators [search_similar] understands. *)
Definition known_operators : list string := ["$gte"; "$lte"; "$gt"; "$lt"]%string.

(** The filter [find_twins] asks for: the requested amount within 30%
    either way, when an amount is requested. *)
Definition amount_window (a : application) : option (list VectorStore.condition) :=
  match requested_amount a with
  | Some v =>
      if Qeq_bool v 0 then None
      else Some [ VectorStore.FieldRange "requested_amount" VectorStore.Gte (v * 0.7);
                  VectorStore.FieldRange "requested_amount" VectorStore.Lte (v * 1.3) ]
  | None => None
  end.

(** A client whose [upsert] never raises. *)
Definition healthy {store : Type}
    (upsert : store -> list VectorStore.point -> store * option Py.exn) : Prop :=
  forall st batch, snd (upsert st batch) = None.

(** The collection after the batches were sent one after the other. *)
Definition sent {store : Type}
    (upsert : store -> list VectorStore.point -> store * option Py.exn)
    (st : store) (batches : list (list VectorStore.point)) : store :=
  fold_left (fun s batch => fst (upsert s batch)) batches st.

(** A stored number that reads as false: [None] or zero. *)
Definition falsy (x : option Q) : Prop :=
  match x with
  | Some v => v == 0
  | None => True
  end.

(** The risk tier that goes with a decision of the backend. *)
Definition tier_of (d : Services.Decision) : Services.RiskTier :=
  match d with
  | Services.APPROVE => Services.LOW
  | Services.CONDITIONAL => Services.MEDIUM
  | Services.DECLINE => Services.HIGH
  end.

(** A list of flags holds one of the given type, or of the given text. *)
Definition has_type (kind : string) (flags : list Services.AnomalyFlag.t) : Prop :=
  exists f, In f flags /\ Services.AnomalyFlag.type f = kind.

Definition has_text (text : string) (flags : list Services.AnomalyFlag.t) : Prop :=
  exists f, In f flags /\ Services.AnomalyFlag.text f = text.

End Spec.

(* ================================================================= *)
(** * Concrete cohorts and collaborators

    Inputs on which the properties are exercised.  The functions standing
    for [numpy] and for the services are rational stand-ins: the
    properties hold for every function in their place. *)

Module Scenarios.

Import Embeddings TwinSearch.

(** The lower bound [x / (1 + x)] of [ln (1 + x)]. *)
Definition log1p_q (x : Q) : Q := x / (1 + x).

(** The square root, rounded down to a multiple of the denominator's
    inverse; exact on the squares of rationals. *)
Definition sqrt_q (x : Q) : Q :=
  inject_Z (Z.sqrt (Qnum x * Zpos (Qden x))) / inject_Z (Zpos (Qden x)).

(** The double nearest to a rational, a half going to the even
    significand: 53 bits, exponents down to the subnormal range, no
    overflow. *)
Definition pow2 (e : Z) : Q :=
  if (0 <=? e)%Z then inject_Z (2 ^ e) else 1 / inject_Z (2 ^ (- e)).

Definition double (x : Q) : Q :=
  if Qeq_bool x 0 then 0
  else
    let e0 := (Z.log2 (Z.abs (Qnum x)) - Z.log2 (Zpos (Qden x)))%Z in
    let magnitude := if Py.Qlt_bool x 0 then - x else x in
    let e := if Py.Qlt_bool magnitude (pow2 e0) then (e0 - 1)%Z else e0 in
    let q := Z.max (e - 52) (-1074) in
    inject_Z (Py.round_half_even (x / pow2 q)) * pow2 q.

(** [sum(scores) / len(scores)] on doubles, one rounded addition per
    score and a rounded division: the average as the interpreters
    before Python 3.12 compute it. *)
Definition average_q (scores : list Q) : Q :=
  double (fold_left (fun acc x => double (acc + x)) scores 0
          / inject_Z (Z.of_nat (List.length scores))).

(** A float printed with one decimal. *)
Definition float_str_q (x : Q) : string :=
  (Py.str_int (Qfloor x) ++ "."
   ++ Py.str_int (Qfloor ((x - inject_Z (Qfloor x)) * 10)))%string.

(** [get_llm_explanation] without an API key: always [None]. *)
Definition no_llm (d : decision_dict) (a : application) : option string := None.

(** An index that answers every query with the same hits, and one that
    cannot be reached. *)
Definition index_of (hits : list neighbor)
    (vector : list Q) (top_k : nat) (filters : option amount_filter)
    : Py.result (list neighbor) :=
  Py.Ok hits.

Definition unreachable_index
    (vector : list Q) (top_k : nat) (filters : option amount_filter)
    : Py.result (list neighbor) :=
  Py.Raise Py.BackendError.

(** The application of the self-test of [twin_search.py]. *)
Definition test_application : application :=
  {| requested_amount := Some 15000;
     annual_income_snapshot := Some 60000;
     dti_snapshot := Some 18.5;
     payment_to_income_ratio := Some 0.25;
     loan_to_income_ratio := Some 0.25;
     revolving_utilization_snapshot := Some 45.2;
     fico_snapshot := Some 720;
     credit_history_length_snapshot := Some 8.3;
     nb_previous_loans := Some 2;
     open_accounts := Some 8;
     total_accounts := Some 15;
     delinquencies_2y := Some 0;
     inquiries_6m := Some 1;
     public_records := Some 0;
     term := Some " 36 months"%string;
     grade := Some "B"%string;
     loan_purpose := Some "debt_consolidation"%string |}.

(** A stored case with the given outcome and flags. *)
Definition stored (label : string) (fraud comeback : bool) (dti : Py.entry Q)
    : Payload.t :=
  {| Payload.application_id := Py.Val "LC-1001"%string;
     Payload.outcome := Some label;
     Payload.requested_amount := Some 9000;
     Payload.fico := Py.Val 705;
     Payload.dti := dti;
     Payload.is_fraud_suspect := Some fraud;
     Payload.is_comeback_story := Some comeback |}.

Definition hit (p : Payload.t) (s : Q) : neighbor :=
  {| payload := p; score := s |}.

(** [n] hits with the same outcome and score. *)
Definition cohort (n : nat) (label : string) (s : Q) : list neighbor :=
  repeat (hit (stored label false false (Py.Val 12.5)) s) n.

(** 92 successes and 8 defaults. *)
Definition cohort_92_8 : list neighbor :=
  cohort 92 "success" 0.92 ++ cohort 8 "default" 0.92.

(** 60 successes and 40 defaults, the first default being a comeback
    story with a debt-to-income ratio of 31.25. *)
Definition cohort_60_40 : list neighbor :=
  cohort 60 "success" 0.9
  ++ hit (stored "default" false true (Py.Val 31.25)) 0.9
  :: cohort 39 "default" 0.9.



(** 23 successes at 0.9990000000000001, the double next above 0.999. *)
Definition cohort_at_threshold : list neighbor :=
  cohort 23 "success" 0.9990000000000001.

(** Ten defaults, the first a comeback story whose stored ratio is
    [None]: what [buildvector_store.py] writes for a ratio of zero. *)
Definition cohort_comeback_without_dti : list neighbor :=
  hit (stored "default" false true Py.PyNone) 0.9 :: cohort 9 "default" 0.9.

(** An analysis with the given rates, as [make_decision] reads it. *)
Definition rates (success default late : Q) : analysis_dict :=
  {| total_twins := 100; success_count := 0; default_count := 0;
     late_count := 0; rejected_count := Some 0%nat;
     success_rate := success; default_rate := default; late_rate := late;
     avg_similarity := 0.92; top_twins := [] |}.

(** Ten twins ranked by decreasing similarity. *)
Definition twin (name : string) (s : Q) : Services.FinancialTwin :=
  {| Services.id := name; Services.borrower_id := "B-17";
     Services.age := 41; Services.credit_score := 702;
     Services.income := 58000; Services.debt := 12000;
     Services.assets := 30000; Services.loan_amount := 15000;
     Services.tenure := 36; Services.employment := "full-time";
     Services.sector := "retail"; Services.purpose := "auto";
     Services.region := "west"; Services.decision := "APPROVE";
     Services.outcome := "REPAID"; Services.days_late := 0;
     Services.similarity := s |}.

Definition ranked_twins : list Services.FinancialTwin :=
  map (twin "CASE")
      [0.98; 0.97; 0.95; 0.95; 0.93; 0.90; 0.88; 0.85; 0.80; 0.49].

(** A collection that records the batches it was sent, in order. *)
Definition collection : Type := list (list VectorStore.point).

Definition record_batch (st : collection) (batch : list VectorStore.point)
    : collection * option Py.exn :=
  (st ++ [batch], None).

(** Loan requests of the data set, built on the self-test application. *)
Definition request (name : string) : BuildVectorStore.loan_request :=
  {| BuildVectorStore.features := test_application;
     BuildVectorStore.application_id := name;
     BuildVectorStore.outcome_category := Some "success"%string;
     BuildVectorStore.is_fraud_suspect := Some 0;
     BuildVectorStore.is_comeback_story := Some 0 |}.

Definition requests : list BuildVectorStore.loan_request :=
  [request "LC-1"; request "LC-2"; request "LC-3"].

(** A point whose vector has two coordinates, among prepared points. *)
Definition short_point : VectorStore.point :=
  {| VectorStore.point_id := 7;
     VectorStore.point_vector := [0.1; 0.2];
     VectorStore.point_payload := stored "success" false false (Py.Val 12.5) |}.

Definition points_with_short_vector : list VectorStore.point :=
  BuildVectorStore.prepare_points log1p_q [request "LC-1"; request "LC-2"]
  ++ short_point :: BuildVectorStore.prepare_points log1p_q [request "LC-3"].

(** A collection that answers every query with all the cases it holds. *)
Definition holding (hits : list neighbor) : list VectorStore.scored_point :=
  map (fun r => {| VectorStore.hit_payload := payload r;
                   VectorStore.hit_score := score r |}) hits.

Definition answer_all (st : list VectorStore.scored_point)
    (vector : list Q) (top_k : Z) (must : option (list VectorStore.condition))
    : Py.result (list VectorStore.scored_point) :=
  Py.Ok st.

(** The self-test application with a score and a ratio of one's own. *)
Definition application_with (fico dti : option Q) : application :=
  {| requested_amount := Some 15000;
     annual_income_snapshot := Some 60000;
     dti_snapshot := dti;
     payment_to_income_ratio := Some 0.25;
     loan_to_income_ratio := Some 0.25;
     revolving_utilization_snapshot := Some 45.2;
     fico_snapshot := fico;
     credit_history_length_snapshot := Some 8.3;
     nb_previous_loans := Some 2;
     open_accounts := Some 8;
     total_accounts := Some 15;
     delinquencies_2y := Some 0;
     inquiries_6m := Some 1;
     public_records := Some 0;
     term := Some " 36 months"%string;
     grade := Some "B"%string;
     loan_purpose := Some "debt_consolidation"%string |}.

(** A loan request of a borrower without debt: a ratio of zero. *)
Definition debt_free_request : BuildVectorStore.loan_request :=
  {| BuildVectorStore.features := application_with (Some 720) (Some 0);
     BuildVectorStore.application_id := "LC-4";
     BuildVectorStore.outcome_category := Some "default"%string;
     BuildVectorStore.is_fraud_suspect := Some 0;
     BuildVectorStore.is_comeback_story := Some 1 |}.

End Scenarios.

(* ================================================================= *)
(** * Properties *)

Import Spec.

(** ** Comparisons and clamps *)

Lemma Qlt_bool_iff (x y : Q) : Py.Qlt_bool x y = true <-> x < y.
Proof.
  unfold Py.Qlt_bool. rewrite negb_true_iff.
  split; intro H.
  - apply Qnot_le_lt. intro Hle. apply Qle_bool_iff in Hle. congruence.
  - destruct (Qle_bool y x) eqn:E; [|reflexivity].
    apply Qle_bool_iff in E. exfalso. apply (Qlt_not_le _ _ H E).
Qed.

Lemma Qlt_bool_false_iff (x y : Q) : Py.Qlt_bool x y = false <-> y <= x.
Proof.
  unfold Py.Qlt_bool. rewrite negb_false_iff. apply Qle_bool_iff.
Qed.

Lemma Qle_bool_false_iff (x y : Q) : Qle_bool x y = false <-> y < x.
Proof.
  split; intro H.
  - apply Qnot_le_lt. intro Hle. apply Qle_bool_iff in Hle. congruence.
  - destruct (Qle_bool x y) eqn:E; [|reflexivity].
    apply Qle_bool_iff in E. exfalso. apply (Qlt_not_le _ _ H E).
Qed.

Lemma Qlt_bool_compat (x x' y y' : Q) :
  x == x' -> y == y' -> Py.Qlt_bool x y = Py.Qlt_bool x' y'.
Proof.
  intros Hx Hy.
  destruct (Py.Qlt_bool x y) eqn:E; symmetry.
  - apply Qlt_bool_iff. apply Qlt_bool_iff in E. now rewrite <- Hx, <- Hy.
  - apply Qlt_bool_false_iff. apply Qlt_bool_false_iff in E.
    now rewrite <- Hx, <- Hy.
Qed.

Lemma py_min_spec (a b : Q) : Py.min a b == Qmin a b.
Proof.
  unfold Py.min. destruct (Py.Qlt_bool b a) eqn:E.
  - apply Qlt_bool_iff in E. symmetry. apply Q.min_r. now apply Qlt_le_weak.
  - apply Qlt_bool_false_iff in E. symmetry. now apply Q.min_l.
Qed.

Lemma py_max_spec (a b : Q) : Py.max a b == Qmax a b.
Proof.
  unfold Py.max. destruct (Py.Qlt_bool a b) eqn:E.
  - apply Qlt_bool_iff in E. symmetry. apply Q.max_r. now apply Qlt_le_weak.
  - apply Qlt_bool_false_iff in E. symmetry. now apply Q.max_l.
Qed.

Lemma py_min_one_bounds (x : Q) : 0 <= x -> 0 <= Py.min x 1 <= 1.
Proof.
  intro Hx. unfold Py.min. destruct (Py.Qlt_bool 1 x) eqn:E.
  - split; lra.
  - apply Qlt_bool_false_iff in E. split; lra.
Qed.

Lemma or_else_zero (x : option Q) :
  Py.or_else x 0 == match x with Some v => v | None => 0 end.
Proof.
  destruct x as [v|]; simpl; [|reflexivity].
  unfold Py.truthy. destruct (Qeq_bool v 0) eqn:E; simpl; [|reflexivity].
  apply Qeq_bool_iff in E. now symmetry.
Qed.

Lemma or_else_nonneg (x : option Q) :
  match x with Some v => 0 <= v | None => True end -> 0 <= Py.or_else x 0.
Proof.
  intro H. rewrite or_else_zero. destruct x; [assumption|lra].
Qed.

Lemma div_ok (x y : Q) : ~ y == 0 -> Py.div x y = Py.Ok (x / y).
Proof.
  intro H. unfold Py.div. destruct (Qeq_bool y 0) eqn:E; [|reflexivity].
  apply Qeq_bool_iff in E. contradiction.
Qed.

Lemma of_nat_nonzero (n : nat) : n <> 0%nat -> ~ inject_Z (Z.of_nat n) == 0.
Proof.
  intros Hn H. unfold Qeq in H. simpl in H. lia.
Qed.

Lemma fold_left_Qplus (l : list Q) (acc : Q) :
  fold_left Qplus l acc == acc + total l.
Proof.
  revert acc. induction l as [|x l IH]; intro acc; simpl.
  - unfold total; simpl. ring.
  - rewrite IH. unfold total; simpl. ring.
Qed.

Lemma fold_left_Qplus_total (l : list Q) : fold_left Qplus l 0 == total l.
Proof. rewrite fold_left_Qplus. ring. Qed.

(** ** Feature encoding *)

Section EncoderFacts.

Import Embeddings.

Variable log1p : Q -> Q.

Lemma features_length (a : application) : List.length (features log1p a) = 22%nat.
Proof. reflexivity. Qed.

Lemma create_application_vector_length (a : application) (n : nat) :
  List.length (create_application_vector log1p a n) = n.
Proof.
  unfold create_application_vector, pad.
  rewrite length_firstn, length_app, repeat_length. lia.
Qed.

Lemma create_application_vector_nth (a : application) (n i : nat) :
  (i < 22)%nat -> (i < n)%nat ->
  nth_error (create_application_vector log1p a n) i
  = nth_error (features log1p a) i.
Proof.
  intros Hi Hn. unfold create_application_vector, pad.
  rewrite nth_error_firstn.
  destruct (Nat.ltb_spec i n) as [_|Hge]; [|lia].
  apply nth_error_app1. rewrite features_length. exact Hi.
Qed.

(** Positions past the features hold the padding zero. *)
Lemma create_application_vector_padding (a : application) (n i : nat) :
  (22 <= i)%nat -> (i < n)%nat ->
  nth_error (create_application_vector log1p a n) i = Some 0.0.
Proof.
  intros Hi Hn. unfold create_application_vector, pad.
  rewrite nth_error_firstn.
  destruct (Nat.ltb_spec i n) as [_|Hge]; [|lia].
  rewrite nth_error_app2 by (rewrite features_length; exact Hi).
  rewrite features_length. apply nth_error_repeat. lia.
Qed.

Lemma capped_coordinate (x : option Q) (cap : Q) :
  0 < cap -> 0 <= value x ->
  Py.min (Py.or_else x 0 / cap) 1 == Qmin (value x / cap) 1
  /\ 0 <= Py.min (Py.or_else x 0 / cap) 1 <= 1.
Proof.
  intros Hcap Hx.
  assert (Hv : Py.or_else x 0 == value x) by apply or_else_zero.
  split.
  - rewrite py_min_spec, Hv. reflexivity.
  - apply py_min_one_bounds. rewrite Hv.
    apply Qle_shift_div_l; [exact Hcap|]. lra.
Qed.

Lemma uncapped_coordinate (x : option Q) :
  0 <= value x ->
  Py.min (Py.or_else x 0) 1 == Qmin (value x / 1) 1
  /\ 0 <= Py.min (Py.or_else x 0) 1 <= 1.
Proof.
  intro Hx.
  assert (Hv : Py.or_else x 0 == value x) by apply or_else_zero.
  split.
  - rewrite py_min_spec, Hv. apply Q.min_compat; [field|reflexivity].
  - apply py_min_one_bounds. now rewrite Hv.
Qed.

(** C8.  The encoder is a function of the record alone; its result has
    exactly [vector_size] coordinates; on a record of the documented
    domain every ratio-like and count-like coordinate is the field
    divided by its cap, clamped to at most 1, and lies in [0,1]; the
    credit-score coordinate is the score divided by 850, unclamped. *)
Theorem create_application_vector_encoding
    (a : application) (vector_size : nat) (Hdom : in_domain a) :
  create_application_vector log1p a vector_size
  = create_application_vector log1p a vector_size
  /\ List.length (create_application_vector log1p a vector_size) = vector_size
  /\ (forall i fld cap,
        In (i, fld, cap) capped_features -> (i < vector_size)%nat ->
        exists x,
          nth_error (create_application_vector log1p a vector_size) i = Some x
          /\ x == Qmin (value (fld a) / cap) 1
          /\ 0 <= x <= 1)
  /\ (forall s,
        fico_snapshot a = Some s -> ~ s == 0 -> (6 < vector_size)%nat ->
        nth_error (create_application_vector log1p a vector_size) 6
        = Some (s / 850)).
Proof.
  split; [reflexivity|].
  split; [apply create_application_vector_length|].
  split.
  - intros i fld cap Hin Hi.
    pose proof (Hdom i fld cap Hin) as Hnonneg.
    simpl in Hin.
    repeat match goal with
           | H : _ \/ _ |- _ => destruct H as [H|H]
           | H : False |- _ => destruct H
           end;
      injection Hin as <- <- <-;
      rewrite create_application_vector_nth by (simpl; lia);
      simpl; eexists; (split; [reflexivity|]);
      first [ apply uncapped_coordinate; exact Hnonneg
            | apply capped_coordinate; [reflexivity | exact Hnonneg] ].
  - intros s Hs Hnz Hn.
    rewrite create_application_vector_nth by lia.
    simpl. rewrite Hs. simpl.
    unfold Py.truthy. destruct (Qeq_bool s 0) eqn:E; [|reflexivity].
    apply Qeq_bool_iff in E. contradiction.
Qed.

End EncoderFacts.

(** ** Cohort analysis *)

Section AnalysisFacts.

Import TwinSearch.

Lemma count_outcome_labelled (label : string) (results : list neighbor) :
  count_outcome label results = labelled label results.
Proof.
  unfold count_outcome, labelled, outcomes.
  induction results as [|r results IH]; [reflexivity|].
  simpl. unfold outcome_is at 1.
  destruct (Payload.outcome (payload r)) as [o|].
  - destruct (String.eqb_spec o label) as [->|Hne].
    + destruct (outcome_dec (Some label) (Some label)) as [_|Hc];
        [|congruence].
      simpl. now rewrite IH.
    + destruct (outcome_dec (Some o) (Some label)) as [Hc|_];
        [congruence|exact IH].
  - destruct (outcome_dec None (Some label)) as [Hc|_];
      [discriminate|exact IH].
Qed.

Lemma sum_scores_total (results : list neighbor) :
  sum_scores results == total (map score results).
Proof. apply fold_left_Qplus_total. Qed.

(** The non-empty branch of [analyze_twins], step by step. *)
Lemma analyze_twins_nonempty (results : list neighbor) :
  results <> [] ->
  let n := of_nat (List.length results) in
  analyze_twins results
  = Py.Ok {| total_twins := List.length results;
             success_count := count_outcome "success" results;
             default_count := count_outcome "default" results;
             late_count := count_outcome "late_payments" results;
             rejected_count := Some (count_outcome "rejected" results);
             success_rate := of_nat (count_outcome "success" results) / n;
             default_rate := of_nat (count_outcome "default" results) / n;
             late_rate := of_nat (count_outcome "late_payments" results) / n;
             avg_similarity := sum_scores results / n;
             top_twins := map summarize (firstn 5 results) |}.
Proof.
  intros Hne n. unfold analyze_twins.
  destruct results as [|r results]; [congruence|].
  assert (Hn : ~ of_nat (List.length (r :: results)) == 0)
    by (apply of_nat_nonzero; discriminate).
  change (Nat.eqb (List.length (r :: results)) 0) with false.
  cbv iota.
  rewrite !(div_ok _ _ Hn). reflexivity.
Qed.

(** C5.  [analyze_twins] returns on every list.  On the empty list every
    statistic it reports is zero; on a non-empty list each rate is the
    number of neighbors with exactly that outcome over the size of the
    list, and the average similarity is the mean of the scores. *)
Theorem analyze_twins_statistics :
  (forall results, exists a, analyze_twins results = Py.Ok a)
  /\ (exists a,
        analyze_twins [] = Py.Ok a
        /\ total_twins a = 0%nat
        /\ success_count a = 0%nat /\ default_count a = 0%nat
        /\ late_count a = 0%nat
        /\ success_rate a == 0 /\ default_rate a == 0 /\ late_rate a == 0
        /\ avg_similarity a == 0
        /\ top_twins a = [])
  /\ (forall results, results <> [] ->
      exists a,
        analyze_twins results = Py.Ok a
        /\ total_twins a = List.length results
        /\ success_count a = labelled "success" results
        /\ default_count a = labelled "default" results
        /\ late_count a = labelled "late_payments" results
        /\ success_rate a == rate (labelled "success" results) results
        /\ default_rate a == rate (labelled "default" results) results
        /\ late_rate a == rate (labelled "late_payments" results) results
        /\ avg_similarity a == mean (map score results)).
Proof.
  split; [|split].
  - intros [|r results].
    + eexists. reflexivity.
    + eexists. apply analyze_twins_nonempty. discriminate.
  - eexists. split; [reflexivity|]. cbn. repeat split; reflexivity.
  - intros results Hne. eexists.
    split; [apply (analyze_twins_nonempty results Hne)|].
    cbn [total_twins success_count default_count late_count
         success_rate default_rate late_rate avg_similarity].
    rewrite !count_outcome_labelled.
    repeat split; try reflexivity.
    unfold mean. rewrite sum_scores_total, length_map. reflexivity.
Qed.

(** At most one of the four counted labels is the outcome of a neighbor. *)
Lemma one_label_at_most (r : neighbor) :
  (Nat.b2n (outcome_is "success" r) + Nat.b2n (outcome_is "default" r)
   + Nat.b2n (outcome_is "late_payments" r)
   + Nat.b2n (outcome_is "rejected" r) <= 1)%nat.
Proof.
  unfold outcome_is. destruct (Payload.outcome (payload r)) as [o|];
    [|simpl; lia].
  destruct (String.eqb_spec o "success") as [->|_]; [simpl; lia|].
  destruct (String.eqb_spec o "default") as [->|_]; [simpl; lia|].
  destruct (String.eqb_spec o "late_payments") as [->|_]; [simpl; lia|].
  destruct (o =? "rejected")%string; simpl; lia.
Qed.

Lemma count_outcome_cons (label : string) (r : neighbor) (results : list neighbor) :
  count_outcome label (r :: results)
  = (Nat.b2n (outcome_is label r) + count_outcome label results)%nat.
Proof.
  unfold count_outcome. simpl. destruct (outcome_is label r); reflexivity.
Qed.

Lemma counted_labels_bounded (results : list neighbor) :
  (count_outcome "success" results + count_outcome "default" results
   + count_outcome "late_payments" results
   + count_outcome "rejected" results <= List.length results)%nat.
Proof.
  induction results as [|r results IH]; [unfold count_outcome; simpl; lia|].
  rewrite !count_outcome_cons. pose proof (one_label_at_most r) as Hone.
  cbn [List.length]. lia.
Qed.

(** On a non-empty list the four counts are all reported and together
    do not exceed the size of the cohort. *)
Lemma analyze_twins_counts_bounded (results : list neighbor) :
  results <> [] ->
  exists a rejected,
    analyze_twins results = Py.Ok a
    /\ rejected_count a = Some rejected
    /\ (success_count a + default_count a + late_count a + rejected
        <= total_twins a)%nat.
Proof.
  intro Hne. eexists. eexists.
  split; [apply (analyze_twins_nonempty results Hne)|].
  split; [reflexivity|]. cbn. apply counted_labels_bounded.
Qed.

Lemma uncategorised_counts (r : neighbor) :
  uncategorised r ->
  (Nat.b2n (outcome_is "success" r) + Nat.b2n (outcome_is "default" r)
   + Nat.b2n (outcome_is "late_payments" r)
   + Nat.b2n (outcome_is "rejected" r) = 0)%nat.
Proof.
  intro Hr. unfold outcome_is.
  destruct (Payload.outcome (payload r)) as [o|] eqn:Eo; [|reflexivity].
  assert (Hno : forall label,
            In label ["success"; "default"; "late_payments"; "rejected"]%string ->
            String.eqb o label = false).
  { intros label Hin. apply String.eqb_neq. intros ->.
    exact (Hr label Hin Eo). }
  rewrite !Hno by (simpl; tauto). reflexivity.
Qed.

Lemma counted_labels_strict (results : list neighbor) (r : neighbor) :
  In r results -> uncategorised r ->
  (count_outcome "success" results + count_outcome "default" results
   + count_outcome "late_payments" results
   + count_outcome "rejected" results < List.length results)%nat.
Proof.
  intros Hin Hr. induction results as [|x results IH]; [destruct Hin|].
  rewrite !count_outcome_cons. cbn [List.length].
  destruct Hin as [->|Hin].
  - pose proof (uncategorised_counts r Hr) as Hzero.
    pose proof (counted_labels_bounded results) as Hle. lia.
  - pose proof (one_label_at_most x) as Hone. specialize (IH Hin). lia.
Qed.

(** C6.  For every neighbor list the statistics of [analyze_twins]
    satisfy the sum invariant: the counts of successes, defaults, late
    payers and rejections, each the number of neighbors with exactly
    that outcome, together do not exceed the total, the size of the
    list; a neighbor with any other outcome, or none, is counted in the
    total only, and the sum is then smaller.  The dictionary of the
    empty list has no ["rejected_count"] key: the count is read as the
    engine reads it, [analysis.get("rejected_count", 0)]. *)
Theorem analyze_twins_sum_invariant (results : list neighbor) :
  exists a,
    analyze_twins results = Py.Ok a
    /\ total_twins a = List.length results
    /\ success_count a = labelled "success" results
    /\ default_count a = labelled "default" results
    /\ late_count a = labelled "late_payments" results
    /\ get_rejected_count a = labelled "rejected" results
    /\ (success_count a + default_count a + late_count a
        + get_rejected_count a <= total_twins a)%nat
    /\ (forall r,
          In r results -> uncategorised r ->
          (success_count a + default_count a + late_count a
           + get_rejected_count a < total_twins a)%nat).
Proof.
  destruct results as [|r0 rest].
  { eexists. split; [reflexivity|]. cbn.
    do 5 (split; [reflexivity|]). split; [lia|]. intros r []. }
  set (results := r0 :: rest).
  eexists. split; [apply (analyze_twins_nonempty results); discriminate|].
  cbn [total_twins success_count default_count late_count
       get_rejected_count rejected_count].
  split; [reflexivity|].
  do 4 (split; [apply count_outcome_labelled|]).
  split; [apply counted_labels_bounded|].
  intros r Hin Hr. now apply (counted_labels_strict results r).
Qed.

End AnalysisFacts.

(** ** Decision policy *)

Section PolicyFacts.

Import Embeddings TwinSearch.

Lemma row_test (lo sr dr hi : Q) :
  Qle_bool lo sr && Py.Qlt_bool dr hi = true <-> lo <= sr /\ dr < hi.
Proof.
  rewrite andb_true_iff, Qle_bool_iff, Qlt_bool_iff. reflexivity.
Qed.


(** The verdict of [make_decision], read off its four branches. *)
Lemma make_decision_verdict (a : analysis_dict) (app : application) :
  decision (make_decision a app)
  = if Qle_bool 0.99 (success_rate a) && Py.Qlt_bool (default_rate a) 0.05
    then "APPROVED"%string
    else if Qle_bool 0.90 (success_rate a) && Py.Qlt_bool (default_rate a) 0.10
    then "APPROVED_WITH_CONDITIONS"%string
    else if Qle_bool 0.85 (success_rate a)
    then "MANUAL_REVIEW"%string
    else "REJECTED"%string.
Proof.
  unfold make_decision.
  destruct (Qle_bool 0.99 (success_rate a) && Py.Qlt_bool (default_rate a) 0.05);
    [reflexivity|].
  destruct (Qle_bool 0.90 (success_rate a) && Py.Qlt_bool (default_rate a) 0.10).
  - destruct (Py.Qlt_bool 0.05 (default_rate a)); reflexivity.
  - destruct (Qle_bool 0.85 (success_rate a)); reflexivity.
Qed.

(** Every path of [make_decision] reports the average similarity as its
    confidence and embeds the analysis. *)
Lemma make_decision_confidence (a : analysis_dict) (app : application) :
  confidence (make_decision a app) = avg_similarity a
  /\ analysis (make_decision a app) = Some a.
Proof.
  unfold make_decision.
  destruct (Qle_bool 0.99 (success_rate a) && Py.Qlt_bool (default_rate a) 0.05);
    [split; reflexivity|].
  destruct (Qle_bool 0.90 (success_rate a) && Py.Qlt_bool (default_rate a) 0.10).
  - destruct (Py.Qlt_bool 0.05 (default_rate a)); split; reflexivity.
  - destruct (Qle_bool 0.85 (success_rate a)); split; reflexivity.
Qed.


(** C4.  A decision with the verdict APPROVED_WITH_CONDITIONS carries a
    non-empty list of conditions: the reduction to 75% of the requested
    amount when the default rate exceeds 0.05, the interest premium when
    the late rate exceeds 0.10, and the enhanced monitoring otherwise. *)
Theorem approved_with_conditions_terms (a : analysis_dict) (app : application) :
  decision (make_decision a app) = "APPROVED_WITH_CONDITIONS"%string ->
  exists conds,
    conditions (make_decision a app) = Some conds
    /\ conds <> []
    /\ (0.05 < default_rate a ->
        In "Mandatory 25% reduction in requested amount"%string conds
        /\ recommended_amount (make_decision a app)
           = Py.Val (value (requested_amount app) * 0.75))
    /\ (0.10 < late_rate a ->
        In "Interest rate premium (+1.5% APR)"%string conds)
    /\ (~ 0.05 < default_rate a -> ~ 0.10 < late_rate a ->
        conds = ["Standard conditions with enhanced monitoring"%string]).
Proof.
  rewrite make_decision_verdict. unfold make_decision.
  destruct (Qle_bool 0.99 (success_rate a) && Py.Qlt_bool (default_rate a) 0.05);
    [discriminate|].
  destruct (Qle_bool 0.90 (success_rate a) && Py.Qlt_bool (default_rate a) 0.10).
  2:{ destruct (Qle_bool 0.85 (success_rate a)); discriminate. }
  intros _.
  destruct (Py.Qlt_bool 0.05 (default_rate a)) eqn:Ed;
    [apply Qlt_bool_iff in Ed|apply Qlt_bool_false_iff in Ed];
  (destruct (Py.Qlt_bool 0.10 (late_rate a)) eqn:El;
    [apply Qlt_bool_iff in El|apply Qlt_bool_false_iff in El]);
  eexists; (split; [reflexivity|]); cbn [List.app];
  (split; [discriminate|]);
  repeat split; intros;
    try reflexivity; try (simpl; tauto);
    try (exfalso; lra); try contradiction.
Qed.

End PolicyFacts.

(** ** The evaluation entry point *)

Section EngineFacts.

Import Embeddings TwinSearch.

Variable log1p : Q -> Q.
Variable float_str : Q -> string.
Variable search_similar :
  list Q -> nat -> option amount_filter -> Py.result (list neighbor).
Variable get_llm_explanation : decision_dict -> application -> option string.
Variable average : list Q -> Q.

Local Abbreviation find_twins :=
  (find_twins log1p float_str search_similar get_llm_explanation average).
Local Abbreviation query := (query log1p search_similar).

Lemma flag_carries (f : option bool) : flag f = carries f.
Proof. destruct f as [[|]|]; reflexivity. Qed.

Lemma sum_flags_from (flags : list bool) (acc : nat) :
  fold_left (fun n (b : bool) => if b then S n else n) flags acc
  = (acc + List.length (filter (fun b => b) flags))%nat.
Proof.
  revert acc. induction flags as [|b flags IH]; intro acc; simpl; [lia|].
  rewrite IH. destruct b; simpl; lia.
Qed.

Lemma sum_flags_fraud_suspects (results : list neighbor) :
  sum_flags
    (map (fun r => flag (Payload.is_fraud_suspect (payload r)))
         (firstn 20 results))
  = fraud_suspects results.
Proof.
  unfold sum_flags, fraud_suspects.
  generalize (firstn 20 results). intro l.
  rewrite sum_flags_from. rewrite Nat.add_0_l.
  induction l as [|r l IH]; [reflexivity|].
  simpl. rewrite <- flag_carries.
  destruct (flag (Payload.is_fraud_suspect (payload r))); simpl; now rewrite IH.
Qed.

Lemma avg_similarity_mean (results : list neighbor) :
  sum_scores results / of_nat (List.length results)
  == mean (map score results).
Proof.
  unfold mean, of_nat. rewrite sum_scores_total, length_map. reflexivity.
Qed.

(** The test of step 5 is the fraud signal of the specification, on the
    average the engine computed. *)
Lemma fraud_test (results : list neighbor) (average_similarity : Q) :
  (5 <=? sum_flags
           (map (fun r => flag (Payload.is_fraud_suspect (payload r)))
                (firstn 20 results)))%nat
  || Py.Qlt_bool FRAUD_SIMILARITY_LIMIT average_similarity = true
  <-> fraud_signal_on average_similarity results.
Proof.
  unfold fraud_signal_on, FRAUD_SIMILARITY_LIMIT.
  now rewrite orb_true_iff, sum_flags_fraud_suspects, Nat.leb_le, Qlt_bool_iff.
Qed.

Lemma long_list_nonempty (results : list neighbor) :
  (10 <= List.length results)%nat -> results <> [].
Proof. intros H ->. simpl in H. lia. Qed.

(** Fewer than ten hits: the volume rule decides, nothing else runs. *)
Lemma find_twins_few
    (new_application : application) (top_k : nat) (threshold : Q) :
  let results := query new_application top_k in
  (List.length results < 10)%nat ->
  exists d,
    find_twins new_application top_k threshold = Py.Ok d
    /\ decision d = "ANOMALY_DETECTED"%string
    /\ confidence d = 0.0
    /\ twins_found d = Some (List.length results)
    /\ action d = Some "MANUAL_REVIEW_REQUIRED"%string
    /\ analysis d = None.
Proof.
  intros results Hlen. unfold TwinSearch.find_twins. fold results.
  destruct (Nat.ltb_spec (List.length results) 10) as [_|Hge]; [|lia].
  eexists. split; [reflexivity|]. repeat split.
Qed.


(** C3.  A search that raises is a search that finds nothing, and fewer
    than ten neighbors, whatever their outcomes, give ANOMALY_DETECTED. *)
Theorem find_twins_degrades_to_anomaly
    (new_application : application) (top_k : nat) (threshold : Q) :
  (forall e,
      search_similar
        (create_application_vector log1p new_application VECTOR_SIZE)
        top_k (amount_filters new_application) = Py.Raise e ->
      find_twins new_application top_k threshold
      = TwinSearch.find_twins log1p float_str (fun _ _ _ => Py.Ok [])
          get_llm_explanation average new_application top_k threshold
      /\ exists d,
           find_twins new_application top_k threshold = Py.Ok d
           /\ decision d = "ANOMALY_DETECTED"%string
           /\ twins_found d = Some 0%nat)
  /\ (forall results,
        search_similar
          (create_application_vector log1p new_application VECTOR_SIZE)
          top_k (amount_filters new_application) = Py.Ok results ->
        (List.length results < 10)%nat ->
        exists d,
          find_twins new_application top_k threshold = Py.Ok d
          /\ decision d = "ANOMALY_DETECTED"%string
          /\ twins_found d = Some (List.length results)).
Proof.
  split.
  - intros e Hraise.
    assert (Hq : query new_application top_k = [])
      by (unfold TwinSearch.query; now rewrite Hraise).
    split.
    + unfold TwinSearch.find_twins. rewrite Hq. reflexivity.
    + destruct (find_twins_few new_application top_k threshold)
        as [d [Hd [Hv [_ [Hn _]]]]].
      { rewrite Hq. simpl. lia. }
      exists d. rewrite Hq in Hn. auto.
  - intros results Hok Hlen.
    assert (Hq : query new_application top_k = results)
      by (unfold TwinSearch.query; now rewrite Hok).
    destruct (find_twins_few new_application top_k threshold)
      as [d [Hd [Hv [_ [Hn _]]]]].
    { now rewrite Hq. }
    exists d. rewrite Hq in Hn. auto.
Qed.

End EngineFacts.

(** ** The roadmap of a rejection *)

Section RoadmapFacts.

Import Embeddings TwinSearch.

Variable log1p : Q -> Q.
Variable float_str : Q -> string.
Variable search_similar :
  list Q -> nat -> option amount_filter -> Py.result (list neighbor).
Variable get_llm_explanation : decision_dict -> application -> option string.
Variable average : list Q -> Q.

Local Abbreviation find_twins :=
  (find_twins log1p float_str search_similar get_llm_explanation average).
Local Abbreviation query := (query log1p search_similar).

(** The head of the filtered list is the first element found. *)
Lemma filter_head_find {A : Type} (p : A -> bool) (l : list A) :
  match filter p l with
  | x :: _ => find p l = Some x
  | [] => find p l = None
  end.
Proof.
  induction l as [|a l IH]; [reflexivity|].
  simpl. destruct (p a); [reflexivity|exact IH].
Qed.

Lemma attach_roadmap_first_comeback (results : list neighbor) (d : decision_dict) :
  attach_roadmap float_str results d
  = match first_comeback results with
    | Some best =>
        r <- make_roadmap float_str (payload best) ;; Py.Ok (with_roadmap d r)
    | None => Py.Ok d
    end.
Proof.
  unfold attach_roadmap, first_comeback.
  rewrite (filter_ext (fun r => flag (Payload.is_comeback_story (payload r)))
                      (fun r => carries (Payload.is_comeback_story (payload r))))
    by (intro r; apply flag_carries).
  pose proof (filter_head_find
                (fun r => carries (Payload.is_comeback_story (payload r)))
                results) as H.
  destruct (filter _ results); rewrite H; reflexivity.
Qed.

(** The offer never raises and leaves the rest of the decision alone. *)
Lemma attach_offer_ok
    (results : list neighbor) (new_application : application) (d : decision_dict) :
  exists d',
    attach_offer results new_application d = Py.Ok d'
    /\ decision d' = decision d
    /\ roadmap d' = roadmap d
    /\ nudge d' = nudge d.
Proof.
  unfold attach_offer.
  destruct (filter (outcome_is "success") results) as [|r l] eqn:E.
  - exists d. auto.
  - rewrite div_ok by (apply of_nat_nonzero; discriminate).
    cbn [Py.bind].
    match goal with |- context [if ?b then _ else _] => destruct b end;
      eexists; (split; [reflexivity|]); auto.
Qed.

Lemma attach_nudge_rejected (new_application : application) (d : decision_dict) :
  decision d = "REJECTED"%string -> attach_nudge new_application d = d.
Proof.
  intro H. unfold attach_nudge. rewrite H. reflexivity.
Qed.

(** The normal path of [find_twins], once the verdict is REJECTED. *)
Lemma find_twins_rejection
    (new_application : application) (top_k : nat) (threshold : Q) :
  let results := query new_application top_k in
  (10 <= List.length results)%nat ->
  ~ fraud_signal_on (average (map score results)) results ->
  forall a,
    analyze_twins results = Py.Ok a ->
    decision (make_decision a new_application) = "REJECTED"%string ->
    find_twins new_application top_k threshold
    = (d1 <- attach_roadmap float_str results (make_decision a new_application) ;;
       d2 <- attach_offer results new_application d1 ;;
       Py.Ok (with_explanation d2
                (explain get_llm_explanation d2 new_application))).
Proof.
  intros results Hlen Hnofraud a Ha Hrej.
  unfold TwinSearch.find_twins. fold results.
  destruct (Nat.ltb_spec (List.length results) 10) as [Hlt|_]; [lia|].
  rewrite Ha. cbn [Py.bind].
  pose proof (analyze_twins_nonempty results (long_list_nonempty _ Hlen)) as Hn.
  cbv zeta in Hn. rewrite Ha in Hn. injection Hn as Hn.
  destruct (_ || _) eqn:Etest.
  { exfalso. apply Hnofraud. apply fraud_test. exact Etest. }
  rewrite Hrej. cbn [String.eqb Ascii.eqb Bool.eqb].
  destruct (attach_roadmap float_str results (make_decision a new_application))
    as [d1|e] eqn:E1; [|reflexivity].
  cbn [Py.bind].
  assert (Hd1 : decision d1 = "REJECTED"%string).
  { rewrite attach_roadmap_first_comeback in E1.
    destruct (first_comeback results) as [best|].
    - destruct (make_roadmap float_str (payload best)); [|discriminate].
      injection E1 as <-. exact Hrej.
    - injection E1 as <-. exact Hrej. }
  destruct (attach_offer_ok results new_application d1)
    as [d2 [E2 [Hd2 _]]].
  rewrite E2. cbn [Py.bind].
  rewrite attach_nudge_rejected by congruence. reflexivity.
Qed.

(** A normal rejection: the roadmap is that of the first neighbor
    carrying the comeback flag, when its score and ratio are numbers;
    no flagged neighbor, no roadmap. *)
Lemma find_twins_rejection_roadmap
    (new_application : application) (top_k : nat) (threshold : Q) :
  let results := query new_application top_k in
  (10 <= List.length results)%nat ->
  ~ fraud_signal_on (average (map score results)) results ->
  forall a,
    analyze_twins results = Py.Ok a ->
    decision (make_decision a new_application) = "REJECTED"%string ->
    match first_comeback results with
    | None =>
        exists d,
          find_twins new_application top_k threshold = Py.Ok d
          /\ decision d = "REJECTED"%string
          /\ roadmap d = None
    | Some best =>
        forall fico dti,
          Py.get_default (Payload.fico (payload best)) 700 = Some fico ->
          Py.get_default (Payload.dti (payload best)) 20.0 = Some dti ->
          exists d r,
            find_twins new_application top_k threshold = Py.Ok d
            /\ decision d = "REJECTED"%string
            /\ roadmap d = Some r
            /\ target_fico r = Some fico
            /\ target_dti r = Py.round dti 1
    end.
Proof.
  intros results Hlen Hnofraud a Ha Hrej.
  pose proof (find_twins_rejection new_application top_k threshold
                Hlen Hnofraud a Ha Hrej) as Hft.
  fold results in Hft. rewrite attach_roadmap_first_comeback in Hft.
  destruct (first_comeback results) as [best|].
  - intros fico dti Hfico Hdti.
    unfold make_roadmap in Hft. rewrite Hfico, Hdti in Hft.
    assert (Hint : exists v, Py.get_default (Payload.fico (payload best)) 0 = Some v).
    { destruct (Payload.fico (payload best)); simpl in *;
        [eexists; reflexivity|discriminate|eexists; reflexivity]. }
    destruct Hint as [v Hv]. rewrite Hv in Hft. cbn [Py.bind] in Hft.
    match type of Hft with
    | context [attach_offer results new_application ?d1] =>
        destruct (attach_offer_ok results new_application d1)
          as [d2 [E2 [Hd2 [Hr2 _]]]]
    end.
    rewrite E2 in Hft. cbn [Py.bind] in Hft.
    eexists. eexists. split; [exact Hft|].
    cbn [decision roadmap with_explanation]. rewrite Hd2, Hr2.
    cbn [decision roadmap with_roadmap].
    split; [exact Hrej|]. split; [reflexivity|]. split; reflexivity.
  - cbn [Py.bind] in Hft.
    destruct (attach_offer_ok results new_application
                (make_decision a new_application))
      as [d2 [E2 [Hd2 [Hr2 _]]]].
    rewrite E2 in Hft. cbn [Py.bind] in Hft.
    eexists. split; [exact Hft|].
    cbn [decision roadmap with_explanation]. rewrite Hd2, Hr2.
    split; [exact Hrej|].
    unfold make_decision.
    repeat match goal with
           | |- context [if ?b then _ else _] => destruct b
           end; reflexivity.
Qed.

(** A comeback neighbor whose stored ratio is [None] stops the
    evaluation: [round(None, 1)] raises. *)
Lemma find_twins_rejection_raises
    (new_application : application) (top_k : nat) (threshold : Q) :
  let results := query new_application top_k in
  (10 <= List.length results)%nat ->
  ~ fraud_signal_on (average (map score results)) results ->
  forall a best,
    analyze_twins results = Py.Ok a ->
    decision (make_decision a new_application) = "REJECTED"%string ->
    first_comeback results = Some best ->
    Payload.dti (payload best) = Py.PyNone ->
    find_twins new_application top_k threshold = Py.Raise Py.TypeError.
Proof.
  intros results Hlen Hnofraud a best Ha Hrej Hbest Hdti.
  pose proof (find_twins_rejection new_application top_k threshold
                Hlen Hnofraud a Ha Hrej) as Hft.
  fold results in Hft. rewrite attach_roadmap_first_comeback, Hbest in Hft.
  unfold make_roadmap in Hft. rewrite Hdti in Hft. exact Hft.
Qed.

Lemma attach_nudge_verdict (new_application : application) (d : decision_dict) :
  decision (attach_nudge new_application d) = decision d
  /\ confidence (attach_nudge new_application d) = confidence d.
Proof.
  unfold attach_nudge.
  destruct (contains "APPROVED" (decision d)); [|split; reflexivity].
  destruct (nb_previous_loans new_application) as [n|];
    [destruct (Qeq_bool n 0)|]; split; reflexivity.
Qed.

(** On the normal path whatever [find_twins] returns carries the verdict
    of [make_decision], with the average similarity as confidence. *)
Lemma find_twins_normal_verdict
    (new_application : application) (top_k : nat) (threshold : Q) :
  let results := query new_application top_k in
  (10 <= List.length results)%nat ->
  ~ fraud_signal_on (average (map score results)) results ->
  forall a d,
    analyze_twins results = Py.Ok a ->
    find_twins new_application top_k threshold = Py.Ok d ->
    decision d = decision (make_decision a new_application)
    /\ confidence d = avg_similarity a.
Proof.
  intros results Hlen Hnofraud a d Ha Hd.
  destruct (String.eqb_spec (decision (make_decision a new_application))
                            "REJECTED") as [Hrej|Hrej].
  - rewrite (find_twins_rejection new_application top_k threshold
               Hlen Hnofraud a Ha Hrej) in Hd.
    fold results in Hd. rewrite attach_roadmap_first_comeback in Hd.
    assert (Hroad : forall d1,
      match first_comeback results with
      | Some best =>
          r <- make_roadmap float_str (payload best) ;;
          Py.Ok (with_roadmap (make_decision a new_application) r)
      | None => Py.Ok (make_decision a new_application)
      end = Py.Ok d1 ->
      decision d1 = decision (make_decision a new_application)
      /\ confidence d1 = confidence (make_decision a new_application)).
    { intros d1 H1. destruct (first_comeback results) as [best|].
      - destruct (make_roadmap float_str (payload best)); [|discriminate].
        injection H1 as <-. split; reflexivity.
      - injection H1 as <-. split; reflexivity. }
    destruct (match first_comeback results with
              | Some best => _
              | None => _
              end) as [d1|e]; [|discriminate].
    destruct (Hroad d1 eq_refl) as [Hv1 Hc1]. cbn [Py.bind] in Hd.
    unfold attach_offer in Hd.
    destruct (filter (outcome_is "success") results) as [|r l].
    + injection Hd as <-. cbn [decision confidence with_explanation].
      rewrite Hv1, Hc1.
      split; [reflexivity|apply make_decision_confidence].
    + rewrite div_ok in Hd by (apply of_nat_nonzero; discriminate).
      cbn [Py.bind] in Hd.
      match type of Hd with
      | context [if ?b then _ else _] => destruct b
      end; injection Hd as <-;
        cbn [decision confidence with_explanation with_offer];
        rewrite Hv1, Hc1;
        (split; [reflexivity|apply make_decision_confidence]).
  - unfold TwinSearch.find_twins in Hd. fold results in Hd.
    destruct (Nat.ltb_spec (List.length results) 10) as [Hlt|_]; [lia|].
    rewrite Ha in Hd. cbn [Py.bind] in Hd.
    pose proof (analyze_twins_nonempty results (long_list_nonempty _ Hlen)) as Hn.
    cbv zeta in Hn. rewrite Ha in Hn. injection Hn as Hn.
    destruct (_ || _) eqn:Etest.
    { exfalso. apply Hnofraud. apply fraud_test. exact Etest. }
    destruct (String.eqb_spec (decision (make_decision a new_application))
                              "REJECTED") as [Hc|_]; [contradiction|].
    cbn [Py.bind] in Hd. injection Hd as <-.
    cbn [decision confidence with_explanation].
    destruct (attach_nudge_verdict new_application
                (make_decision a new_application)) as [Hv Hc].
    rewrite Hv, Hc. split; [reflexivity|apply make_decision_confidence].
Qed.

End RoadmapFacts.

(** C9 (a comeback story without a ratio).  Ten defaulted neighbors, no
    fraud signal: the verdict of the policy is REJECTED and the first
    neighbor carries the comeback flag, but its stored ratio is [None]
    and [find_twins] raises instead of attaching a roadmap. *)
Theorem find_twins_comeback_without_dti_raises :
  first_comeback Scenarios.cohort_comeback_without_dti
  = Some (Scenarios.hit (Scenarios.stored "default" false true Py.PyNone) 0.9)
  /\ ~ fraud_signal Scenarios.cohort_comeback_without_dti
  /\ (exists a,
        TwinSearch.analyze_twins Scenarios.cohort_comeback_without_dti = Py.Ok a
        /\ TwinSearch.decision (TwinSearch.make_decision a Scenarios.test_application)
           = "REJECTED"%string)
  /\ TwinSearch.find_twins Scenarios.log1p_q Scenarios.float_str_q
       (Scenarios.index_of Scenarios.cohort_comeback_without_dti)
       Scenarios.no_llm Scenarios.average_q Scenarios.test_application 100 0.70
     = Py.Raise Py.TypeError.
Proof.
  split; [reflexivity|]. split; [|split].
  - intros [H|H].
    + apply Nat.leb_le in H. vm_compute in H. discriminate H.
    + apply Qlt_bool_iff in H. vm_compute in H. discriminate H.
  - eexists. split; [reflexivity|]. vm_compute. reflexivity.
  - vm_compute. reflexivity.
Qed.

(** ** Anomaly score *)

Section AnomalyFacts.

Import Services.

Lemma fold_max_head (rest : list Q) (s s' : Q) :
  s == s' -> (forall y, In y rest -> y <= s') -> fold_left Qmax rest s == s'.
Proof.
  revert s. induction rest as [|y rest IH]; intros s Hs Hle; [exact Hs|].
  simpl. apply IH.
  - rewrite Hs. apply Q.max_l. apply Hle. now left.
  - intros z Hz. apply Hle. now right.
Qed.

Lemma descending_head (s : Q) (rest : list Q) :
  descending (s :: rest) -> forall y, In y rest -> y <= s.
Proof.
  intros Hsorted y Hy.
  assert (Htrans : Transitive (fun x y : Q => y <= x)).
  { intros a b c Hab Hbc. now apply Qle_trans with b. }
  pose proof (Sorted_extends Htrans Hsorted) as Hall.
  rewrite Forall_forall in Hall. now apply Hall.
Qed.

Lemma top_similarity_head (s : Q) (rest : list Q) :
  descending (s :: rest) -> top_similarity (s :: rest) == s.
Proof.
  intro Hsorted. simpl. apply fold_max_head; [reflexivity|].
  now apply descending_head.
Qed.

Lemma clamp_spec (x : Q) : Py.min 1.0 (Py.max 0.0 x) == clamp01 x.
Proof.
  unfold Py.min, Py.max, clamp01.
  destruct (Py.Qlt_bool 0.0 x) eqn:E0;
    [apply Qlt_bool_iff in E0|apply Qlt_bool_false_iff in E0].
  - destruct (Py.Qlt_bool x 1.0) eqn:E1;
      [apply Qlt_bool_iff in E1|apply Qlt_bool_false_iff in E1];
      destruct (Qlt_le_dec x 0); destruct (Qlt_le_dec 1 x); lra.
  - destruct (Py.Qlt_bool 0.0 1.0) eqn:E1;
      [apply Qlt_bool_iff in E1|apply Qlt_bool_false_iff in E1];
      destruct (Qlt_le_dec x 0); destruct (Qlt_le_dec 1 x); lra.
Qed.

Lemma clamp01_compat (x y : Q) : x == y -> clamp01 x == clamp01 y.
Proof.
  intro H. unfold clamp01.
  destruct (Qlt_le_dec x 0); destruct (Qlt_le_dec y 0);
    destruct (Qlt_le_dec 1 x); destruct (Qlt_le_dec 1 y); lra.
Qed.

Lemma clamp01_bounds (x : Q) : 0 <= clamp01 x <= 1.
Proof.
  unfold clamp01. destruct (Qlt_le_dec x 0); destruct (Qlt_le_dec 1 x); lra.
Qed.

Lemma sum_similarity_total (twins : list FinancialTwin) :
  sum_similarity twins == total (map similarity twins).
Proof. apply fold_left_Qplus_total. Qed.

(** The decay rate of the code is the decay of the specification. *)
Lemma decay_rate_spec (first : FinancialTwin) (rest : list FinancialTwin) :
  let twins := first :: rest in
  let n := List.length twins in
  exists decay_rate,
    (if (10 <=? n)%nat && Py.Qlt_bool 0 (similarity first) then
       match nth_error twins (Nat.min 9 (n - 1)) with
       | Some tenth =>
           Py.div (similarity first - similarity tenth) (similarity first)
       | None => Py.Raise Py.IndexError
       end
     else Py.Ok 0.0) = Py.Ok decay_rate
    /\ decay_rate == decay (map similarity twins).
Proof.
  intros twins n.
  assert (Hdecay :
    decay (map similarity twins)
    = match option_map similarity (nth_error twins 9) with
      | Some top10 =>
          if Qlt_le_dec 0 (similarity first)
          then (similarity first - top10) / similarity first else 0
      | None => 0
      end).
  { rewrite <- nth_error_map. unfold decay, twins. cbn [map].
    destruct (nth_error _ 9); reflexivity. }
  rewrite Hdecay. clear Hdecay.
  destruct (Nat.leb_spec 10 n) as [Hn|Hn].
  - replace (Nat.min 9 (n - 1)) with 9%nat by lia.
    destruct (nth_error twins 9) as [tenth|] eqn:E.
    2:{ apply nth_error_None in E. fold n in E. lia. }
    simpl option_map. cbv iota.
    destruct (Py.Qlt_bool 0 (similarity first)) eqn:Epos;
      [apply Qlt_bool_iff in Epos|apply Qlt_bool_false_iff in Epos]; simpl andb.
    + rewrite div_ok by lra. eexists. split; [reflexivity|].
      destruct (Qlt_le_dec 0 (similarity first)); [reflexivity|lra].
    + eexists. split; [reflexivity|].
      destruct (Qlt_le_dec 0 (similarity first)); [lra|reflexivity].
  - simpl andb. eexists. split; [reflexivity|].
    destruct (nth_error twins 9) as [tenth|] eqn:E.
    { assert (nth_error twins 9 <> None) as Hsome by congruence.
      apply nth_error_Some in Hsome. fold n in Hsome. lia. }
    reflexivity.
Qed.

(** C7.  On a non-empty list sorted by decreasing similarity the score
    is the weighted sum of the three components of the specification,
    clamped to [0,1]. *)
Theorem calculate_anomaly_score_formula (twins : list FinancialTwin) :
  twins <> [] ->
  descending (map similarity twins) ->
  exists score,
    calculate_anomaly_score twins = Py.Ok score
    /\ score == anomaly_score (map similarity twins)
    /\ 0 <= score <= 1.
Proof.
  intros Hne Hsorted. destruct twins as [|first rest]; [congruence|].
  unfold calculate_anomaly_score.
  rewrite div_ok by (apply of_nat_nonzero; discriminate).
  cbn [Py.bind].
  destruct (decay_rate_spec first rest) as [decay_rate [Hd Hdecay]].
  cbv zeta in Hd. rewrite Hd. cbn [Py.bind].
  eexists. split; [reflexivity|].
  assert (Heq :
    Py.min 1.0
      (Py.max 0.0
         ((1 - similarity first) * 0.4 + decay_rate * 0.3
          + (1 - sum_similarity (first :: rest)
                 / inject_Z (Z.of_nat (List.length (first :: rest)))) * 0.3))
    == anomaly_score (map similarity (first :: rest))).
  { rewrite clamp_spec. unfold anomaly_score. apply clamp01_compat.
    rewrite (top_similarity_head _ _ Hsorted), <- Hdecay.
    unfold mean. rewrite <- sum_similarity_total, length_map. ring. }
  split; [exact Heq|]. rewrite Heq. apply clamp01_bounds.
Qed.

End AnomalyFacts.

(** ** Cosine similarity *)

Section SimilarityFacts.

Import Services.

Variable sqrt : Q -> Q.

Lemma dot_same_length (vec_a vec_b : list Q) :
  List.length vec_a = List.length vec_b -> exists v, dot vec_a vec_b = Py.Ok v.
Proof.
  revert vec_b. induction vec_a as [|x a IH]; intros [|y b] Hlen;
    try discriminate.
  - eexists. reflexivity.
  - injection Hlen as Hlen. destruct (IH b Hlen) as [v Hv].
    simpl. rewrite Hv. eexists. reflexivity.
Qed.

Lemma dot_shape_mismatch (vec_a vec_b : list Q) :
  List.length vec_a <> List.length vec_b ->
  dot vec_a vec_b = Py.Raise Py.ValueError.
Proof.
  revert vec_b. induction vec_a as [|x a IH]; intros [|y b] Hlen;
    try reflexivity.
  - congruence.
  - simpl. rewrite IH; [reflexivity|]. simpl in Hlen. congruence.
Qed.

(** Vectors of different lengths never reach the norms. *)
Lemma cosine_similarity_shape_mismatch (vec_a vec_b : list Q) :
  List.length vec_a <> List.length vec_b ->
  cosine_similarity sqrt vec_a vec_b = Py.Raise Py.ValueError.
Proof.
  intro Hlen. unfold cosine_similarity.
  now rewrite dot_shape_mismatch.
Qed.

(** C10, for vectors of one length.  [cosine_similarity] returns on
    every such pair, without dividing by zero, and returns 0.0 as soon
    as one of the norms is zero. *)
Theorem cosine_similarity_zero_norm (vec_a vec_b : list Q) :
  List.length vec_a = List.length vec_b ->
  (exists v, cosine_similarity sqrt vec_a vec_b = Py.Ok v)
  /\ (norm sqrt vec_a == 0 \/ norm sqrt vec_b == 0 ->
      cosine_similarity sqrt vec_a vec_b = Py.Ok 0.0).
Proof.
  intro Hlen. destruct (dot_same_length vec_a vec_b Hlen) as [d Hd].
  unfold cosine_similarity. rewrite Hd. cbn [Py.bind].
  destruct (Qeq_bool (norm sqrt vec_a) 0) eqn:Ea;
    [|destruct (Qeq_bool (norm sqrt vec_b) 0) eqn:Eb]; simpl orb.
  - split; [eexists; reflexivity|reflexivity].
  - split; [eexists; reflexivity|reflexivity].
  - apply Qeq_bool_neq in Ea, Eb.
    assert (Hprod : ~ norm sqrt vec_a * norm sqrt vec_b == 0).
    { intro H. apply Qmult_integral in H. tauto. }
    rewrite (div_ok _ _ Hprod). split; [eexists; reflexivity|].
    intros [H|H]; contradiction.
Qed.

End SimilarityFacts.

(** C10, as stated for every pair of vectors: a vector of zero norm
    paired with a longer one gives no similarity at all, [numpy.dot]
    raising on the shapes. *)
Lemma cosine_similarity_not_total :
  Services.norm Scenarios.sqrt_q [0] == 0
  /\ Services.cosine_similarity Scenarios.sqrt_q [0] [1; 2]
     = Py.Raise Py.ValueError
  /\ ~ (forall vec_a vec_b,
          Services.norm Scenarios.sqrt_q vec_a == 0
          \/ Services.norm Scenarios.sqrt_q vec_b == 0 ->
          Services.cosine_similarity Scenarios.sqrt_q vec_a vec_b = Py.Ok 0.0).
Proof.
  split; [reflexivity|]. split; [reflexivity|].
  intro H. specialize (H [0] [1; 2]).
  assert (Hz : Services.norm Scenarios.sqrt_q [0] == 0) by reflexivity.
  specialize (H (or_introl Hz)). discriminate H.
Qed.

(* ================================================================= *)
(** * The properties on concrete cohorts *)

Section Witnesses.

Import Embeddings TwinSearch Scenarios.

Lemma test_application_in_domain : in_domain test_application.
Proof.
  intros i fld cap Hin. simpl in Hin.
  repeat match goal with
         | H : _ \/ _ |- _ => destruct H as [H|H]
         | H : False |- _ => destruct H
         end;
    injection Hin as <- <- <-; vm_compute; discriminate.
Defined.

(** The self-test application is encoded on 50 coordinates; its ratio of
    18.5 lands on 0.185 and its score of 720 on 720/850. *)
Lemma create_application_vector_encoding_witness :
  List.length (create_application_vector log1p_q test_application VECTOR_SIZE)
  = VECTOR_SIZE
  /\ (exists x,
        nth_error (create_application_vector log1p_q test_application VECTOR_SIZE) 2
        = Some x
        /\ x == Qmin (18.5 / 100) 1 /\ 0 <= x <= 1)
  /\ nth_error (create_application_vector log1p_q test_application VECTOR_SIZE) 6
     = Some (720 / 850).
Proof.
  destruct (create_application_vector_encoding log1p_q test_application
              VECTOR_SIZE test_application_in_domain)
    as [_ [Hlen [Hcap Hfico]]].
  split; [exact Hlen|]. split.
  - apply (Hcap 2%nat dti_snapshot 100).
    + simpl. tauto.
    + unfold VECTOR_SIZE. lia.
  - apply (Hfico 720).
    + reflexivity.
    + vm_compute. discriminate.
    + unfold VECTOR_SIZE. lia.
Defined.


(** 92 successes and 8 defaults: the reduction is attached, and the
    recommended amount is 75% of the 15000 requested. *)
Lemma approved_with_conditions_terms_witness :
  exists conds,
    conditions (make_decision (rates 0.92 0.08 0) test_application) = Some conds
    /\ conds <> []
    /\ In "Mandatory 25% reduction in requested amount"%string conds
    /\ recommended_amount (make_decision (rates 0.92 0.08 0) test_application)
       = Py.Val (15000 * 0.75).
Proof.
  destruct (approved_with_conditions_terms (rates 0.92 0.08 0) test_application)
    as [conds [Hc [Hne [Hred _]]]]; [reflexivity|].
  exists conds. split; [exact Hc|]. split; [exact Hne|].
  apply Hred. vm_compute. reflexivity.
Defined.


(** The average at the threshold.  For 23 scores of 0.9990000000000001
    the mean exceeds 0.999, but the double that one rounded addition per
    score accumulates is the double of 0.999 and does not: on that
    average the signal is not tripped and the normal path decides. *)
Lemma average_at_the_threshold :
  0.999 < mean (map score cohort_at_threshold)
  /\ ~ 0.999 < average_q (map score cohort_at_threshold)
  /\ ~ fraud_signal_on (average_q (map score cohort_at_threshold))
         cohort_at_threshold
  /\ exists d,
       find_twins log1p_q float_str_q (index_of cohort_at_threshold) no_llm
         average_q test_application 100 0.70 = Py.Ok d
       /\ decision d = "APPROVED"%string.
Proof.
  split; [vm_compute; reflexivity|].
  assert (Hbelow : ~ 0.999 < average_q (map score cohort_at_threshold)).
  { intro H. apply Qlt_bool_iff in H. vm_compute in H. discriminate H. }
  split; [exact Hbelow|]. split.
  - intros [H|H]; [|exact (Hbelow H)].
    apply Nat.leb_le in H. vm_compute in H. discriminate H.
  - eexists. split; [vm_compute; reflexivity|]. reflexivity.
Qed.

(** An unreachable index, and five successful neighbors. *)
Lemma find_twins_degrades_to_anomaly_witness :
  (exists d,
     find_twins log1p_q float_str_q unreachable_index no_llm average_q
       test_application 100 0.70 = Py.Ok d
     /\ decision d = "ANOMALY_DETECTED"%string
     /\ twins_found d = Some 0%nat)
  /\ (exists d,
        find_twins log1p_q float_str_q (index_of (cohort 5 "success" 0.95)) no_llm average_q
          test_application 100 0.70 = Py.Ok d
        /\ decision d = "ANOMALY_DETECTED"%string
        /\ twins_found d = Some 5%nat).
Proof.
  split.
  - apply (proj1 (find_twins_degrades_to_anomaly log1p_q float_str_q
                    unreachable_index no_llm average_q test_application 100 0.70)
                 Py.BackendError).
    reflexivity.
  - apply (proj2 (find_twins_degrades_to_anomaly log1p_q float_str_q
                    (index_of (cohort 5 "success" 0.95)) no_llm average_q
                    test_application 100 0.70)
                 (cohort 5 "success" 0.95)).
    + reflexivity.
    + apply Nat.ltb_lt. vm_compute. reflexivity.
Defined.

(** 92 successes and 8 defaults. *)
Lemma analyze_twins_statistics_witness :
  exists a,
    analyze_twins cohort_92_8 = Py.Ok a
    /\ total_twins a = 100%nat
    /\ success_rate a == 0.92
    /\ default_rate a == 0.08
    /\ late_rate a == 0
    /\ avg_similarity a == 0.92.
Proof.
  destruct (proj2 (proj2 analyze_twins_statistics) cohort_92_8)
    as [a [Ha [Ht [_ [_ [_ [Hs [Hd [Hl Havg]]]]]]]]]; [discriminate|].
  exists a. split; [exact Ha|]. split; [exact Ht|].
  split; [rewrite Hs; reflexivity|].
  split; [rewrite Hd; reflexivity|].
  split; [rewrite Hl; reflexivity|].
  rewrite Havg. reflexivity.
Defined.

(** Ten ranked twins: the similarity halves from the first to the
    tenth, so the decay is one half. *)
Lemma calculate_anomaly_score_formula_witness :
  exists score,
    Services.calculate_anomaly_score ranked_twins = Py.Ok score
    /\ score == anomaly_score (map Services.similarity ranked_twins)
    /\ 0 <= score <= 1.
Proof.
  apply calculate_anomaly_score_formula.
  - discriminate.
  - unfold descending. simpl.
    repeat constructor; vm_compute; discriminate.
Defined.

(** A zero vector against a vector of the same length. *)
Lemma cosine_similarity_zero_norm_witness :
  (exists v, Services.cosine_similarity sqrt_q [0; 0] [3; 4] = Py.Ok v)
  /\ Services.cosine_similarity sqrt_q [0; 0] [3; 4] = Py.Ok 0.0.
Proof.
  destruct (cosine_similarity_zero_norm sqrt_q [0; 0] [3; 4] eq_refl)
    as [Htotal Hzero].
  split; [exact Htotal|].
  apply Hzero. left. reflexivity.
Defined.

End Witnesses.


(* ================================================================= *)
(** * Further properties of the encoder *)

Section GradeFacts.

Import Embeddings.

Lemma lstrip_blank (l rest : list ascii) :
  blank l -> Py.lstrip (l ++ rest) = Py.lstrip rest.
Proof.
  induction 1 as [|c l Hc _ IH]; [reflexivity|].
  simpl. now rewrite Hc.
Qed.

Lemma lstrip_solid (c : ascii) (rest : list ascii) :
  Py.is_space c = false -> Py.lstrip (c :: rest) = c :: rest.
Proof. intro H. simpl. now rewrite H. Qed.

Lemma blank_rev (l : list ascii) : blank l -> blank (rev l).
Proof. unfold blank. apply Forall_rev. Qed.

(** Stripping a one-letter text padded with whitespace gives the letter. *)
Lemma strip_padded_letter (before after : list ascii) (c : ascii) :
  blank before -> blank after -> Py.is_space c = false ->
  Py.strip (padded before (String c EmptyString) after) = String c EmptyString.
Proof.
  intros Hb Ha Hc. unfold Py.strip, padded.
  rewrite list_ascii_of_string_of_list_ascii.
  rewrite lstrip_blank by exact Hb.
  cbn [list_ascii_of_string List.app].
  rewrite lstrip_solid by exact Hc.
  change (c :: after) with ([c] ++ after).
  rewrite rev_app_distr.
  rewrite lstrip_blank by (apply blank_rev; exact Ha).
  cbn [rev List.app]. rewrite lstrip_solid by exact Hc. reflexivity.
Qed.

Lemma dict_get_grades_values (k : string) :
  In (dict_get grades k 0.5) (0.5 :: map snd grades).
Proof.
  unfold grades. simpl.
  repeat match goal with
         | |- context [if ?b then _ else _] => destruct b
         end; tauto.
Qed.

Lemma encode_grade_values (g : option string) :
  In (encode_grade g) (0.5 :: map snd grades).
Proof.
  destruct g as [[|c s]|]; try (left; reflexivity).
  apply dict_get_grades_values.
Qed.

Lemma encode_grade_bounds (g : option string) : 0.10 <= encode_grade g <= 1.
Proof.
  pose proof (encode_grade_values g) as H. simpl in H.
  repeat match goal with
         | H : _ \/ _ |- _ => destruct H as [H|H]
         | H : False |- _ => destruct H
         end; rewrite <- H; split; vm_compute; discriminate.
Qed.

(** X1.  The grade score is one of eight values, all within [0.10, 1];
    a letter of the scale keeps its score under any whitespace around
    it; a text that strips to anything else scores the neutral 0.5. *)
Theorem encode_grade_scale :
  (forall g, In (encode_grade g) (0.5 :: map snd grades)
             /\ 0.10 <= encode_grade g <= 1)
  /\ (forall before after letter score,
        In (letter, score) grades -> blank before -> blank after ->
        encode_grade (Some (padded before letter after)) = score)
  /\ (forall g,
        ~ In (Py.strip g) (map fst grades) -> encode_grade (Some g) = 0.5).
Proof.
  split; [|split].
  - intro g. split; [apply encode_grade_values|apply encode_grade_bounds].
  - intros before after letter score Hin Hb Ha.
    assert (Hletter : exists c, letter = String c EmptyString
                                /\ Py.is_space c = false).
    { simpl in Hin.
      repeat match goal with
             | H : _ \/ _ |- _ => destruct H as [H|H]
             | H : False |- _ => destruct H
             end; injection Hin as <- _; eexists; split; reflexivity. }
    destruct Hletter as [c [-> Hc]].
    assert (Hs : Py.strip (padded before (String c EmptyString) after)
                 = String c EmptyString)
      by now apply strip_padded_letter.
    unfold encode_grade.
    destruct (padded before (String c EmptyString) after) as [|c' s'] eqn:E.
    { vm_compute in Hs. discriminate Hs. }
    rewrite Hs. simpl in Hin.
    repeat match goal with
           | H : _ \/ _ |- _ => destruct H as [H|H]
           | H : False |- _ => destruct H
           end; injection Hin as <- <-; reflexivity.
  - intros g Hnot. unfold encode_grade. destruct g as [|c s]; [reflexivity|].
    generalize dependent (Py.strip (String c s)). intros k Hnot.
    unfold grades in *. cbn [map fst In] in Hnot. cbn [dict_get].
    repeat match goal with
           | |- context [String.eqb ?a ?b] =>
               destruct (String.eqb_spec a b); [exfalso; tauto|]
           end.
    reflexivity.
Qed.

End GradeFacts.

Section VectorFacts.

Import Embeddings.

Variable log1p : Q -> Q.

Lemma one_hot_values (x : option string) (s : string) :
  one_hot x s = 1.0 \/ one_hot x s = 0.0.
Proof.
  unfold one_hot. destruct x as [v|]; [|now right].
  destruct (String.eqb v s); [now left|now right].
Qed.

Lemma one_hot_bounds (x : option string) (s : string) : 0 <= one_hot x s <= 1.
Proof.
  destruct (one_hot_values x s) as [H|H]; rewrite H; split;
    vm_compute; discriminate.
Qed.

Lemma one_hot_exclusive (x : option string) (s1 s2 : string) :
  s1 <> s2 -> one_hot x s1 = 0.0 \/ one_hot x s2 = 0.0.
Proof.
  intro Hne. unfold one_hot. destruct x as [v|]; [|now left].
  destruct (String.eqb_spec v s1) as [->|_]; [|now left].
  destruct (String.eqb_spec s1 s2) as [Heq|_]; [contradiction|now right].
Qed.

Lemma in_domain_field (a : application) (i : nat) fld (cap : Q) :
  in_domain a -> In (i, fld, cap) capped_features -> 0 <= value (fld a).
Proof. intros Hdom Hin. exact (Hdom i fld cap Hin). Qed.

Lemma nth_error_in_range (a : application) (n i : nat) (x : Q) :
  nth_error (create_application_vector log1p a n) i = Some x -> (i < n)%nat.
Proof.
  intro H. rewrite <- (create_application_vector_length log1p a n).
  apply nth_error_Some. congruence.
Qed.

Ltac capped_coordinate_at Hdom k fld cap :=
  first [ apply uncapped_coordinate | apply capped_coordinate; [reflexivity|] ];
  apply (in_domain_field _ k fld cap Hdom); simpl; tauto.

(** X2.  On a record of the documented domain every coordinate other
    than the two log-scaled amounts and the credit score lies in [0,1];
    the coordinates from the 23rd on are the padding zero; at most one of
    the two term indicators and at most one of the five purpose
    indicators is set. *)
Theorem create_application_vector_unit_interval
    (a : application) (vector_size : nat) (Hdom : in_domain a) :
  let v := create_application_vector log1p a vector_size in
  (forall i x,
      nth_error v i = Some x -> i <> 0%nat -> i <> 1%nat -> i <> 6%nat ->
      0 <= x <= 1)
  /\ (forall i x, nth_error v i = Some x -> (22 <= i)%nat -> x = 0.0)
  /\ (forall t36 t60,
        nth_error v 14 = Some t36 -> nth_error v 15 = Some t60 ->
        t36 = 0.0 \/ t60 = 0.0)
  /\ (forall i j p q,
        (17 <= i < j)%nat -> (j <= 21)%nat ->
        nth_error v i = Some p -> nth_error v j = Some q ->
        p = 0.0 \/ q = 0.0).
Proof.
  intro v. subst v.
  assert (Hpad : forall i x,
    nth_error (create_application_vector log1p a vector_size) i = Some x ->
    (22 <= i)%nat -> x = 0.0).
  { intros i x Hx Hi. pose proof (nth_error_in_range _ _ _ _ Hx) as Hn.
    rewrite create_application_vector_padding in Hx by assumption.
    congruence. }
  split; [|split; [exact Hpad|split]].
  - intros i x Hx H0 H1 H6.
    pose proof (nth_error_in_range _ _ _ _ Hx) as Hn.
    destruct (Nat.le_gt_cases 22 i) as [Hhi|Hlo].
    { rewrite (Hpad i x Hx Hhi). split; vm_compute; discriminate. }
    rewrite create_application_vector_nth in Hx by assumption.
    destruct i as [|i]; [congruence|].
    destruct i as [|i]; [congruence|].
    destruct i as [|i];
      [simpl in Hx; injection Hx as <-;
       capped_coordinate_at Hdom 2%nat dti_snapshot 100|].
    destruct i as [|i];
      [simpl in Hx; injection Hx as <-;
       capped_coordinate_at Hdom 3%nat payment_to_income_ratio 1|].
    destruct i as [|i];
      [simpl in Hx; injection Hx as <-;
       capped_coordinate_at Hdom 4%nat loan_to_income_ratio 1|].
    destruct i as [|i];
      [simpl in Hx; injection Hx as <-;
       capped_coordinate_at Hdom 5%nat revolving_utilization_snapshot 100|].
    destruct i as [|i]; [congruence|].
    destruct i as [|i];
      [simpl in Hx; injection Hx as <-;
       capped_coordinate_at Hdom 7%nat credit_history_length_snapshot 50|].
    destruct i as [|i];
      [simpl in Hx; injection Hx as <-;
       capped_coordinate_at Hdom 8%nat nb_previous_loans 10|].
    destruct i as [|i];
      [simpl in Hx; injection Hx as <-;
       capped_coordinate_at Hdom 9%nat open_accounts 30|].
    destruct i as [|i];
      [simpl in Hx; injection Hx as <-;
       capped_coordinate_at Hdom 10%nat total_accounts 50|].
    destruct i as [|i];
      [simpl in Hx; injection Hx as <-;
       capped_coordinate_at Hdom 11%nat delinquencies_2y 10|].
    destruct i as [|i];
      [simpl in Hx; injection Hx as <-;
       capped_coordinate_at Hdom 12%nat inquiries_6m 10|].
    destruct i as [|i];
      [simpl in Hx; injection Hx as <-;
       capped_coordinate_at Hdom 13%nat public_records 5|].
    destruct i as [|i];
      [simpl in Hx; injection Hx as <-; apply one_hot_bounds|].
    destruct i as [|i];
      [simpl in Hx; injection Hx as <-; apply one_hot_bounds|].
    destruct i as [|i];
      [simpl in Hx; injection Hx as <-;
       pose proof (encode_grade_bounds (grade a)); lra|].
    do 5 (destruct i as [|i];
          [simpl in Hx; injection Hx as <-; apply one_hot_bounds|]).
    lia.
  - intros t36 t60 H36 H60.
    pose proof (nth_error_in_range _ _ _ _ H60) as Hn.
    rewrite create_application_vector_nth in H36, H60 by lia.
    simpl in H36, H60. injection H36 as <-. injection H60 as <-.
    apply one_hot_exclusive. discriminate.
  - intros i j p q Hij Hj Hp Hq.
    pose proof (nth_error_in_range _ _ _ _ Hq) as Hn.
    rewrite create_application_vector_nth in Hp, Hq by lia.
    assert (Hcases : forall k x,
      (17 <= k <= 21)%nat -> nth_error (features log1p a) k = Some x ->
      exists s,
        x = one_hot (loan_purpose a) s
        /\ nth_error ["debt_consolidation"; "credit_card"; "home_improvement";
                      "other"; "major_purchase"]%string (k - 17) = Some s).
    { intros k x Hk Hkx.
      do 17 (destruct k as [|k]; [lia|]).
      do 5 (destruct k as [|k];
            [simpl in Hkx; injection Hkx as <-; eexists; split; reflexivity|]).
      lia. }
    destruct (Hcases i p ltac:(lia) Hp) as [s1 [-> Hs1]].
    destruct (Hcases j q ltac:(lia) Hq) as [s2 [-> Hs2]].
    apply one_hot_exclusive. intros ->.
    assert (Hnodup : NoDup ["debt_consolidation"; "credit_card";
                            "home_improvement"; "other";
                            "major_purchase"]%string).
    { repeat constructor; simpl; intuition discriminate. }
    assert (Heq : (i - 17 = j - 17)%nat).
    { apply (proj1 (NoDup_nth_error _) Hnodup).
      - apply nth_error_Some. congruence.
      - congruence. }
    lia.
Qed.

Lemma or_else_forget_zero (x : option Q) (d : Q) :
  Py.or_else (forget_zero x) d = Py.or_else x d.
Proof.
  destruct x as [v|]; [|reflexivity]. simpl.
  destruct (Qeq_bool v 0) eqn:E; simpl.
  - unfold Py.truthy. now rewrite E.
  - reflexivity.
Qed.

(** X3.  A numeric field holding zero is encoded exactly like an absent
    one; in particular a credit score of zero is encoded as 650. *)
Theorem zero_encodes_as_absent (a : application) (vector_size : nat) :
  create_application_vector log1p (forget_zeros a) vector_size
  = create_application_vector log1p a vector_size
  /\ (forall s,
        fico_snapshot a = Some s -> s == 0 -> (6 < vector_size)%nat ->
        nth_error (create_application_vector log1p a vector_size) 6
        = Some (650 / 850)).
Proof.
  split.
  - unfold create_application_vector, features, forget_zeros. simpl.
    rewrite !or_else_forget_zero. reflexivity.
  - intros s Hs Hz Hn. rewrite create_application_vector_nth by lia.
    simpl. rewrite Hs. simpl. unfold Py.truthy.
    apply Qeq_bool_iff in Hz. now rewrite Hz.
Qed.

End VectorFacts.

(* ================================================================= *)
(** * Further properties of the cohort analysis and of the policy *)

Section RateFacts.

Import Embeddings TwinSearch.

Lemma of_nat_nonneg (n : nat) : 0 <= of_nat n.
Proof.
  unfold of_nat. change 0 with (inject_Z 0). rewrite <- Zle_Qle. lia.
Qed.

Lemma of_nat_le (c n : nat) : (c <= n)%nat -> of_nat c <= of_nat n.
Proof. intro H. unfold of_nat. rewrite <- Zle_Qle. lia. Qed.

Lemma of_nat_pos (n : nat) : n <> 0%nat -> 0 < of_nat n.
Proof.
  intro H. unfold of_nat. change 0 with (inject_Z 0). rewrite <- Zlt_Qlt. lia.
Qed.

Lemma of_nat_plus (a b : nat) : of_nat (a + b) == of_nat a + of_nat b.
Proof.
  unfold of_nat. rewrite Nat2Z.inj_add, inject_Z_plus. reflexivity.
Qed.

Lemma of_nat_succ (n : nat) : of_nat (S n) == of_nat n + 1.
Proof.
  replace (S n) with (n + 1)%nat by lia. rewrite of_nat_plus. reflexivity.
Qed.

Lemma ratio_bounds (c n : nat) :
  (c <= n)%nat -> n <> 0%nat -> 0 <= of_nat c / of_nat n <= 1.
Proof.
  intros Hc Hn. pose proof (of_nat_pos n Hn) as Hpos. split.
  - apply Qle_shift_div_l; [exact Hpos|]. rewrite Qmult_0_l. apply of_nat_nonneg.
  - apply Qle_shift_div_r; [exact Hpos|]. rewrite Qmult_1_l. now apply of_nat_le.
Qed.

Lemma count_outcome_le (label : string) (results : list neighbor) :
  (count_outcome label results <= List.length results)%nat.
Proof. unfold count_outcome. apply filter_length_le. Qed.

Lemma total_bounds (l : list Q) (lo hi : Q) :
  (forall x, In x l -> lo <= x <= hi) ->
  of_nat (List.length l) * lo <= total l <= of_nat (List.length l) * hi.
Proof.
  induction l as [|x l IH]; intro H.
  - cbn [List.length]. change (of_nat 0) with 0. unfold total. cbn [fold_right].
    split; lra.
  - assert (Hx : lo <= x <= hi) by (apply H; now left).
    assert (Hl : forall y, In y l -> lo <= y <= hi)
      by (intros y Hy; apply H; now right).
    specialize (IH Hl). cbn [List.length]. rewrite of_nat_succ.
    unfold total in *. cbn [fold_right]. split; lra.
Qed.

Lemma mean_bounds (l : list Q) (lo hi : Q) :
  l <> [] -> (forall x, In x l -> lo <= x <= hi) -> lo <= mean l <= hi.
Proof.
  intros Hne H. pose proof (total_bounds l lo hi H) as [Hlo Hhi].
  assert (Hpos : 0 < of_nat (List.length l)).
  { apply of_nat_pos. destruct l; [congruence|discriminate]. }
  unfold mean. fold (of_nat (List.length l)). split.
  - apply Qle_shift_div_l; [exact Hpos|]. lra.
  - apply Qle_shift_div_r; [exact Hpos|]. lra.
Qed.

Lemma ratios_sum (s d l n : Q) :
  0 < n -> s + d + l <= n -> s / n + d / n + l / n <= 1.
Proof.
  intros Hn Hle.
  assert (Heq : s / n + d / n + l / n == (s + d + l) / n) by (field; lra).
  rewrite Heq. apply Qle_shift_div_r; [exact Hn|]. lra.
Qed.

Lemma analyze_twins_proportions (results : list neighbor) (a : analysis_dict) :
  analyze_twins results = Py.Ok a ->
  0 <= success_rate a <= 1
  /\ 0 <= default_rate a <= 1
  /\ 0 <= late_rate a <= 1
  /\ success_rate a + default_rate a + late_rate a <= 1
  /\ (forall lo hi,
        results <> [] ->
        (forall r, In r results -> lo <= score r <= hi) ->
        lo <= avg_similarity a <= hi).
Proof.
  intro Ha. destruct results as [|r0 results].
  - injection Ha as <-. cbn.
    do 3 (split; [split; vm_compute; discriminate|]).
    split; [vm_compute; discriminate|].
    intros lo hi Hne. congruence.
  - set (rs := r0 :: results) in *.
    assert (Hne : rs <> []) by discriminate.
    rewrite (analyze_twins_nonempty rs Hne) in Ha. cbv zeta in Ha.
    injection Ha as <-.
    cbn [success_rate default_rate late_rate avg_similarity].
    assert (Hn : List.length rs <> 0%nat) by discriminate.
    pose proof (of_nat_pos _ Hn) as Hpos.
    split; [apply ratio_bounds; [apply count_outcome_le|exact Hn]|].
    split; [apply ratio_bounds; [apply count_outcome_le|exact Hn]|].
    split; [apply ratio_bounds; [apply count_outcome_le|exact Hn]|].
    split.
    + pose proof (counted_labels_bounded rs) as Hsum.
      assert (Hle : of_nat (count_outcome "success" rs)
                    + of_nat (count_outcome "default" rs)
                    + of_nat (count_outcome "late_payments" rs)
                    <= of_nat (List.length rs)).
      { rewrite <- !of_nat_plus. apply of_nat_le. lia. }
      apply ratios_sum; assumption.
    + intros lo hi _ Hscores.
      pose proof (avg_similarity_mean rs) as Havg.
      assert (Hmean : lo <= mean (map score rs) <= hi).
      { apply mean_bounds.
        - discriminate.
        - intros x Hx. apply in_map_iff in Hx. destruct Hx as [r [<- Hr]].
          now apply Hscores. }
      destruct Hmean as [Hlo Hhi]. split.
      * apply Qle_trans with (mean (map score rs)); [exact Hlo|].
        apply Qle_lteq. right. symmetry. exact Havg.
      * apply Qle_trans with (mean (map score rs)); [|exact Hhi].
        apply Qle_lteq. right. exact Havg.
Qed.

(** X4.  The rates [analyze_twins] reports are proportions: each lies in
    [0,1] and the three together do not exceed 1; the average similarity
    lies between any two bounds of the scores. *)
Theorem analyze_twins_rates_bounded (results : list neighbor) (a : analysis_dict) :
  analyze_twins results = Py.Ok a ->
  0 <= success_rate a <= 1
  /\ 0 <= default_rate a <= 1
  /\ 0 <= late_rate a <= 1
  /\ success_rate a + default_rate a + late_rate a <= 1
  /\ (forall lo hi,
        results <> [] ->
        (forall r, In r results -> lo <= score r <= hi) ->
        lo <= avg_similarity a <= hi).
Proof. exact (analyze_twins_proportions results a). Qed.

End RateFacts.

Section PolicyOnCohorts.

Import Embeddings TwinSearch.

(** With nine successes in ten there is no room for more than one late
    payer in ten. *)
Lemma late_rate_under_conditions (results : list neighbor) (a : analysis_dict) :
  analyze_twins results = Py.Ok a ->
  0.90 <= success_rate a -> late_rate a <= 0.10 /\ default_rate a <= 0.10.
Proof.
  intros Ha Hs.
  destruct (analyze_twins_proportions results a Ha)
    as [_ [[Hd _] [[Hl _] [Hsum _]]]].
  split; lra.
Qed.

Lemma make_decision_conditions (a : analysis_dict) (app : application) :
  forall conds,
    conditions (make_decision a app) = Some conds ->
    conds = []
    \/ (0.90 <= success_rate a
        /\ (In "Interest rate premium (+1.5% APR)"%string conds ->
            0.10 < late_rate a)).
Proof.
  intros conds. unfold make_decision.
  destruct (Qle_bool 0.99 (success_rate a) && Py.Qlt_bool (default_rate a) 0.05).
  { cbn. intros [= <-]. now left. }
  destruct (Qle_bool 0.90 (success_rate a) && Py.Qlt_bool (default_rate a) 0.10)
    eqn:E2.
  2:{ destruct (Qle_bool 0.85 (success_rate a)); cbn; discriminate. }
  apply row_test in E2. destruct E2 as [Hs _].
  destruct (Py.Qlt_bool 0.05 (default_rate a));
    destruct (Py.Qlt_bool 0.10 (late_rate a)) eqn:El;
    cbn; intros [= <-]; right; (split; [exact Hs|]);
    try (intros _; now apply Qlt_bool_iff);
    simpl; intuition discriminate.
Qed.

(** On the statistics of a cohort the interest premium is never
    attached: the conditions of [make_decision] are empty, the reduction
    alone, or the monitoring alone. *)
Lemma make_decision_on_cohort_conditions
    (results : list neighbor) (a : analysis_dict) (app : application) :
  analyze_twins results = Py.Ok a ->
  forall conds,
    conditions (make_decision a app) = Some conds ->
    ~ In "Interest rate premium (+1.5% APR)"%string conds
    /\ (conds = []
        \/ conds = ["Mandatory 25% reduction in requested amount"%string]
        \/ conds = ["Standard conditions with enhanced monitoring"%string]).
Proof.
  intros Ha conds Hc.
  assert (Hno : ~ In "Interest rate premium (+1.5% APR)"%string conds).
  { destruct (make_decision_conditions a app conds Hc) as [->|[Hs Hin]].
    - intros [].
    - intro H. specialize (Hin H).
      destruct (late_rate_under_conditions results a Ha Hs) as [Hl _]. lra. }
  split; [exact Hno|].
  revert Hc Hno. unfold make_decision.
  destruct (Qle_bool 0.99 (success_rate a) && Py.Qlt_bool (default_rate a) 0.05).
  { cbn. intros [= <-] _. now left. }
  destruct (Qle_bool 0.90 (success_rate a) && Py.Qlt_bool (default_rate a) 0.10).
  2:{ destruct (Qle_bool 0.85 (success_rate a)); cbn; discriminate. }
  destruct (Py.Qlt_bool 0.05 (default_rate a));
    destruct (Py.Qlt_bool 0.10 (late_rate a));
    cbn; intros [= <-] Hno; try tauto;
    exfalso; apply Hno; simpl; tauto.
Qed.


End PolicyOnCohorts.

(* ================================================================= *)
(** * Further properties of the evaluation entry point *)

Section FindTwinsShape.

Import Embeddings TwinSearch.

Variable log1p : Q -> Q.
Variable float_str : Q -> string.
Variable search_similar :
  list Q -> nat -> option amount_filter -> Py.result (list neighbor).
Variable get_llm_explanation : decision_dict -> application -> option string.
Variable average : list Q -> Q.

Local Abbreviation find_twins :=
  (find_twins log1p float_str search_similar get_llm_explanation average).
Local Abbreviation query := (query log1p search_similar).
Local Abbreviation explain := (explain get_llm_explanation).

Lemma generate_friendly_explanation_nonempty (d : decision_dict) :
  generate_friendly_explanation d <> ""%string.
Proof.
  unfold generate_friendly_explanation.
  repeat match goal with
         | |- context [if ?b then _ else _] => destruct b
         end; discriminate.
Qed.

Lemma explain_cases (d : decision_dict) (app : application) :
  explain d app <> ""%string
  /\ (get_llm_explanation d app = None
      \/ get_llm_explanation d app = Some ""%string ->
      explain d app = generate_friendly_explanation d)
  /\ (forall text,
        text <> ""%string -> get_llm_explanation d app = Some text ->
        explain d app = text).
Proof.
  unfold TwinSearch.explain.
  destruct (get_llm_explanation d app) as [[|c s]|].
  - split; [apply generate_friendly_explanation_nonempty|].
    split; [reflexivity|]. intros text Hne [= <-]. congruence.
  - split; [discriminate|]. split.
    + intros [H|H]; discriminate H.
    + intros text _ [= <-]. reflexivity.
  - split; [apply generate_friendly_explanation_nonempty|].
    split; [reflexivity|]. intros text _ H. discriminate H.
Qed.

Lemma same_core_refl (d : decision_dict) : same_core d d.
Proof. repeat split. Qed.

Lemma same_core_trans (d1 d2 d3 : decision_dict) :
  same_core d1 d2 -> same_core d2 d3 -> same_core d1 d3.
Proof.
  unfold same_core. intros [A1 [A2 [A3 [A4 [A5 A6]]]]] [B1 [B2 [B3 [B4 [B5 B6]]]]].
  repeat split; congruence.
Qed.

Lemma attach_roadmap_core (results : list neighbor) (d d1 : decision_dict) :
  attach_roadmap float_str results d = Py.Ok d1 ->
  same_core d d1
  /\ alternative_offer d1 = alternative_offer d
  /\ nudge d1 = nudge d.
Proof.
  unfold attach_roadmap.
  destruct (filter _ results) as [|best rest].
  - intros [= <-]. split; [apply same_core_refl|]. split; reflexivity.
  - destruct (make_roadmap float_str (payload best)) as [r|e]; [|discriminate].
    cbn [Py.bind]. intros [= <-].
    split; [repeat split|]. split; reflexivity.
Qed.

Lemma attach_offer_core
    (results : list neighbor) (app : application) (d d2 : decision_dict) :
  attach_offer results app d = Py.Ok d2 ->
  same_core d d2 /\ roadmap d2 = roadmap d /\ nudge d2 = nudge d.
Proof.
  unfold attach_offer.
  destruct (filter (outcome_is "success") results) as [|r l].
  - intros [= <-]. split; [apply same_core_refl|]. split; reflexivity.
  - rewrite div_ok by (apply of_nat_nonzero; discriminate).
    cbn [Py.bind].
    match goal with |- context [if ?b then _ else _] => destruct b end;
      intros [= <-]; (split; [repeat split|]); split; reflexivity.
Qed.

Lemma contains_approved (a : analysis_dict) (app : application) :
  contains "APPROVED" (decision (make_decision a app)) = true ->
  decision (make_decision a app) = "APPROVED"%string
  \/ decision (make_decision a app) = "APPROVED_WITH_CONDITIONS"%string.
Proof.
  rewrite make_decision_verdict.
  repeat match goal with
         | |- context [if ?b then _ else _] => destruct b
         end; intro H; try (now left); try (now right);
    vm_compute in H; discriminate H.
Qed.

Lemma attach_nudge_core (app : application) (d : decision_dict) :
  same_core d (attach_nudge app d)
  /\ roadmap (attach_nudge app d) = roadmap d
  /\ alternative_offer (attach_nudge app d) = alternative_offer d
  /\ (nudge (attach_nudge app d) = nudge d
      \/ (contains "APPROVED" (decision d) = true /\ first_loan app)).
Proof.
  unfold attach_nudge, first_loan.
  destruct (contains "APPROVED" (decision d)).
  2:{ split; [apply same_core_refl|]. repeat split. now left. }
  destruct (nb_previous_loans app) as [n|].
  - destruct (Qeq_bool n 0) eqn:E.
    + split; [repeat split|]. repeat split. right. split; [reflexivity|].
      now apply Qeq_bool_iff.
    + split; [apply same_core_refl|]. repeat split. now left.
  - split; [repeat split|]. repeat split. now right.
Qed.

Lemma make_decision_bare (a : analysis_dict) (app : application) :
  roadmap (make_decision a app) = None
  /\ alternative_offer (make_decision a app) = None
  /\ nudge (make_decision a app) = None
  /\ is_fraud_suspect (make_decision a app) = None.
Proof.
  unfold make_decision.
  destruct (Qle_bool 0.99 (success_rate a) && Py.Qlt_bool (default_rate a) 0.05);
    [repeat split|].
  destruct (Qle_bool 0.90 (success_rate a) && Py.Qlt_bool (default_rate a) 0.10).
  - destruct (Py.Qlt_bool 0.05 (default_rate a)); repeat split.
  - destruct (Qle_bool 0.85 (success_rate a)); repeat split.
Qed.

(** What [find_twins] returns, path by path. *)
Lemma find_twins_shape
    (app : application) (top_k : nat) (threshold : Q) (d : decision_dict) :
  find_twins app top_k threshold = Py.Ok d ->
  let results := query app top_k in
  exists d0,
    d = with_explanation d0 (explain d0 app)
    /\ (((List.length results < 10)%nat
         /\ decision d0 = "ANOMALY_DETECTED"%string
         /\ confidence d0 = 0.0
         /\ conditions d0 = None /\ analysis d0 = None
         /\ is_fraud_suspect d0 = None /\ roadmap d0 = None
         /\ alternative_offer d0 = None /\ nudge d0 = None)
        \/ ((10 <= List.length results)%nat
            /\ fraud_signal_on (average (map score results)) results
            /\ decision d0 = "REJECTED"%string
            /\ confidence d0 = 1.0
            /\ conditions d0 = None
            /\ (exists a, analyze_twins results = Py.Ok a /\ analysis d0 = Some a)
            /\ is_fraud_suspect d0 = Some true /\ roadmap d0 = None
            /\ alternative_offer d0 = None /\ nudge d0 = None)
        \/ ((10 <= List.length results)%nat
            /\ ~ fraud_signal_on (average (map score results)) results
            /\ exists a d1 d2,
                 analyze_twins results = Py.Ok a
                 /\ (if String.eqb (decision (make_decision a app)) "REJECTED"
                     then attach_roadmap float_str results (make_decision a app)
                          = Py.Ok d1
                          /\ attach_offer results app d1 = Py.Ok d2
                     else d1 = make_decision a app /\ d2 = d1)
                 /\ d0 = attach_nudge app d2)).
Proof.
  intros Hd results. unfold TwinSearch.find_twins in Hd. fold results in Hd.
  destruct (Nat.ltb_spec (List.length results) 10) as [Hlt|Hge].
  { injection Hd as <-. eexists. split; [reflexivity|]. left.
    split; [exact Hlt|]. repeat split. }
  pose proof (analyze_twins_nonempty results (long_list_nonempty _ Hge)) as Hn.
  cbv zeta in Hn.
  destruct (analyze_twins results) as [a|e] eqn:Ha; [|discriminate Hn].
  injection Hn as Hn. cbn [Py.bind] in Hd.
  destruct (_ || _) eqn:Etest in Hd.
  { apply fraud_test in Etest. injection Hd as <-.
    eexists. split; [reflexivity|]. right. left.
    split; [exact Hge|]. split; [exact Etest|].
    repeat split. eexists. split; reflexivity. }
  assert (Hnofraud : ~ fraud_signal_on (average (map score results)) results).
  { intro H. apply fraud_test in H. congruence. }
  clear Hn.
  match type of Hd with
  | context [Py.bind ?c _] => destruct c as [d2|e] eqn:Esteps
  end; [|discriminate Hd].
  cbn [Py.bind] in Hd. injection Hd as <-.
  eexists. split; [reflexivity|]. right. right.
  split; [exact Hge|]. split; [exact Hnofraud|].
  destruct (String.eqb (decision (make_decision a app)) "REJECTED") eqn:Erej.
  - destruct (attach_roadmap float_str results (make_decision a app))
      as [d1|e] eqn:E1; [|discriminate Esteps].
    cbn [Py.bind] in Esteps.
    exists a, d1, d2. rewrite Erej. repeat split; assumption.
  - injection Esteps as <-.
    exists a, (make_decision a app), (make_decision a app).
    rewrite Erej. repeat split.
Qed.

(** The normal path: the verdict and terms of [make_decision], and the
    signals each verdict admits. *)
Lemma normal_path_core
    (app : application) (results : list neighbor) (a : analysis_dict)
    (d1 d2 : decision_dict) :
  (if String.eqb (decision (make_decision a app)) "REJECTED"
   then attach_roadmap float_str results (make_decision a app) = Py.Ok d1
        /\ attach_offer results app d1 = Py.Ok d2
   else d1 = make_decision a app /\ d2 = d1) ->
  let d0 := attach_nudge app d2 in
  same_core (make_decision a app) d0
  /\ (roadmap d0 <> None \/ alternative_offer d0 <> None ->
      decision (make_decision a app) = "REJECTED"%string /\ nudge d0 = None)
  /\ (nudge d0 <> None ->
      (decision (make_decision a app) = "APPROVED"%string
       \/ decision (make_decision a app) = "APPROVED_WITH_CONDITIONS"%string)
      /\ first_loan app).
Proof.
  intros Hsteps d0. subst d0.
  destruct (make_decision_bare a app) as [Hr [Ho [Hn _]]].
  destruct (String.eqb_spec (decision (make_decision a app)) "REJECTED")
    as [Hrej|Hrej].
  - destruct Hsteps as [E1 E2].
    destruct (attach_roadmap_core _ _ _ E1) as [C1 [_ N1]].
    destruct (attach_offer_core _ _ _ _ E2) as [C2 [_ N2]].
    pose proof (same_core_trans _ _ _ C1 C2) as C.
    assert (Hd2 : decision d2 = "REJECTED"%string)
      by (destruct C as [Hv _]; congruence).
    rewrite (attach_nudge_rejected app d2 Hd2).
    split; [exact C|]. split.
    + intros _. split; [exact Hrej|congruence].
    + intro H. exfalso. apply H. congruence.
  - destruct Hsteps as [-> ->].
    destruct (attach_nudge_core app (make_decision a app))
      as [C [R [O N]]].
    split; [exact C|]. split.
    + intros [H|H]; exfalso; apply H; congruence.
    + intro H. destruct N as [N|[Hc Hf]]; [exfalso; apply H; congruence|].
      split; [now apply contains_approved|exact Hf].
Qed.

(** X5.  No decision [find_twins] returns lists the interest premium
    among its conditions: with at least nine successes in ten no more
    than one neighbor in ten paid late. *)
Theorem find_twins_never_attaches_premium
    (app : application) (top_k : nat) (threshold : Q) (d : decision_dict) :
  find_twins app top_k threshold = Py.Ok d ->
  forall conds,
    conditions d = Some conds ->
    ~ In "Interest rate premium (+1.5% APR)"%string conds
    /\ (conds = []
        \/ conds = ["Mandatory 25% reduction in requested amount"%string]
        \/ conds = ["Standard conditions with enhanced monitoring"%string]).
Proof.
  intros Hd conds Hc.
  destruct (find_twins_shape app top_k threshold d Hd) as [d0 [-> Hshape]].
  cbn [conditions with_explanation] in Hc.
  destruct Hshape as [H|[H|H]].
  - destruct H as [_ [_ [_ [Hn _]]]]. congruence.
  - destruct H as [_ [_ [_ [_ [Hn _]]]]]. congruence.
  - destruct H as [_ [_ [a [d1 [d2 [Ha [Hsteps ->]]]]]]].
    destruct (normal_path_core app _ a d1 d2 Hsteps) as [[_ [_ [Hco _]]] _].
    rewrite Hco in Hc.
    exact (make_decision_on_cohort_conditions _ a app Ha conds Hc).
Qed.

(** X7.  Every decision [find_twins] returns carries an explanation that
    is not empty: the text of the language service when it gives one,
    the template of the verdict when the service gives nothing or an
    empty text. *)
Theorem find_twins_always_explains
    (app : application) (top_k : nat) (threshold : Q) (d : decision_dict) :
  find_twins app top_k threshold = Py.Ok d ->
  exists d0 text,
    d = with_explanation d0 text
    /\ explanation d = Some text
    /\ text <> ""%string
    /\ (get_llm_explanation d0 app = None
        \/ get_llm_explanation d0 app = Some ""%string ->
        text = generate_friendly_explanation d0)
    /\ (forall answer,
          answer <> ""%string -> get_llm_explanation d0 app = Some answer ->
          text = answer).
Proof.
  intro Hd.
  destruct (find_twins_shape app top_k threshold d Hd) as [d0 [-> _]].
  exists d0, (explain d0 app).
  split; [reflexivity|]. split; [reflexivity|].
  apply explain_cases.
Qed.

(** X8.  The verdict is one of five; a roadmap or an alternative offer
    comes only with a REJECTED verdict that is not a fraud rejection, and
    never with a nudge; a nudge comes only with an approval of an
    applicant naming no previous loan; the analysis is missing exactly
    from the anomaly verdict. *)
Theorem find_twins_signals
    (app : application) (top_k : nat) (threshold : Q) (d : decision_dict) :
  find_twins app top_k threshold = Py.Ok d ->
  In (decision d)
     ["APPROVED"; "APPROVED_WITH_CONDITIONS"; "MANUAL_REVIEW"; "REJECTED";
      "ANOMALY_DETECTED"]%string
  /\ (roadmap d <> None \/ alternative_offer d <> None ->
      decision d = "REJECTED"%string
      /\ is_fraud_suspect d = None /\ nudge d = None)
  /\ (nudge d <> None ->
      (decision d = "APPROVED"%string
       \/ decision d = "APPROVED_WITH_CONDITIONS"%string)
      /\ first_loan app)
  /\ (analysis d = None <-> decision d = "ANOMALY_DETECTED"%string).
Proof.
  intro Hd.
  destruct (find_twins_shape app top_k threshold d Hd) as [d0 [-> Hshape]].
  cbn [decision roadmap alternative_offer nudge is_fraud_suspect analysis
       with_explanation].
  destruct Hshape as [H|[H|H]].
  - destruct H as [_ [Hv [_ [_ [Ha [Hf [Hr [Ho Hn]]]]]]]].
    rewrite Hv, Hr, Ho, Hn, Ha.
    split; [simpl; tauto|]. split; [intros [H|H]; congruence|].
    split; [congruence|]. split; reflexivity.
  - destruct H as [_ [_ [Hv [_ [_ [[a [_ Ha]] [Hf [Hr [Ho Hn]]]]]]]]].
    rewrite Hv, Hr, Ho, Hn, Ha.
    split; [simpl; tauto|]. split; [intros [H|H]; congruence|].
    split; [congruence|]. split; discriminate.
  - destruct H as [_ [_ [a [d1 [d2 [Ha [Hsteps ->]]]]]]].
    destruct (normal_path_core app _ a d1 d2 Hsteps)
      as [[Hv [_ [_ [_ [Han Hfr]]]]] [Hro Hnu]].
    destruct (make_decision_bare a app) as [_ [_ [_ Hf]]].
    destruct (make_decision_confidence a app) as [_ Hana].
    rewrite Hv, Han, Hfr, Hf, Hana.
    split.
    { rewrite make_decision_verdict.
      repeat match goal with
             | |- context [if ?b then _ else _] => destruct b
             end; simpl; tauto. }
    split.
    { intro H. destruct (Hro H) as [Hrej Hn]. auto. }
    split; [exact Hnu|].
    split; [discriminate|].
    rewrite make_decision_verdict.
    repeat match goal with
           | |- context [if ?b then _ else _] => destruct b
           end; discriminate.
Qed.

(** X10.  When every similarity score of the index lies in [0,1], so
    does the confidence of every decision [find_twins] returns. *)
Theorem find_twins_confidence_range
    (app : application) (top_k : nat) (threshold : Q) (d : decision_dict) :
  find_twins app top_k threshold = Py.Ok d ->
  (forall r, In r (query app top_k) -> 0 <= score r <= 1) ->
  0 <= confidence d <= 1.
Proof.
  intros Hd Hscores.
  destruct (find_twins_shape app top_k threshold d Hd) as [d0 [-> Hshape]].
  cbn [confidence with_explanation].
  destruct Hshape as [H|[H|H]].
  - destruct H as [_ [_ [Hc _]]]. rewrite Hc. split; vm_compute; discriminate.
  - destruct H as [_ [_ [_ [Hc _]]]]. rewrite Hc.
    split; vm_compute; discriminate.
  - destruct H as [Hlen [_ [a [d1 [d2 [Ha [Hsteps ->]]]]]]].
    destruct (normal_path_core app _ a d1 d2 Hsteps) as [[_ [Hc _]] _].
    rewrite Hc. destruct (make_decision_confidence a app) as [-> _].
    destruct (analyze_twins_proportions _ a Ha) as [_ [_ [_ [_ Havg]]]].
    apply Havg; [now apply long_list_nonempty|exact Hscores].
Qed.

Lemma round_half_even_error (x : Q) :
  - (1 # 2) <= inject_Z (Py.round_half_even x) - x <= 1 # 2.
Proof.
  pose proof (Qfloor_le x) as Hlo. pose proof (Qlt_floor x) as Hhi.
  rewrite inject_Z_plus in Hhi. change (inject_Z 1) with 1 in Hhi.
  unfold Py.round_half_even.
  destruct (Py.Qlt_bool (x - inject_Z (Qfloor x)) 0.5) eqn:E1;
    [apply Qlt_bool_iff in E1; split; lra|apply Qlt_bool_false_iff in E1].
  destruct (Py.Qlt_bool 0.5 (x - inject_Z (Qfloor x))) eqn:E2;
    [apply Qlt_bool_iff in E2|apply Qlt_bool_false_iff in E2].
  - rewrite inject_Z_plus. change (inject_Z 1) with 1. split; lra.
  - destruct (Z.even (Qfloor x)).
    + split; lra.
    + rewrite inject_Z_plus. change (inject_Z 1) with 1. split; lra.
Qed.

Lemma round_hundreds_error (x : Q) :
  (exists k, Py.round_hundreds x = inject_Z k * 100)
  /\ - 50 <= Py.round_hundreds x - x <= 50.
Proof.
  unfold Py.round_hundreds. split; [eexists; reflexivity|].
  pose proof (round_half_even_error (x / 100)) as [Hlo Hhi].
  assert (Hx : x == (x / 100) * 100) by field.
  split; lra.
Qed.

Lemma total_or_else (l : list neighbor) :
  total (map (fun r => Py.or_else (Payload.requested_amount (payload r)) 0) l)
  == total (map (fun r => value (Payload.requested_amount (payload r))) l).
Proof.
  induction l as [|r l IH]; [reflexivity|].
  unfold total in *. cbn [map fold_right]. rewrite IH, or_else_zero. reflexivity.
Qed.

(** The offer of step 7, read off [attach_offer]. *)
Lemma attach_offer_offer
    (results : list neighbor) (app : application) (d d2 : decision_dict)
    (o : offer_dict) :
  attach_offer results app d = Py.Ok d2 ->
  alternative_offer d = None ->
  alternative_offer d2 = Some o ->
  successful_amounts results <> []
  /\ mean (successful_amounts results) < value (requested_amount app) * 0.8
  /\ offer_type o = "SAFER_AMOUNT"%string
  /\ (exists k, offer_amount o = inject_Z k * 100)
  /\ - 50 <= offer_amount o - mean (successful_amounts results) <= 50.
Proof.
  unfold attach_offer, successful_amounts.
  destruct (filter (outcome_is "success") results) as [|r l] eqn:Ef.
  { intros [= <-] Hnone Hsome. congruence. }
  rewrite div_ok by (apply of_nat_nonzero; discriminate).
  cbn [Py.bind].
  set (succ := r :: l).
  set (avg := fold_left Qplus
                (map (fun r0 => Py.or_else (Payload.requested_amount (payload r0)) 0)
                     succ) 0
              / of_nat (List.length succ)).
  assert (Havg : avg
                 == mean (map (fun r0 => value (Payload.requested_amount (payload r0)))
                              succ)).
  { unfold avg, mean. rewrite fold_left_Qplus_total, total_or_else, length_map.
    reflexivity. }
  destruct (Py.Qlt_bool avg (amount_or_zero app * 0.8)) eqn:Etest.
  2:{ intros [= <-] Hnone Hsome. congruence. }
  apply Qlt_bool_iff in Etest.
  intros [= <-] _ Hsome. cbn in Hsome. injection Hsome as <-.
  cbn [offer_type offer_amount].
  split; [discriminate|].
  split; [rewrite <- Havg; exact Etest|].
  split; [reflexivity|].
  destruct (round_hundreds_error avg) as [Hk [Hlo Hhi]].
  split; [exact Hk|]. split; lra.
Qed.

(** X9.  An alternative offer comes with a REJECTED verdict only; its
    amount is a whole number of hundreds within 50 of the mean amount
    requested by the successful neighbors, and that mean is below 80% of
    the amount the applicant requested. *)
Theorem find_twins_alternative_offer
    (app : application) (top_k : nat) (threshold : Q)
    (d : decision_dict) (o : offer_dict) :
  find_twins app top_k threshold = Py.Ok d ->
  alternative_offer d = Some o ->
  let amounts := successful_amounts (query app top_k) in
  decision d = "REJECTED"%string
  /\ amounts <> []
  /\ mean amounts < value (requested_amount app) * 0.8
  /\ offer_type o = "SAFER_AMOUNT"%string
  /\ (exists k, offer_amount o = inject_Z k * 100)
  /\ - 50 <= offer_amount o - mean amounts <= 50.
Proof.
  intros Hd Ho amounts. subst amounts.
  destruct (find_twins_shape app top_k threshold d Hd) as [d0 [-> Hshape]].
  cbn [alternative_offer decision with_explanation] in *.
  destruct Hshape as [H|[H|H]].
  - destruct H as [_ [_ [_ [_ [_ [_ [_ [Hn _]]]]]]]]. congruence.
  - destruct H as [_ [_ [_ [_ [_ [_ [_ [_ [Hn _]]]]]]]]]. congruence.
  - destruct H as [_ [_ [a [d1 [d2 [Ha [Hsteps ->]]]]]]].
    destruct (make_decision_bare a app) as [_ [Hoff _]].
    destruct (String.eqb_spec (decision (make_decision a app)) "REJECTED")
      as [Hr|Hr].
    + destruct Hsteps as [E1 E2].
      destruct (attach_roadmap_core _ _ _ E1) as [C1 [O1 _]].
      destruct (attach_offer_core _ _ _ _ E2) as [C2 _].
      assert (Hd2 : decision d2 = "REJECTED"%string).
      { destruct C1 as [V1 _]. destruct C2 as [V2 _]. congruence. }
      rewrite (attach_nudge_rejected app d2 Hd2) in *.
      split; [exact Hd2|].
      apply (attach_offer_offer _ app d1 d2 o E2); congruence.
    + destruct Hsteps as [-> ->].
      destruct (attach_nudge_core app (make_decision a app)) as [_ [_ [O _]]].
      congruence.
Qed.

End FindTwinsShape.


(* ================================================================= *)
(** * The vector store *)

Section VectorStoreFacts.

Import VectorStore.

Variable store : Type.
Variable query_points :
  store -> list Q -> Z -> option (list condition) -> Py.result (list scored_point).
Variable upsert : store -> list point -> store * option Py.exn.

Lemma range_condition_unknown (field operator : string) (operand : Q) :
  ~ In operator known_operators -> range_condition field operator operand = [].
Proof.
  intro H. unfold range_condition, known_operators in *. simpl in H.
  repeat match goal with
         | |- context [String.eqb ?a ?b] =>
             destruct (String.eqb_spec a b); [exfalso; subst; tauto|]
         end.
  reflexivity.
Qed.

Lemma range_condition_known (field operator : string) (operand : Q) :
  In operator known_operators ->
  exists bound, range_condition field operator operand
                = [FieldRange field bound operand].
Proof.
  unfold known_operators. simpl.
  intros [<-|[<-|[<-|[<-|[]]]]]; eexists; reflexivity.
Qed.

Lemma unknown_operators_add_nothing (field : string) (ops : list (string * Q)) :
  (forall operator operand,
      In (operator, operand) ops -> ~ In operator known_operators) ->
  flat_map (fun '(operator, operand) => range_condition field operator operand)
           ops = [].
Proof.
  induction ops as [|[operator operand] ops IH]; intro Hops; [reflexivity|].
  cbn [flat_map].
  rewrite range_condition_unknown by (apply (Hops operator operand); now left).
  apply IH. intros o x Hin. apply (Hops o x). now right.
Qed.

(** X11.  A dictionary of filters whose operators are all unknown to
    [search_similar] yields no filter at all, so the search runs
    unfiltered; a filter that is built is never empty, and a known
    operator always contributes its bound. *)
Theorem build_filter_unknown_operators :
  (forall entries,
      (forall field value,
          In (field, value) entries ->
          exists ops,
            value = Operators ops
            /\ forall operator operand,
                 In (operator, operand) ops -> ~ In operator known_operators) ->
      build_filter (Some entries) = None)
  /\ (forall filters must, build_filter filters = Some must -> must <> [])
  /\ (forall field operator operand,
        In operator known_operators ->
        exists bound,
          build_filter (Some [(field, Operators [(operator, operand)])])
          = Some [FieldRange field bound operand]).
Proof.
  split; [|split].
  - intros entries Hall.
    assert (Hnone : flat_map field_conditions entries = []).
    { induction entries as [|[field value] entries IH]; [reflexivity|].
      cbn [flat_map].
      destruct (Hall field value (or_introl eq_refl)) as [ops [-> Hops]].
      rewrite IH by (intros f v Hin; apply (Hall f v); now right).
      rewrite app_nil_r. cbn [field_conditions].
      now apply unknown_operators_add_nothing. }
    unfold build_filter. destruct entries; [reflexivity|]. now rewrite Hnone.
  - intros filters must. unfold build_filter.
    destruct filters as [[|entry entries]|]; try discriminate.
    destruct (flat_map field_conditions (entry :: entries)); [discriminate|].
    intros [= <-]. discriminate.
  - intros field operator operand Hin.
    destruct (range_condition_known field operator operand Hin) as [bound Hb].
    exists bound. unfold build_filter. cbn [flat_map field_conditions].
    rewrite Hb. reflexivity.
Qed.

(** X12.  [search_similar] refuses a vector that has not [VECTOR_SIZE]
    coordinates and a [top_k] below 1 before it asks the client; past
    the checks it returns the hits of the client, as many and in their
    order, and raises a plain exception whatever the client raised. *)
Theorem search_similar_checks
    (st : store) (vector : list Q) (top_k : Z) (filters : option filters_dict) :
  (List.length vector <> VECTOR_SIZE \/ (top_k < 1)%Z ->
   search_similar store query_points st vector top_k filters
   = Py.Raise Py.ValueError)
  /\ (List.length vector = VECTOR_SIZE -> (1 <= top_k)%Z ->
      (forall points,
          query_points st vector top_k (build_filter filters) = Py.Ok points ->
          exists hits,
            search_similar store query_points st vector top_k filters = Py.Ok hits
            /\ map TwinSearch.score hits = map hit_score points
            /\ map TwinSearch.payload hits = map hit_payload points)
      /\ (forall e,
            query_points st vector top_k (build_filter filters) = Py.Raise e ->
            search_similar store query_points st vector top_k filters
            = Py.Raise Py.BackendError)).
Proof.
  unfold search_similar. split.
  - intros [Hlen|Hk].
    + destruct (Nat.eqb_spec (List.length vector) VECTOR_SIZE); [contradiction|].
      reflexivity.
    + destruct (Nat.eqb (List.length vector) VECTOR_SIZE); [|reflexivity].
      cbn [negb]. destruct (Z.ltb_spec top_k 1); [reflexivity|lia].
  - intros Hlen Hk. rewrite Hlen, Nat.eqb_refl. cbn [negb].
    destruct (Z.ltb_spec top_k 1); [lia|]. split.
    + intros points ->. eexists. split; [reflexivity|].
      rewrite !map_map. split; reflexivity.
    + intros e ->. reflexivity.
Qed.

Lemma skipn_shorter (b : nat) (l : list point) :
  (0 < b)%nat -> l <> [] -> (List.length (skipn b l) < List.length l)%nat.
Proof.
  intros Hb Hl. rewrite length_skipn.
  destruct l; [congruence|]. cbn [List.length]. lia.
Qed.

Lemma slices_from_concat (fuel b : nat) (l : list point) :
  (0 < b)%nat -> (List.length l <= fuel)%nat ->
  List.concat (slices_from fuel b l) = l.
Proof.
  intro Hb. revert l. induction fuel as [|fuel IH]; intros l Hlen.
  - destruct l; [reflexivity|simpl in Hlen; lia].
  - destruct l as [|x l]; [reflexivity|].
    cbn [slices_from List.concat].
    rewrite IH.
    + apply firstn_skipn.
    + pose proof (skipn_shorter b (x :: l) Hb ltac:(discriminate)). lia.
Qed.

Lemma slices_from_sizes (fuel b : nat) (l : list point) :
  (0 < b)%nat ->
  Forall (fun batch => batch <> [] /\ (List.length batch <= b)%nat)
         (slices_from fuel b l).
Proof.
  intro Hb. revert l. induction fuel as [|fuel IH]; intro l; [constructor|].
  destruct l as [|x l]; [constructor|].
  cbn [slices_from]. constructor; [|apply IH].
  split.
  - destruct b; [lia|]. discriminate.
  - rewrite length_firstn. lia.
Qed.

Lemma upload_healthy (st : store) (batches : list (list point)) (total : nat) :
  healthy upsert ->
  Forall (fun batch => forallb valid_point batch = true) batches ->
  upload store upsert st batches total
  = (sent upsert st batches,
     Py.Ok (total + List.length (List.concat batches))%nat).
Proof.
  intros Hh Hvalid. revert st total.
  induction Hvalid as [|batch batches Hb _ IH]; intros st total.
  - cbn. now rewrite Nat.add_0_r.
  - cbn [upload]. rewrite Hb.
    pose proof (Hh st batch) as Hnone.
    destruct (upsert st batch) as [st' raised] eqn:E. cbn in Hnone. subst raised.
    rewrite IH. unfold sent. cbn [fold_left List.concat]. rewrite E. cbn [fst].
    rewrite length_app. f_equal. f_equal. lia.
Qed.

Lemma upload_stops (st : store) (good : list (list point)) (bad : list point)
    (rest : list (list point)) (total : nat) :
  healthy upsert ->
  Forall (fun batch => forallb valid_point batch = true) good ->
  forallb valid_point bad = false ->
  upload store upsert st (good ++ bad :: rest) total
  = (sent upsert st good, Py.Raise Py.BackendError).
Proof.
  intros Hh Hgood Hbad. revert st total.
  induction Hgood as [|batch good Hb _ IH]; intros st total.
  - cbn. now rewrite Hbad.
  - cbn [List.app upload]. rewrite Hb.
    pose proof (Hh st batch) as Hnone.
    destruct (upsert st batch) as [st' raised] eqn:E. cbn in Hnone. subst raised.
    rewrite IH. unfold sent. cbn [fold_left]. rewrite E. reflexivity.
Qed.

Lemma valid_batches (b : nat) (points : list point) :
  (0 < b)%nat ->
  forallb valid_point points = true ->
  Forall (fun batch => forallb valid_point batch = true) (slices b points).
Proof.
  intros Hb Hvalid.
  pose proof (slices_from_concat (List.length points) b points Hb (le_n _)) as Hc.
  fold (slices b points) in Hc.
  rewrite <- Hc in Hvalid. clear Hc.
  induction (slices b points) as [|batch batches IH]; [constructor|].
  cbn [List.concat] in Hvalid. rewrite forallb_app in Hvalid.
  apply andb_true_iff in Hvalid. destruct Hvalid as [H1 H2].
  constructor; [exact H1|now apply IH].
Qed.

(** X13.  With a positive batch size, valid points and a client that
    does not raise, [batch_upsert_vectors] sends the points in order in
    non-empty batches of at most [batch_size] points and returns their
    number. *)
Theorem batch_upsert_vectors_uploads_all
    (st : store) (points_data : list point) (batch_size : Z) :
  (0 < batch_size)%Z ->
  healthy upsert ->
  forallb valid_point points_data = true ->
  let batches := slices (Z.to_nat batch_size) points_data in
  List.concat batches = points_data
  /\ Forall (fun batch => batch <> []
                          /\ (Z.of_nat (List.length batch) <= batch_size)%Z)
            batches
  /\ batch_upsert_vectors store upsert st points_data batch_size
     = (sent upsert st batches, Py.Ok (List.length points_data)).
Proof.
  intros Hb Hh Hvalid batches.
  assert (Hnat : (0 < Z.to_nat batch_size)%nat) by lia.
  assert (Hconcat : List.concat batches = points_data).
  { apply slices_from_concat; [exact Hnat|apply le_n]. }
  split; [exact Hconcat|]. split.
  - pose proof (slices_from_sizes (List.length points_data)
                  (Z.to_nat batch_size) points_data Hnat) as Hs.
    eapply Forall_impl; [|exact Hs].
    intros batch [Hne Hlen]. split; [exact Hne|lia].
  - unfold batch_upsert_vectors.
    destruct points_data as [|p points]; [reflexivity|].
    destruct (Z.eqb_spec batch_size 0); [lia|].
    destruct (Z.ltb_spec batch_size 0); [lia|].
    fold batches.
    rewrite (upload_healthy st batches 0 Hh
               (valid_batches _ _ Hnat Hvalid)).
    now rewrite Hconcat.
Qed.

(** X14.  When a batch holds a point with a negative id or a vector of
    the wrong size, the batches before it have been sent, that batch and
    the later ones are not, and the caller gets a plain exception. *)
Theorem batch_upsert_vectors_partial
    (st : store) (points_data : list point) (batch_size : Z)
    (good : list (list point)) (bad : list point) (rest : list (list point)) :
  (0 < batch_size)%Z ->
  healthy upsert ->
  slices (Z.to_nat batch_size) points_data = good ++ bad :: rest ->
  Forall (fun batch => forallb valid_point batch = true) good ->
  forallb valid_point bad = false ->
  batch_upsert_vectors store upsert st points_data batch_size
  = (sent upsert st good, Py.Raise Py.BackendError).
Proof.
  intros Hb Hh Hsl Hgood Hbad. unfold batch_upsert_vectors.
  destruct points_data as [|p points].
  { destruct good; discriminate Hsl. }
  destruct (Z.eqb_spec batch_size 0); [lia|].
  destruct (Z.ltb_spec batch_size 0); [lia|].
  rewrite Hsl. now apply upload_stops.
Qed.

(** X15.  The edges of [batch_upsert_vectors]: no point, nothing sent
    and 0 returned, whatever the batch size; a batch size of zero raises
    before anything is sent; a negative batch size returns 0 and sends
    nothing, though there were points to send. *)
Theorem batch_upsert_vectors_edges (st : store) :
  (forall batch_size,
      batch_upsert_vectors store upsert st [] batch_size = (st, Py.Ok 0%nat))
  /\ (forall points_data,
        points_data <> [] ->
        batch_upsert_vectors store upsert st points_data 0
        = (st, Py.Raise Py.BackendError))
  /\ (forall points_data batch_size,
        (batch_size < 0)%Z ->
        batch_upsert_vectors store upsert st points_data batch_size
        = (st, Py.Ok 0%nat)).
Proof.
  split; [|split].
  - reflexivity.
  - intros [|p points] Hne; [congruence|reflexivity].
  - intros [|p points] b Hb; [reflexivity|].
    unfold batch_upsert_vectors.
    destruct (Z.eqb_spec b 0); [lia|].
    destruct (Z.ltb_spec b 0); [reflexivity|lia].
Qed.

End VectorStoreFacts.

(* ================================================================= *)
(** * Ingestion *)

Section IngestionFacts.

Import VectorStore BuildVectorStore.

Variable log1p : Q -> Q.
Variable float_str : Q -> string.
Variable store : Type.
Variable upsert : store -> list point -> store * option Py.exn.

Lemma prepare_from_facts (idx : nat) (applications : list loan_request) :
  forallb valid_point (prepare_from log1p idx applications) = true
  /\ map point_id (prepare_from log1p idx applications)
     = map Z.of_nat (seq idx (List.length applications)).
Proof.
  revert idx. induction applications as [|app rest IH]; intro idx.
  - split; reflexivity.
  - destruct (IH (S idx)) as [Hv Hid]. cbn [prepare_from forallb map seq List.length].
    split.
    + rewrite Hv. unfold valid_point. cbn [point_id point_vector].
      rewrite create_application_vector_length, Nat.eqb_refl.
      destruct (Z.leb_spec 0 (Z.of_nat idx)); [reflexivity|lia].
    + cbn [point_id]. now rewrite Hid.
Qed.

(** X16.  Every point [build_qdrant_vectors] prepares passes the checks
    of [batch_upsert_vectors]: the ids are 0, 1, 2, ... and each vector
    has [VECTOR_SIZE] coordinates; with a client that does not raise,
    the upload returns the number of applications. *)
Theorem prepared_points_upload
    (st : store) (applications : list loan_request) (batch_size : Z) :
  (0 < batch_size)%Z ->
  healthy upsert ->
  let points_data := prepare_points log1p applications in
  map point_id points_data = map Z.of_nat (seq 0 (List.length applications))
  /\ Forall (fun p => List.length (point_vector p) = VECTOR_SIZE) points_data
  /\ batch_upsert_vectors store upsert st points_data batch_size
     = (sent upsert st (slices (Z.to_nat batch_size) points_data),
        Py.Ok (List.length applications)).
Proof.
  intros Hb Hh points_data. subst points_data. unfold prepare_points.
  destruct (prepare_from_facts 0 applications) as [Hvalid Hids].
  split; [exact Hids|]. split.
  - apply Forall_forall. intros p Hp.
    rewrite forallb_forall in Hvalid. specialize (Hvalid p Hp).
    unfold valid_point in Hvalid. apply andb_true_iff in Hvalid.
    destruct Hvalid as [_ Hlen]. now apply Nat.eqb_eq.
  - assert (Hnat : (0 < Z.to_nat batch_size)%nat) by lia.
    assert (Hlen : List.length (prepare_from log1p 0 applications)
                   = List.length applications).
    { rewrite <- (length_map point_id), Hids, length_map. apply length_seq. }
    unfold batch_upsert_vectors.
    destruct (prepare_from log1p 0 applications) as [|p points] eqn:E.
    { destruct applications; [reflexivity|discriminate E]. }
    destruct (Z.eqb_spec batch_size 0); [lia|].
    destruct (Z.ltb_spec batch_size 0); [lia|].
    rewrite (upload_healthy store upsert st _ 0 Hh
               (valid_batches _ _ Hnat Hvalid)).
    unfold slices. rewrite slices_from_concat by (auto; apply le_n).
    now rewrite Hlen.
Qed.

Lemma stored_number_cases (x : option Q) :
  (falsy x /\ stored_number x = Py.PyNone)
  \/ (exists v, x = Some v /\ ~ v == 0 /\ stored_number x = Py.Val v).
Proof.
  destruct x as [v|]; [|left; split; [exact I|reflexivity]].
  unfold stored_number, Py.truthy, falsy.
  destruct (Qeq_bool v 0) eqn:E.
  - left. split; [now apply Qeq_bool_iff|reflexivity].
  - right. exists v. split; [reflexivity|].
    split; [now apply Qeq_bool_neq|reflexivity].
Qed.

(** Rounding to one decimal, whichever way a tie is broken: a multiple
    of 0.1 within 0.05. *)
Lemma round_one_decimal (x : Q) :
  (exists k : Z, Py.round x 1 == inject_Z k / 10)
  /\ - 0.05 <= Py.round x 1 - x <= 0.05.
Proof.
  unfold Py.round. change (inject_Z (10 ^ Z.of_nat 1)) with 10.
  split; [eexists; reflexivity|].
  pose proof (round_half_even_error (x * 10)) as [Hlo Hhi].
  assert (Hr : inject_Z (Py.round_half_even (x * 10)) / 10 - x
               == (inject_Z (Py.round_half_even (x * 10)) - x * 10) / 10)
    by field.
  rewrite Hr. split.
  - apply Qle_shift_div_l; [reflexivity|]. lra.
  - apply Qle_shift_div_r; [reflexivity|]. lra.
Qed.

(** X17.  The payload written for an application never lacks its score
    or its ratio, so the defaults of the roadmap are never used; it
    holds [None] for a score or a ratio that is zero or missing, and the
    roadmap built from it then raises; otherwise the roadmap targets the
    score, and the ratio to one decimal: a multiple of 0.1 within 0.05
    of the stored ratio, whichever way a tie is broken. *)
Theorem ingested_roadmap (app : loan_request) :
  let fico := Embeddings.fico_snapshot (features app) in
  let dti := Embeddings.dti_snapshot (features app) in
  Payload.fico (payload_of app) <> Py.Missing
  /\ Payload.dti (payload_of app) <> Py.Missing
  /\ (falsy fico \/ falsy dti ->
      TwinSearch.make_roadmap float_str (payload_of app)
      = Py.Raise Py.TypeError)
  /\ (forall f d,
        fico = Some f -> ~ f == 0 -> dti = Some d -> ~ d == 0 ->
        exists r,
          TwinSearch.make_roadmap float_str (payload_of app) = Py.Ok r
          /\ TwinSearch.target_fico r = Some f
          /\ (exists k : Z, TwinSearch.target_dti r == inject_Z k / 10)
          /\ - 0.05 <= TwinSearch.target_dti r - d <= 0.05).
Proof.
  intros fico dti. subst fico dti.
  unfold TwinSearch.make_roadmap, payload_of. cbn [Payload.fico Payload.dti].
  destruct (stored_number_cases (Embeddings.fico_snapshot (features app)))
    as [[Hf Ef]|[f [Hf [Hfz Ef]]]];
  destruct (stored_number_cases (Embeddings.dti_snapshot (features app)))
    as [[Hd Ed]|[d [Hd [Hdz Ed]]]];
  rewrite Ef, Ed; cbn [Py.get_default Py.get Py.bind];
  (split; [discriminate|]); (split; [discriminate|]); split;
    try (intros _; reflexivity);
    try (intros f' d' Hf' Hfz' Hd' Hdz').
  - exfalso. rewrite Hf' in Hf. exact (Hfz' Hf).
  - exfalso. rewrite Hf' in Hf. exact (Hfz' Hf).
  - exfalso. rewrite Hd' in Hd. exact (Hdz' Hd).
  - intros [H|H]; exfalso.
    + rewrite Hf in H. exact (Hfz H).
    + rewrite Hd in H. exact (Hdz H).
  - rewrite Hf in Hf'. rewrite Hd in Hd'.
    injection Hf' as <-. injection Hd' as <-.
    eexists. split; [reflexivity|]. split; [reflexivity|].
    cbn [TwinSearch.target_dti]. apply round_one_decimal.
Qed.

End IngestionFacts.

Section AppFacts.

Import Embeddings TwinSearch App.

Variable log1p : Q -> Q.
Variable float_str : Q -> string.
Variable get_llm_explanation : decision_dict -> application -> option string.
Variable average : list Q -> Q.
Variable store : Type.
Variable query_points :
  store -> list Q -> Z -> option (list VectorStore.condition)
  -> Py.result (list VectorStore.scored_point).

Local Abbreviation search := (App.search store query_points).
Local Abbreviation find_twins_on :=
  (App.find_twins log1p float_str get_llm_explanation average store
     query_points).

Lemma build_amount_filter (app : application) :
  VectorStore.build_filter (option_map filters_of (amount_filters app))
  = amount_window app.
Proof.
  unfold amount_filters, amount_window, Py.truthy.
  destruct (requested_amount app) as [v|]; [|reflexivity].
  destruct (Qeq_bool v 0); reflexivity.
Qed.

(** X19.  [find_twins] on the vector store.  Its vector always passes
    the size check; with [top_k] at least 1 the client is asked once,
    for [top_k] hits near the vector of the application, within 30% of
    the requested amount when one is given, and its failure counts as no
    hit; with [top_k = 0] the client is not asked and the verdict is
    ANOMALY_DETECTED. *)
Theorem find_twins_on_store (st : store) (app : application) :
  (forall top_k,
      (1 <= top_k)%nat ->
      query log1p (search st) app top_k
      = match query_points st
                (create_application_vector log1p app VECTOR_SIZE)
                (Z.of_nat top_k) (amount_window app) with
        | Py.Ok points =>
            map (fun hit => {| payload := VectorStore.hit_payload hit;
                               score := VectorStore.hit_score hit |})
                points
        | Py.Raise _ => []
        end)
  /\ (forall threshold,
        exists d,
          find_twins_on st app 0 threshold = Py.Ok d
          /\ decision d = "ANOMALY_DETECTED"%string
          /\ twins_found d = Some 0%nat).
Proof.
  split.
  - intros top_k Hk. unfold query, App.search, VectorStore.search_similar.
    rewrite create_application_vector_length, Nat.eqb_refl. cbn [negb].
    destruct (Z.ltb_spec (Z.of_nat top_k) 1); [lia|].
    rewrite build_amount_filter.
    destruct (query_points st _ _ _); reflexivity.
  - intro threshold.
    assert (Hq : query log1p (search st) app 0 = []).
    { unfold query, App.search, VectorStore.search_similar.
      rewrite create_application_vector_length, Nat.eqb_refl. reflexivity. }
    destruct (find_twins_few log1p float_str (search st) get_llm_explanation
                average app 0 threshold) as [d [Hd [Hv [_ [Hn _]]]]].
    { rewrite Hq. simpl. lia. }
    exists d. rewrite Hq in Hn. auto.
Qed.

End AppFacts.

(* ================================================================= *)
(** * The in-process engine of the backend *)

Section FeatureFacts.

Import Services.

Lemma normalize_feature_value (value min_val max_val : Q) :
  ~ max_val == min_val ->
  normalize_feature value min_val max_val
  = Py.Ok ((value - min_val) / (max_val - min_val)).
Proof.
  intro Hne. unfold normalize_feature.
  destruct (Qeq_bool max_val min_val) eqn:E.
  - apply Qeq_bool_iff in E. contradiction.
  - apply div_ok. intro H. apply Hne. lra.
Qed.

(** X21.  [normalize_feature] never divides by zero: equal bounds give
    0.5.  Between distinct bounds it is the affine map sending the lower
    bound to 0 and the upper one to 1; it is increasing and does not
    clamp, so a value below or above the bounds lands outside [0,1]. *)
Theorem normalize_feature_scale (value min_val max_val : Q) :
  (exists r, normalize_feature value min_val max_val = Py.Ok r)
  /\ (max_val == min_val ->
      normalize_feature value min_val max_val = Py.Ok 0.5)
  /\ (min_val < max_val ->
      exists r,
        normalize_feature value min_val max_val = Py.Ok r
        /\ r == (value - min_val) / (max_val - min_val)
        /\ (min_val <= value <= max_val <-> 0 <= r <= 1)
        /\ (forall value' r',
              normalize_feature value' min_val max_val = Py.Ok r' ->
              value < value' -> r < r')).
Proof.
  split; [|split].
  - unfold normalize_feature. destruct (Qeq_bool max_val min_val) eqn:E.
    + eexists. reflexivity.
    + apply Qeq_bool_neq in E. rewrite div_ok by (intro H; apply E; lra).
      eexists. reflexivity.
  - intro H. unfold normalize_feature. apply Qeq_bool_iff in H. now rewrite H.
  - intro Hlt.
    assert (Hne : ~ max_val == min_val) by lra.
    assert (Hpos : 0 < max_val - min_val) by lra.
    rewrite (normalize_feature_value value _ _ Hne).
    eexists. split; [reflexivity|]. split; [reflexivity|]. split.
    + split.
      * intros [Hlo Hhi]. split.
        -- apply Qle_shift_div_l; [exact Hpos|]. lra.
        -- apply Qle_shift_div_r; [exact Hpos|]. lra.
      * intros [Hlo Hhi].
        assert (Hv : value - min_val
                     == (value - min_val) / (max_val - min_val)
                        * (max_val - min_val)) by (field; lra).
        split.
        -- assert (0 <= (value - min_val) / (max_val - min_val)
                        * (max_val - min_val))
             by (apply Qmult_le_0_compat; lra).
           lra.
        -- assert ((value - min_val) / (max_val - min_val) * (max_val - min_val)
                   <= 1 * (max_val - min_val))
             by (apply Qmult_le_compat_r; lra).
           lra.
    + intros value' r' Hr' Hv.
      rewrite (normalize_feature_value value' _ _ Hne) in Hr'.
      injection Hr' as <-.
      unfold Qdiv. apply Qmult_lt_compat_r; [|lra].
      apply Qinv_lt_0_compat. exact Hpos.
Qed.

Lemma last_option_in (options : list string) :
  options <> [] -> exists opt, last_option options = Py.Ok opt /\ In opt options.
Proof.
  intro Hne. unfold last_option.
  destruct (rev options) as [|opt rest] eqn:E.
  - exfalso. apply Hne. apply (f_equal (@rev string)) in E.
    now rewrite rev_involutive in E.
  - exists opt. split; [reflexivity|].
    apply in_rev. rewrite E. now left.
Qed.

Lemma map_categorical_in (value : option string) (options : list string) :
  options <> [] ->
  exists opt, map_categorical value options = Py.Ok opt /\ In opt options.
Proof.
  intro Hne. unfold map_categorical.
  destruct value as [[|c v]|]; try (now apply last_option_in).
  destruct (find _ options) as [opt|] eqn:E; [|now apply last_option_in].
  exists opt. split; [reflexivity|]. now apply find_some in E.
Qed.

Lemma contains_empty (s : string) : TwinSearch.contains "" s = true.
Proof. destruct s; reflexivity. Qed.

(** X22.  On a non-empty list of options [map_categorical] always
    returns one of them; on the empty list it raises [IndexError]; a
    missing or empty value gets the last option, and so does a value
    related to no option; but a value made of separators only (hyphens,
    underscores, spaces) gets the first option. *)
Theorem map_categorical_total :
  (forall value options,
      options <> [] ->
      exists opt, map_categorical value options = Py.Ok opt /\ In opt options)
  /\ (forall value, map_categorical value [] = Py.Raise Py.IndexError)
  /\ (forall options,
        map_categorical None options = last_option options
        /\ map_categorical (Some ""%string) options = last_option options)
  /\ (forall value options,
        (forall opt, In opt options -> matches (clean value) (clean opt) = false) ->
        map_categorical (Some value) options = last_option options)
  /\ (forall value first rest,
        value <> ""%string -> clean value = ""%string ->
        map_categorical (Some value) (first :: rest) = Py.Ok first).
Proof.
  split; [exact map_categorical_in|]. split; [|split; [|split]].
  - intros [[|c v]|]; reflexivity.
  - intro options. split; reflexivity.
  - intros value options Hnone. unfold map_categorical.
    destruct value as [|c v]; [reflexivity|].
    destruct (find _ options) as [opt|] eqn:E; [|reflexivity].
    apply find_some in E. destruct E as [Hin Hm].
    rewrite (Hnone opt Hin) in Hm. discriminate Hm.
  - intros value first rest Hne Hclean. unfold map_categorical.
    destruct value as [|c v]; [congruence|].
    rewrite Hclean. cbn [find]. unfold matches.
    rewrite contains_empty, orb_true_r. reflexivity.
Qed.

(** X23.  Each name of the employment, sector and purpose enumerations
    maps to itself; among the regions so do all but "west", which maps
    to "midwest", the first option that contains it. *)
Theorem map_categorical_enumerations :
  (forall e, map_categorical (Some (employment_value e)) EMPLOYMENT_TYPES
             = Py.Ok (employment_value e))
  /\ (forall s, map_categorical (Some (sector_value s)) SECTORS
                = Py.Ok (sector_value s))
  /\ (forall p, map_categorical (Some (purpose_value p)) PURPOSES
                = Py.Ok (purpose_value p))
  /\ (forall r, r <> WEST ->
                map_categorical (Some (region_value r)) REGIONS
                = Py.Ok (region_value r))
  /\ map_categorical (Some (region_value WEST)) REGIONS
     = Py.Ok (region_value MIDWEST).
Proof.
  split; [|split; [|split; [|split]]].
  - intros []; vm_compute; reflexivity.
  - intros []; vm_compute; reflexivity.
  - intros []; vm_compute; reflexivity.
  - intros [] H; try congruence; vm_compute; reflexivity.
  - vm_compute. reflexivity.
Qed.

Lemma index_in (x : string) (options : list string) :
  In x options ->
  exists i, index x options = Py.Ok i /\ (i < List.length options)%nat.
Proof.
  induction options as [|opt rest IH]; intro Hin; [destruct Hin|].
  cbn [index]. destruct (String.eqb_spec opt x) as [_|Hne].
  - exists 0%nat. split; [reflexivity|]. simpl. lia.
  - destruct Hin as [Heq|Hin]; [contradiction|].
    destruct (IH Hin) as [i [Hi Hlt]]. rewrite Hi. cbn [Py.bind].
    exists (S i). split; [reflexivity|]. simpl. lia.
Qed.

Lemma categorical_ok (value : option string) (options : list string) :
  options <> [] ->
  exists c, categorical value options = Py.Ok c /\ 0 <= c /\ c < 1.
Proof.
  intro Hne. unfold categorical.
  destruct (map_categorical_in value options Hne) as [opt [-> Hin]].
  cbn [Py.bind]. destruct (index_in opt options Hin) as [i [-> Hlt]].
  cbn [Py.bind].
  assert (Hn : List.length options <> 0%nat) by (destruct options; [congruence|discriminate]).
  rewrite div_ok by (now apply of_nat_nonzero).
  eexists. split; [reflexivity|].
  pose proof (of_nat_pos _ Hn) as Hpos. unfold TwinSearch.of_nat in Hpos.
  split.
  - apply Qle_shift_div_l; [exact Hpos|]. rewrite Qmult_0_l.
    apply (of_nat_nonneg i).
  - apply Qlt_shift_div_r; [exact Hpos|]. rewrite Qmult_1_l.
    rewrite <- Zlt_Qlt. lia.
Qed.

Lemma normalize_constant (value min_val max_val : Q) :
  Qeq_bool max_val min_val = false ->
  normalize_feature value min_val max_val
  = Py.Ok ((value - min_val) / (max_val - min_val)).
Proof.
  intro E. apply normalize_feature_value. now apply Qeq_bool_neq.
Qed.

(** The vector of a case or of an applicant. *)
Lemma create_feature_vector_ok (applicant : Case.t) :
  exists v,
    create_feature_vector applicant = Py.Ok v
    /\ List.length v = 14%nat
    /\ (forall i c, (10 <= i)%nat -> nth_error v i = Some c -> 0 <= c /\ c < 1).
Proof.
  unfold create_feature_vector.
  rewrite !normalize_constant by reflexivity. cbn [Py.bind].
  destruct (categorical_ok (Case.employment applicant) EMPLOYMENT_TYPES)
    as [c1 [-> H1]]; [discriminate|].
  destruct (categorical_ok (Case.sector applicant) SECTORS)
    as [c2 [-> H2]]; [discriminate|].
  destruct (categorical_ok (Case.purpose applicant) PURPOSES)
    as [c3 [-> H3]]; [discriminate|].
  destruct (categorical_ok (Case.region applicant) REGIONS)
    as [c4 [-> H4]]; [discriminate|].
  cbn [Py.bind]. eexists. split; [reflexivity|]. split; [reflexivity|].
  intros i c Hi Hc.
  do 10 (destruct i as [|i]; [lia|]).
  destruct i as [|i]; [injection Hc as <-; exact H1|].
  destruct i as [|i]; [injection Hc as <-; exact H2|].
  destruct i as [|i]; [injection Hc as <-; exact H3|].
  destruct i as [|i]; [injection Hc as <-; exact H4|].
  destruct i; discriminate Hc.
Qed.

(** X24.  [create_feature_vector] returns for every case fourteen
    coordinates, the last four, the categorical ones, within [0,1); and
    an applicant of the West is encoded exactly like the same applicant
    of the Midwest. *)
Theorem create_feature_vector_shape :
  (forall applicant,
      exists v,
        create_feature_vector applicant = Py.Ok v
        /\ List.length v = 14%nat
        /\ (forall i c,
              (10 <= i)%nat -> nth_error v i = Some c -> 0 <= c /\ c < 1))
  /\ (forall application,
        CreditApplication.region application = WEST ->
        create_feature_vector (applicant_of application)
        = create_feature_vector
            (applicant_of
               {| CreditApplication.age := CreditApplication.age application;
                  CreditApplication.credit_score :=
                    CreditApplication.credit_score application;
                  CreditApplication.income := CreditApplication.income application;
                  CreditApplication.debt := CreditApplication.debt application;
                  CreditApplication.assets := CreditApplication.assets application;
                  CreditApplication.loan_amount :=
                    CreditApplication.loan_amount application;
                  CreditApplication.tenure := CreditApplication.tenure application;
                  CreditApplication.employment :=
                    CreditApplication.employment application;
                  CreditApplication.sector := CreditApplication.sector application;
                  CreditApplication.purpose := CreditApplication.purpose application;
                  CreditApplication.region := MIDWEST |})).
Proof.
  split; [exact create_feature_vector_ok|].
  intros application Hwest. unfold create_feature_vector, applicant_of.
  cbn [Case.age Case.credit_score Case.income Case.debt Case.assets
       Case.loan_amount Case.tenure Case.delinquencies Case.utilization
       Case.history_length Case.employment Case.sector Case.purpose Case.region
       CreditApplication.age CreditApplication.credit_score
       CreditApplication.income CreditApplication.debt CreditApplication.assets
       CreditApplication.loan_amount CreditApplication.tenure
       CreditApplication.employment CreditApplication.sector
       CreditApplication.purpose CreditApplication.region].
  rewrite Hwest.
  assert (Hregion : categorical (Some (region_value WEST)) REGIONS
                    = categorical (Some (region_value MIDWEST)) REGIONS)
    by (vm_compute; reflexivity).
  rewrite Hregion. reflexivity.
Qed.

End FeatureFacts.


Section TwinRanking.

Import Services.

Variable sqrt : Q -> Q.
Variable historical_cases : list Case.t.

Local Abbreviation find_financial_twins :=
  (find_financial_twins sqrt historical_cases).

Lemma cosine_similarity_same_length (vec_a vec_b : list Q) :
  List.length vec_a = List.length vec_b ->
  exists s, cosine_similarity sqrt vec_a vec_b = Py.Ok s.
Proof.
  intro Hlen. destruct (dot_same_length vec_a vec_b Hlen) as [d Hd].
  unfold cosine_similarity. rewrite Hd. cbn [Py.bind].
  destruct (Qeq_bool (norm sqrt vec_a) 0) eqn:Ea;
    [eexists; reflexivity|].
  destruct (Qeq_bool (norm sqrt vec_b) 0) eqn:Eb;
    [eexists; reflexivity|].
  apply Qeq_bool_neq in Ea, Eb. cbn [orb].
  rewrite div_ok; [eexists; reflexivity|].
  intro H. apply Qmult_integral in H. tauto.
Qed.

Lemma score_cases_ok (applicant_vector : list Q) (cases : list Case.t) :
  List.length applicant_vector = 14%nat ->
  exists scored,
    score_cases sqrt applicant_vector cases = Py.Ok scored
    /\ map fst scored = cases.
Proof.
  intro Hlen. induction cases as [|case rest IH].
  - exists []. split; reflexivity.
  - cbn [score_cases].
    destruct (create_feature_vector_ok case) as [v [-> [Hv _]]].
    cbn [Py.bind].
    destruct (cosine_similarity_same_length applicant_vector v) as [sim ->];
      [congruence|].
    cbn [Py.bind]. destruct IH as [scored [-> Hfst]]. cbn [Py.bind].
    eexists. split; [reflexivity|]. cbn [map fst]. now rewrite Hfst.
Qed.

Lemma insert_desc_perm (x : Case.t * Q) (l : list (Case.t * Q)) :
  Permutation (insert_desc x l) (x :: l).
Proof.
  induction l as [|y l IH]; [reflexivity|].
  cbn [insert_desc]. destruct (Qle_bool (snd y) (snd x)); [reflexivity|].
  rewrite IH. apply perm_swap.
Qed.

Lemma sort_desc_perm (l : list (Case.t * Q)) : Permutation (sort_desc l) l.
Proof.
  induction l as [|x l IH]; [reflexivity|].
  unfold sort_desc in *. cbn [fold_right].
  rewrite insert_desc_perm. now constructor.
Qed.

Lemma insert_desc_head (x y : Case.t * Q) (l : list (Case.t * Q)) :
  snd x <= snd y ->
  HdRel (fun a b : Q => b <= a) (snd y) (map snd l) ->
  HdRel (fun a b : Q => b <= a) (snd y) (map snd (insert_desc x l)).
Proof.
  intros Hxy Hhd. destruct l as [|z l]; cbn [insert_desc map].
  - constructor. exact Hxy.
  - destruct (Qle_bool (snd z) (snd x)); cbn [map].
    + constructor. exact Hxy.
    + constructor. inversion Hhd. assumption.
Qed.

Lemma insert_desc_sorted (x : Case.t * Q) (l : list (Case.t * Q)) :
  descending (map snd l) -> descending (map snd (insert_desc x l)).
Proof.
  unfold descending. induction l as [|y l IH]; intro Hs.
  - cbn. repeat constructor.
  - cbn [insert_desc]. destruct (Qle_bool (snd y) (snd x)) eqn:E.
    + apply Qle_bool_iff in E. cbn [map]. constructor; [exact Hs|].
      constructor. exact E.
    + apply Qle_bool_false_iff in E. cbn [map] in *.
      inversion Hs as [|a b Hs' Hhd]; subst.
      constructor; [now apply IH|].
      apply insert_desc_head; [now apply Qlt_le_weak|exact Hhd].
Qed.

Lemma sort_desc_sorted (l : list (Case.t * Q)) :
  descending (map snd (sort_desc l)).
Proof.
  induction l as [|x l IH]; [constructor|].
  unfold sort_desc in *. cbn [fold_right]. now apply insert_desc_sorted.
Qed.

Lemma descending_firstn (k : nat) (l : list Q) :
  descending l -> descending (firstn k l).
Proof.
  unfold descending. revert l. induction k as [|k IH]; intros l Hs;
    [constructor|].
  destruct l as [|x l]; [constructor|].
  inversion Hs as [|a b Hs' Hhd]; subst. cbn [firstn].
  constructor; [now apply IH|].
  destruct l as [|y l]; [destruct k; constructor|].
  destruct k; [constructor|]. cbn [firstn]. constructor.
  inversion Hhd. assumption.
Qed.

Lemma similarity_to_twin (l : list (Case.t * Q)) :
  map similarity (map to_twin l) = map snd l.
Proof. rewrite map_map. reflexivity. Qed.

(** The ranking of [find_financial_twins]. *)
Lemma find_financial_twins_ok (applicant : Case.t) (k : nat) :
  exists twins,
    find_financial_twins applicant k = Py.Ok twins
    /\ List.length twins = Nat.min k (List.length historical_cases)
    /\ descending (map similarity twins)
    /\ ((List.length historical_cases <= k)%nat ->
        Permutation (map id twins)
                    (map (fun case => or_text (Case.id case) "UNKNOWN")
                         historical_cases)).
Proof.
  unfold Services.find_financial_twins.
  destruct historical_cases as [|case0 cases] eqn:Ecases.
  { exists []. split; [reflexivity|]. split; [now rewrite Nat.min_0_r|].
    split; [constructor|]. intros _. constructor. }
  rewrite <- Ecases. clear Ecases case0 cases.
  destruct (create_feature_vector_ok applicant) as [av [-> [Hav _]]].
  cbn [Py.bind].
  destruct (score_cases_ok av historical_cases Hav) as [scored [-> Hfst]].
  cbn [Py.bind]. eexists. split; [reflexivity|].
  assert (Hlen : List.length (sort_desc scored) = List.length historical_cases).
  { rewrite (Permutation_length (sort_desc_perm scored)).
    rewrite <- Hfst. now rewrite length_map. }
  split; [rewrite length_map, length_firstn, Hlen; reflexivity|].
  split.
  - rewrite similarity_to_twin, <- firstn_map.
    apply descending_firstn, sort_desc_sorted.
  - intro Hk. rewrite firstn_all2 by lia.
    rewrite map_map. rewrite <- Hfst, map_map.
    apply Permutation_map. apply sort_desc_perm.
Qed.

(** X25.  [find_financial_twins] never raises.  It returns the [k] most
    similar cases, or all of them when there are fewer, by decreasing
    similarity; asked for at least as many twins as there are cases it
    returns each case once. *)
Theorem find_financial_twins_ranked (applicant : Case.t) (k : nat) :
  exists twins,
    find_financial_twins applicant k = Py.Ok twins
    /\ List.length twins = Nat.min k (List.length historical_cases)
    /\ descending (map similarity twins)
    /\ ((List.length historical_cases <= k)%nat ->
        Permutation (map id twins)
                    (map (fun case => or_text (Case.id case) "UNKNOWN")
                         historical_cases)).
Proof. exact (find_financial_twins_ok applicant k). Qed.

(** The score on a list sorted by decreasing similarity. *)
Lemma anomaly_score_descending (twins : list FinancialTwin) :
  twins <> [] ->
  descending (map similarity twins) ->
  exists score,
    calculate_anomaly_score twins = Py.Ok score
    /\ score == anomaly_score (map similarity twins)
    /\ 0 <= score <= 1.
Proof.
  intros Hne Hsorted. destruct twins as [|first rest]; [congruence|].
  unfold calculate_anomaly_score.
  rewrite div_ok by (apply of_nat_nonzero; discriminate).
  cbn [Py.bind].
  destruct (decay_rate_spec first rest) as [decay_rate [Hd Hdecay]].
  cbv zeta in Hd. rewrite Hd. cbn [Py.bind].
  eexists. split; [reflexivity|].
  assert (Heq :
    Py.min 1.0
      (Py.max 0.0
         ((1 - similarity first) * 0.4 + decay_rate * 0.3
          + (1 - sum_similarity (first :: rest)
                 / inject_Z (Z.of_nat (List.length (first :: rest)))) * 0.3))
    == anomaly_score (map similarity (first :: rest))).
  { rewrite clamp_spec. unfold anomaly_score. apply clamp01_compat.
    rewrite (top_similarity_head _ _ Hsorted), <- Hdecay.
    unfold mean. rewrite <- sum_similarity_total, length_map. ring. }
  split; [exact Heq|]. rewrite Heq. apply clamp01_bounds.
Qed.

(** The score on any list. *)
Lemma anomaly_score_range (twins : list FinancialTwin) :
  exists score,
    calculate_anomaly_score twins = Py.Ok score /\ 0 <= score <= 1.
Proof.
  destruct twins as [|first rest].
  { exists 1.0. split; [reflexivity|]. split; vm_compute; discriminate. }
  unfold calculate_anomaly_score.
  rewrite div_ok by (apply of_nat_nonzero; discriminate).
  cbn [Py.bind].
  destruct (decay_rate_spec first rest) as [decay_rate [Hd _]].
  cbv zeta in Hd. rewrite Hd. cbn [Py.bind].
  eexists. split; [reflexivity|].
  rewrite clamp_spec. apply clamp01_bounds.
Qed.

(** X26.  The anomaly score never fails and always lies in [0,1],
    whatever the list; on the twins [find_financial_twins] returns it
    is 1.0 when there is none, and otherwise the weighted sum of the
    specification, no sorting being assumed. *)
Theorem anomaly_score_of_twins :
  (forall twins,
      exists score,
        calculate_anomaly_score twins = Py.Ok score /\ 0 <= score <= 1)
  /\ (forall applicant k twins,
        find_financial_twins applicant k = Py.Ok twins ->
        exists score,
          calculate_anomaly_score twins = Py.Ok score
          /\ (twins = [] -> score = 1.0)
          /\ (twins <> [] -> score == anomaly_score (map similarity twins))).
Proof.
  split; [exact anomaly_score_range|].
  intros applicant k twins Ht.
  destruct (find_financial_twins_ok applicant k) as [twins' [Ht' [_ [Hs _]]]].
  rewrite Ht in Ht'. injection Ht' as <-.
  destruct twins as [|first rest].
  - exists 1.0. split; [reflexivity|]. split; [reflexivity|congruence].
  - destruct (anomaly_score_descending (first :: rest)) as [score [Hsc [Heq _]]];
      [discriminate|exact Hs|].
    exists score. split; [exact Hsc|]. split; [discriminate|]. intros _. exact Heq.
Qed.

End TwinRanking.


Section BackendDecision.

Import Services.

Lemma validated_ok (d : DecisionResult.t) :
  0 <= DecisionResult.confidence d <= 1 -> DecisionResult.validated d = Py.Ok d.
Proof.
  intros [Hlo Hhi]. unfold DecisionResult.validated.
  apply Qle_bool_iff in Hlo, Hhi. now rewrite Hlo, Hhi.
Qed.

Lemma capped_confidence (c : Q) :
  0.5 <= c -> 0.5 <= Py.min 0.99 c <= 0.99.
Proof.
  intro Hc. unfold Py.min. destruct (Py.Qlt_bool c 0.99) eqn:E.
  - apply Qlt_bool_iff in E. split; lra.
  - split; lra.
Qed.

Lemma defaulted_le (twins : list FinancialTwin) :
  (defaulted twins <= List.length twins)%nat.
Proof. unfold defaulted. apply filter_length_le. Qed.

(** The decision of the backend, whatever the twins and the score. *)
Local Ltac counts :=
  match goal with
  | twins := _ :: _ |- _ =>
      change (List.length twins - defaulted twins + defaulted twins
              = List.length twins)%nat; lia
  end.

Lemma make_decision_ok
    (twins : list FinancialTwin) (anomaly_score : Q) (applicant : Case.t) :
  exists d,
    make_decision twins anomaly_score applicant = Py.Ok d
    /\ 0.5 <= DecisionResult.confidence d <= 0.99
    /\ DecisionResult.risk_tier d = tier_of (DecisionResult.decision d)
    /\ (DecisionResult.repaid_count d + DecisionResult.default_count d
        = List.length twins)%nat
    /\ 0 <= DecisionResult.default_rate d <= 1
    /\ (twins = [] ->
        DecisionResult.decision d = DECLINE
        /\ DecisionResult.confidence d = 0.5)
    /\ (twins <> [] ->
        (DecisionResult.decision d = APPROVE
         <-> DecisionResult.default_rate d < 0.1 /\ anomaly_score < 0.3)).
Proof.
  unfold make_decision. destruct twins as [|first rest].
  { eexists. split; [apply validated_ok; cbn; split; vm_compute; discriminate|].
    cbn. split; [split; vm_compute; discriminate|].
    split; [reflexivity|]. split; [reflexivity|].
    split; [split; vm_compute; discriminate|].
    split; [split; reflexivity|congruence]. }
  set (twins := first :: rest).
  assert (Hn : List.length twins <> 0%nat) by discriminate.
  rewrite !div_ok by (now apply of_nat_nonzero).
  cbn [Py.bind].
  pose proof (ratio_bounds (defaulted twins) (List.length twins)
                (defaulted_le twins) Hn) as Hrate.
  unfold TwinSearch.of_nat in Hrate.
  set (rate := inject_Z (Z.of_nat (defaulted twins))
               / inject_Z (Z.of_nat (List.length twins))) in *.
  pose proof (defaulted_le twins) as Hle.
  destruct (Py.Qlt_bool rate 0.1 && Py.Qlt_bool anomaly_score 0.3) eqn:E1.
  { apply andb_true_iff in E1. destruct E1 as [Ea Eb].
    apply Qlt_bool_iff in Ea, Eb.
    assert (Hc : 0.5 <= Py.min 0.99 (0.85 + (1 - rate) * 0.1 - anomaly_score * 0.1)
                 <= 0.99) by (apply capped_confidence; lra).
    eexists. split; [apply validated_ok; cbn; lra|]. cbn.
    split; [exact Hc|]. split; [reflexivity|]. split; [counts|].
    split; [exact Hrate|]. split; [discriminate|]. intros _.
    split; [intros _; split; assumption|reflexivity]. }
  assert (Hnot : ~ (rate < 0.1 /\ anomaly_score < 0.3)).
  { intros [Ha Hb]. apply Qlt_bool_iff in Ha, Hb. rewrite Ha, Hb in E1.
    discriminate E1. }
  destruct (Py.Qlt_bool rate 0.2 && Py.Qlt_bool anomaly_score 0.5) eqn:E2.
  { apply andb_true_iff in E2. destruct E2 as [Ea Eb].
    apply Qlt_bool_iff in Ea, Eb.
    assert (Hc : 0.5 <= Py.min 0.99 (0.7 + (1 - rate) * 0.1 - anomaly_score * 0.1)
                 <= 0.99) by (apply capped_confidence; lra).
    eexists. split; [apply validated_ok; cbn; lra|]. cbn.
    split; [exact Hc|]. split; [reflexivity|]. split; [counts|].
    split; [exact Hrate|]. split; [discriminate|]. intros _.
    split; [discriminate|]. intro H. contradiction. }
  destruct (Py.Qlt_bool 0.6 anomaly_score) eqn:E3.
  { apply Qlt_bool_iff in E3.
    assert (Hc : 0.5 <= Py.min 0.99 (0.6 + anomaly_score * 0.3) <= 0.99)
      by (apply capped_confidence; lra).
    eexists. split; [apply validated_ok; cbn; lra|]. cbn.
    split; [exact Hc|]. split; [reflexivity|]. split; [counts|].
    split; [exact Hrate|]. split; [discriminate|]. intros _.
    split; [discriminate|]. intro H. contradiction. }
  destruct (Py.Qlt_bool 0.25 rate) eqn:E4.
  { apply Qlt_bool_iff in E4.
    assert (Hc : 0.5 <= Py.min 0.99 (0.7 + rate * 0.2) <= 0.99)
      by (apply capped_confidence; lra).
    eexists. split; [apply validated_ok; cbn; lra|]. cbn.
    split; [exact Hc|]. split; [reflexivity|]. split; [counts|].
    split; [exact Hrate|]. split; [discriminate|]. intros _.
    split; [discriminate|]. intro H. contradiction. }
  assert (Hc : 0.5 <= Py.min 0.99 0.65 <= 0.99)
    by (apply capped_confidence; lra).
  eexists. split; [apply validated_ok; cbn; lra|]. cbn.
  split; [exact Hc|]. split; [reflexivity|]. split; [counts|].
  split; [exact Hrate|]. split; [discriminate|]. intros _.
  split; [discriminate|]. intro H. contradiction.
Qed.

(** X27.  The decision of the backend never fails: its confidence
    always lies in [0.5, 0.99], so the response model accepts it,
    whatever the anomaly score; the risk tier is LOW, MEDIUM or HIGH as
    the decision is APPROVE, CONDITIONAL or DECLINE; the repaid and
    defaulted counts add up to the number of twins; without twins the
    decision is DECLINE with confidence 0.5; with twins it is APPROVE
    exactly when the default rate is below 0.1 and the anomaly score
    below 0.3. *)
Theorem backend_decision_sound
    (twins : list FinancialTwin) (anomaly_score : Q) (applicant : Case.t) :
  exists d,
    make_decision twins anomaly_score applicant = Py.Ok d
    /\ 0.5 <= DecisionResult.confidence d <= 0.99
    /\ DecisionResult.risk_tier d = tier_of (DecisionResult.decision d)
    /\ (DecisionResult.repaid_count d + DecisionResult.default_count d
        = List.length twins)%nat
    /\ 0 <= DecisionResult.default_rate d <= 1
    /\ (twins = [] ->
        DecisionResult.decision d = DECLINE
        /\ DecisionResult.confidence d = 0.5)
    /\ (twins <> [] ->
        (DecisionResult.decision d = APPROVE
         <-> DecisionResult.default_rate d < 0.1 /\ anomaly_score < 0.3)).
Proof. exact (make_decision_ok twins anomaly_score applicant). Qed.

End BackendDecision.


Section BackendFlags.

Import Services.

Lemma has_type_existsb (kind : string) (flags : list AnomalyFlag.t) :
  has_type kind flags
  <-> existsb (fun f => String.eqb (AnomalyFlag.type f) kind) flags = true.
Proof.
  unfold has_type. rewrite existsb_exists.
  split; intros [f [Hin Hf]]; exists f; (split; [exact Hin|]);
    now apply String.eqb_eq.
Qed.

Lemma has_text_existsb (text : string) (flags : list AnomalyFlag.t) :
  has_text text flags
  <-> existsb (fun f => String.eqb (AnomalyFlag.text f) text) flags = true.
Proof.
  unfold has_text. rewrite existsb_exists.
  split; intros [f [Hin Hf]]; exists f; (split; [exact Hin|]);
    now apply String.eqb_eq.
Qed.

Lemma both_lt (a b c d : Q) :
  Py.Qlt_bool a b && Py.Qlt_bool c d = true <-> a < b /\ c < d.
Proof. now rewrite andb_true_iff, !Qlt_bool_iff. Qed.

(** [if test: flags.append(flag)] *)
Lemma appended_flag (p : AnomalyFlag.t -> bool) (test : bool)
    (flags : list AnomalyFlag.t) (flag : AnomalyFlag.t) :
  existsb p (if test then flags ++ [flag] else flags)
  = existsb p flags || (test && p flag).
Proof.
  destruct test; [|now rewrite orb_false_r].
  rewrite existsb_app. cbn. now rewrite orb_false_r.
Qed.

Lemma appended_length (test : bool) (flags : list AnomalyFlag.t)
    (flag : AnomalyFlag.t) (n : nat) :
  (List.length flags <= n)%nat ->
  (List.length (if test then flags ++ [flag] else flags) <= S n)%nat.
Proof. intro H. destruct test; [rewrite length_app; cbn|]; lia. Qed.

Local Ltac compare_strings :=
  cbn [existsb AnomalyFlag.text AnomalyFlag.type];
  repeat match goal with
  | |- context [String.eqb ?a ?b] =>
      let v := eval lazy in (String.eqb a b) in
      change (String.eqb a b) with v
  end;
  rewrite ?andb_true_r, ?andb_false_r, ?orb_false_r, ?orb_false_l.

Local Ltac flag_test :=
  rewrite ?has_text_existsb, ?has_type_existsb, !appended_flag;
  compare_strings.

(** Each flag is raised exactly on its pattern. *)
Lemma detect_anomaly_flags_ok (applicant : Case.t) :
  let income := get_num (Case.income applicant) 0 in
  let credit_score := get_int (Case.credit_score applicant) 0 in
  let loan_amount := get_num (Case.loan_amount applicant) 0 in
  let debt := get_num (Case.debt applicant) 0 in
  let assets := get_num (Case.assets applicant) 0 in
  let utilization := get_int (Case.utilization applicant) 0 in
  let delinquencies := get_int (Case.delinquencies applicant) 0 in
  let history_length := get_int (Case.history_length applicant) 0 in
  exists flags,
    detect_anomaly_flags applicant = Py.Ok flags
    /\ (List.length flags <= 5)%nat
    /\ (has_text "High income but low credit score - unusual combination" flags
        <-> 150000 < income /\ credit_score < 600)
    /\ (has_text "Large loan request with thin credit history" flags
        <-> income * 2 < loan_amount /\ history_length < 3)
    /\ (has_text "High utilization despite significant assets" flags
        <-> 80 < utilization /\ 500000 < assets)
    /\ (has_text "Recent delinquencies inconsistent with credit score" flags
        <-> 3 < delinquencies /\ 700 < credit_score)
    /\ (has_type "info" flags <-> 80 < utilization /\ 500000 < assets)
    /\ (has_type "alert" flags <-> 0 < income /\ 0.5 < debt / income).
Proof.
  intros income credit_score loan_amount debt assets utilization
         delinquencies history_length.
  unfold detect_anomaly_flags.
  fold income credit_score loan_amount debt assets utilization
       delinquencies history_length.
  pose proof (both_lt 150000 income credit_score 600) as H1.
  pose proof (both_lt (income * 2) loan_amount history_length 3) as H2.
  pose proof (both_lt 80 utilization 500000 assets) as H3.
  pose proof (both_lt 3 delinquencies 700 credit_score) as H4.
  pose proof (Qlt_bool_iff 0 income) as Hi.
  pose proof (Qlt_bool_iff 0.5 (debt / income)) as Hd.
  clearbody income credit_score loan_amount debt assets utilization
            delinquencies history_length.
  set (t1 := Py.Qlt_bool 150000 income && Py.Qlt_bool credit_score 600) in *.
  set (t2 := Py.Qlt_bool (income * 2) loan_amount
             && Py.Qlt_bool history_length 3) in *.
  set (t3 := Py.Qlt_bool 80 utilization && Py.Qlt_bool 500000 assets) in *.
  set (t4 := Py.Qlt_bool 3 delinquencies && Py.Qlt_bool 700 credit_score) in *.
  clearbody t1 t2 t3 t4.
  match goal with
  | |- context [if t4 then ?l ++ [?f] else ?l] =>
      set (flags4 := if t4 then l ++ [f] else l);
      assert (Hlen : (List.length flags4 <= 4)%nat)
        by (do 4 apply appended_length; apply Nat.le_0_l)
  end.
  destruct (Py.Qlt_bool 0 income) eqn:Ei.
  - assert (Hpos : 0 < income) by now apply Hi.
    rewrite div_ok by (intro H; rewrite H in Hpos; vm_compute in Hpos;
                       discriminate).
    cbn [Py.bind].
    destruct (Py.Qlt_bool 0.5 (debt / income));
      (eexists; split; [reflexivity|]);
      (split; [rewrite ?length_app; cbn [List.length]; lia|]);
      rewrite ?has_text_existsb, ?has_type_existsb, ?existsb_app;
      unfold flags4; rewrite !appended_flag;
      compare_strings; tauto.
  - cbn [Py.bind]. change (Py.Qlt_bool 0.5 0) with false. cbv iota.
    eexists. split; [reflexivity|]. split; [lia|].
    rewrite ?has_text_existsb, ?has_type_existsb.
    unfold flags4. rewrite !appended_flag. compare_strings.
    do 5 (split; [assumption|]).
    split; [discriminate|]. intros [H _]. apply Hi in H. discriminate H.
Qed.
(** X28.  [detect_anomaly_flags] never raises, the division by the
    income being guarded, and returns at most five flags.  Each flag is
    there exactly when its pattern holds: the four texts and the one
    "info" flag on their two comparisons, the "alert" on a positive
    income with a debt above half of it. *)
Theorem detect_anomaly_flags_patterns (applicant : Case.t) :
  let income := get_num (Case.income applicant) 0 in
  let credit_score := get_int (Case.credit_score applicant) 0 in
  let loan_amount := get_num (Case.loan_amount applicant) 0 in
  let debt := get_num (Case.debt applicant) 0 in
  let assets := get_num (Case.assets applicant) 0 in
  let utilization := get_int (Case.utilization applicant) 0 in
  let delinquencies := get_int (Case.delinquencies applicant) 0 in
  let history_length := get_int (Case.history_length applicant) 0 in
  exists flags,
    detect_anomaly_flags applicant = Py.Ok flags
    /\ (List.length flags <= 5)%nat
    /\ (has_text "High income but low credit score - unusual combination" flags
        <-> 150000 < income /\ credit_score < 600)
    /\ (has_text "Large loan request with thin credit history" flags
        <-> income * 2 < loan_amount /\ history_length < 3)
    /\ (has_text "High utilization despite significant assets" flags
        <-> 80 < utilization /\ 500000 < assets)
    /\ (has_text "Recent delinquencies inconsistent with credit score" flags
        <-> 3 < delinquencies /\ 700 < credit_score)
    /\ (has_type "info" flags <-> 80 < utilization /\ 500000 < assets)
    /\ (has_type "alert" flags <-> 0 < income /\ 0.5 < debt / income).
Proof. exact (detect_anomaly_flags_ok applicant). Qed.

(** The flags of an application of the API: the applicant dictionary has
    no utilization, delinquencies or history length. *)
Lemma application_flags (application : CreditApplication.t) :
  exists flags,
    detect_anomaly_flags (applicant_of application) = Py.Ok flags
    /\ ~ has_type "info" flags
    /\ ~ has_text "Recent delinquencies inconsistent with credit score" flags
    /\ (has_text "Large loan request with thin credit history" flags
        <-> CreditApplication.income application * 2
            < CreditApplication.loan_amount application).
Proof.
  destruct (detect_anomaly_flags_ok (applicant_of application))
    as [flags [Hok [_ [_ [Hthin [_ [Hlate [Hinfo _]]]]]]]].
  exists flags. split; [exact Hok|]. cbn in Hthin, Hlate, Hinfo.
  split; [|split].
  - intro H. apply Hinfo in H. destruct H as [H _]. vm_compute in H.
    discriminate H.
  - intro H. apply Hlate in H. destruct H as [H _]. vm_compute in H.
    discriminate H.
  - rewrite Hthin. split; [tauto|]. intro H. split; [exact H|reflexivity].
Qed.

End BackendFlags.

Section BackendPipeline.

Import Services.

Variable sqrt : Q -> Q.
Variable historical_cases : list Case.t.

Local Abbreviation process_credit_application :=
  (process_credit_application sqrt historical_cases).

Lemma process_credit_application_ok (application : CreditApplication.t) :
  exists r,
    process_credit_application application = Py.Ok r
    /\ List.length (CreditDecisionResponse.twins r)
       = Nat.min 50 (List.length historical_cases)
    /\ descending (map similarity (CreditDecisionResponse.twins r))
    /\ 0 <= CreditDecisionResponse.anomaly_score r <= 1
    /\ 0.5 <= DecisionResult.confidence (CreditDecisionResponse.decision r)
       <= 0.99
    /\ (historical_cases = [] ->
        CreditDecisionResponse.twins r = []
        /\ CreditDecisionResponse.anomaly_score r = 1.0
        /\ DecisionResult.decision (CreditDecisionResponse.decision r)
           = DECLINE)
    /\ (DecisionResult.decision (CreditDecisionResponse.decision r) = APPROVE ->
        DecisionResult.default_rate (CreditDecisionResponse.decision r) < 0.1
        /\ CreditDecisionResponse.anomaly_score r < 0.3)
    /\ ~ has_type "info" (CreditDecisionResponse.flags r)
    /\ (has_text "Large loan request with thin credit history"
                 (CreditDecisionResponse.flags r)
        <-> CreditApplication.income application * 2
            < CreditApplication.loan_amount application).
Proof.
  unfold Services.process_credit_application.
  destruct (find_financial_twins_ok sqrt historical_cases
              (applicant_of application) 50)
    as [twins [-> [Hlen [Hsorted _]]]].
  cbn [Py.bind].
  destruct (anomaly_score_range twins) as [score [Hscore Hrange]].
  rewrite Hscore. cbn [Py.bind].
  destruct (application_flags application)
    as [flags [-> [Hinfo [_ Hthin]]]].
  cbn [Py.bind].
  destruct (make_decision_ok twins score (applicant_of application))
    as [d [-> [Hconf [_ [_ [_ [Hempty Happrove]]]]]]].
  cbn [Py.bind]. eexists. split; [reflexivity|].
  cbn [CreditDecisionResponse.twins CreditDecisionResponse.anomaly_score
       CreditDecisionResponse.flags CreditDecisionResponse.decision].
  split; [exact Hlen|]. split; [exact Hsorted|]. split; [exact Hrange|].
  split; [exact Hconf|]. split; [|split; [|split; [exact Hinfo|exact Hthin]]].
  - intro Hnone. rewrite Hnone in Hlen. cbn in Hlen.
    destruct twins; [|discriminate Hlen].
    split; [reflexivity|]. split; [|now apply Hempty].
    cbn in Hscore. now injection Hscore as <-.
  - intro Hd. destruct twins as [|first rest].
    + destruct (Hempty eq_refl) as [Hdecl _]. congruence.
    + apply Happrove; [discriminate|exact Hd].
Qed.

(** X29.  [process_credit_application] never raises on a validated
    application: it returns the 50 most similar cases (all of them when
    there are fewer) by decreasing similarity, an anomaly score in
    [0,1] and a decision whose confidence lies in [0.5, 0.99]; with no
    historical case it declines with anomaly score 1.0; it approves only
    with a default rate below 0.1 and an anomaly score below 0.3.  The
    applicant it builds has no history length, so the thin-history
    warning is raised exactly when the loan exceeds twice the income,
    and no "info" flag is ever raised. *)
Theorem process_credit_application_sound (application : CreditApplication.t) :
  exists r,
    process_credit_application application = Py.Ok r
    /\ List.length (CreditDecisionResponse.twins r)
       = Nat.min 50 (List.length historical_cases)
    /\ descending (map similarity (CreditDecisionResponse.twins r))
    /\ 0 <= CreditDecisionResponse.anomaly_score r <= 1
    /\ 0.5 <= DecisionResult.confidence (CreditDecisionResponse.decision r)
       <= 0.99
    /\ (historical_cases = [] ->
        CreditDecisionResponse.twins r = []
        /\ CreditDecisionResponse.anomaly_score r = 1.0
        /\ DecisionResult.decision (CreditDecisionResponse.decision r)
           = DECLINE)
    /\ (DecisionResult.decision (CreditDecisionResponse.decision r) = APPROVE ->
        DecisionResult.default_rate (CreditDecisionResponse.decision r) < 0.1
        /\ CreditDecisionResponse.anomaly_score r < 0.3)
    /\ ~ has_type "info" (CreditDecisionResponse.flags r)
    /\ (has_text "Large loan request with thin credit history"
                 (CreditDecisionResponse.flags r)
        <-> CreditApplication.income application * 2
            < CreditApplication.loan_amount application).
Proof. exact (process_credit_application_ok application). Qed.

End BackendPipeline.


(* ================================================================= *)
(** * The further properties on the concrete cohorts *)

Section FurtherWitnesses.

Import Embeddings TwinSearch Scenarios.

Lemma record_batch_healthy : healthy record_batch.
Proof. intros st batch. reflexivity. Defined.

Lemma cohort_scores (results : list neighbor) (lo hi : Q) :
  forallb (fun r => Qle_bool lo (score r) && Qle_bool (score r) hi) results
  = true ->
  forall r, In r results -> lo <= score r <= hi.
Proof.
  intros Hall r Hin. rewrite forallb_forall in Hall.
  specialize (Hall r Hin). apply andb_true_iff in Hall.
  destruct Hall as [Hlo Hhi]. split; now apply Qle_bool_iff.
Defined.

(** The self-test application: the capped ratio, the padding and the
    two term coordinates. *)
Lemma create_application_vector_unit_interval_witness :
  (exists x,
     nth_error (create_application_vector log1p_q test_application VECTOR_SIZE) 2
     = Some x /\ 0 <= x <= 1)
  /\ (exists x,
        nth_error (create_application_vector log1p_q test_application VECTOR_SIZE) 30
        = Some x /\ x = 0.0)
  /\ (exists t36 t60,
        nth_error (create_application_vector log1p_q test_application VECTOR_SIZE) 14
        = Some t36
        /\ nth_error (create_application_vector log1p_q test_application VECTOR_SIZE) 15
           = Some t60
        /\ (t36 = 0.0 \/ t60 = 0.0)).
Proof.
  destruct (create_application_vector_unit_interval log1p_q test_application
              VECTOR_SIZE test_application_in_domain)
    as [Hunit [Hpad [Hterm _]]].
  split; [|split].
  - eexists. split; [vm_compute; reflexivity|].
    apply (Hunit 2%nat); [vm_compute; reflexivity|discriminate..].
  - eexists. split; [vm_compute; reflexivity|].
    apply (Hpad 30%nat); [vm_compute; reflexivity|lia].
  - eexists. eexists. split; [vm_compute; reflexivity|].
    split; [vm_compute; reflexivity|].
    apply Hterm; vm_compute; reflexivity.
Defined.

(** 92 successes and 8 defaults, all at similarity 0.92. *)
Lemma analyze_twins_rates_bounded_witness :
  exists a,
    analyze_twins cohort_92_8 = Py.Ok a
    /\ 0 <= success_rate a <= 1
    /\ 0 <= default_rate a <= 1
    /\ 0 <= late_rate a <= 1
    /\ success_rate a + default_rate a + late_rate a <= 1
    /\ 0.92 <= avg_similarity a <= 0.92.
Proof.
  destruct (analyze_twins cohort_92_8) as [a|e] eqn:Ha;
    [|vm_compute in Ha; discriminate Ha].
  exists a. split; [reflexivity|].
  destruct (analyze_twins_rates_bounded cohort_92_8 a Ha)
    as [Hs [Hd [Hl [Hsum Havg]]]].
  split; [exact Hs|]. split; [exact Hd|]. split; [exact Hl|].
  split; [exact Hsum|].
  apply Havg; [discriminate|].
  apply cohort_scores. vm_compute. reflexivity.
Defined.

(** 92 successes and 8 defaults behind the index: only the reduction is
    attached. *)
Lemma find_twins_never_attaches_premium_witness :
  exists d conds,
    find_twins log1p_q float_str_q (index_of cohort_92_8) no_llm average_q
      test_application 100 0.70 = Py.Ok d
    /\ conditions d = Some conds
    /\ ~ In "Interest rate premium (+1.5% APR)"%string conds
    /\ (conds = []
        \/ conds = ["Mandatory 25% reduction in requested amount"%string]
        \/ conds = ["Standard conditions with enhanced monitoring"%string]).
Proof.
  destruct (find_twins log1p_q float_str_q (index_of cohort_92_8) no_llm average_q
              test_application 100 0.70) as [d|e] eqn:Hd;
    [|vm_compute in Hd; discriminate Hd].
  destruct (conditions d) as [conds|] eqn:Hc.
  - exists d, conds. split; [reflexivity|]. split; [exact Hc|].
    exact (find_twins_never_attaches_premium log1p_q float_str_q
             (index_of cohort_92_8) no_llm average_q test_application 100 0.70 d Hd
             conds Hc).
  - exfalso. vm_compute in Hd. injection Hd as <-. discriminate Hc.
Defined.


(** Without an answer of the model the friendly explanation is used. *)
Lemma find_twins_always_explains_witness :
  exists d d0 text,
    find_twins log1p_q float_str_q (index_of cohort_92_8) no_llm average_q
      test_application 100 0.70 = Py.Ok d
    /\ d = with_explanation d0 text
    /\ explanation d = Some text
    /\ text <> ""%string
    /\ text = generate_friendly_explanation d0.
Proof.
  destruct (find_twins log1p_q float_str_q (index_of cohort_92_8) no_llm average_q
              test_application 100 0.70) as [d|e] eqn:Hd;
    [|vm_compute in Hd; discriminate Hd].
  destruct (find_twins_always_explains log1p_q float_str_q
              (index_of cohort_92_8) no_llm average_q test_application 100 0.70 d Hd)
    as [d0 [text [Heq [Hexp [Hne [Hfriendly _]]]]]].
  exists d, d0, text. split; [reflexivity|]. split; [exact Heq|].
  split; [exact Hexp|]. split; [exact Hne|].
  apply Hfriendly. left. reflexivity.
Defined.

(** 60 successes and 40 defaults with a comeback story: the rejection
    carries a roadmap, and neither a fraud signal nor a nudge. *)
Lemma find_twins_signals_witness :
  exists d,
    find_twins log1p_q float_str_q (index_of cohort_60_40) no_llm average_q
      test_application 100 0.70 = Py.Ok d
    /\ roadmap d <> None
    /\ decision d = "REJECTED"%string
    /\ is_fraud_suspect d = None
    /\ nudge d = None
    /\ analysis d <> None.
Proof.
  destruct (find_twins log1p_q float_str_q (index_of cohort_60_40) no_llm average_q
              test_application 100 0.70) as [d|e] eqn:Hd;
    [|vm_compute in Hd; discriminate Hd].
  assert (Hroad : roadmap d <> None).
  { vm_compute in Hd. injection Hd as <-. discriminate. }
  destruct (find_twins_signals log1p_q float_str_q (index_of cohort_60_40)
              no_llm average_q test_application 100 0.70 d Hd)
    as [_ [Hrej [_ Hanalysis]]].
  destruct (Hrej (or_introl Hroad)) as [Hdec [Hfraud Hnudge]].
  exists d. split; [reflexivity|]. split; [exact Hroad|].
  split; [exact Hdec|]. split; [exact Hfraud|]. split; [exact Hnudge|].
  intro Hnone. apply Hanalysis in Hnone. rewrite Hdec in Hnone.
  discriminate Hnone.
Defined.

(** The successes of that cohort asked for 9000 on average, under 80%
    of the 15000 requested: the offer is a safer amount near 9000. *)
Lemma find_twins_alternative_offer_witness :
  exists d o,
    find_twins log1p_q float_str_q (index_of cohort_60_40) no_llm average_q
      test_application 100 0.70 = Py.Ok d
    /\ alternative_offer d = Some o
    /\ decision d = "REJECTED"%string
    /\ offer_type o = "SAFER_AMOUNT"%string
    /\ (exists k, offer_amount o = inject_Z k * 100)
    /\ -50 <= offer_amount o
              - mean (successful_amounts
                        (query log1p_q (index_of cohort_60_40)
                           test_application 100)) <= 50.
Proof.
  destruct (find_twins log1p_q float_str_q (index_of cohort_60_40) no_llm average_q
              test_application 100 0.70) as [d|e] eqn:Hd;
    [|vm_compute in Hd; discriminate Hd].
  destruct (alternative_offer d) as [o|] eqn:Ho.
  - destruct (find_twins_alternative_offer log1p_q float_str_q
                (index_of cohort_60_40) no_llm average_q test_application 100 0.70 d o
                Hd Ho)
      as [Hdec [_ [_ [Htype [Hround Hnear]]]]].
    exists d, o. split; [reflexivity|]. split; [exact Ho|].
    split; [exact Hdec|]. split; [exact Htype|]. split; [exact Hround|].
    exact Hnear.
  - exfalso. vm_compute in Hd. injection Hd as <-. discriminate Ho.
Defined.

(** Similarities of 0.92: the confidence is a probability. *)
Lemma find_twins_confidence_range_witness :
  exists d,
    find_twins log1p_q float_str_q (index_of cohort_92_8) no_llm average_q
      test_application 100 0.70 = Py.Ok d
    /\ 0 <= confidence d <= 1.
Proof.
  destruct (find_twins log1p_q float_str_q (index_of cohort_92_8) no_llm average_q
              test_application 100 0.70) as [d|e] eqn:Hd;
    [|vm_compute in Hd; discriminate Hd].
  exists d. split; [reflexivity|].
  apply (find_twins_confidence_range log1p_q float_str_q
           (index_of cohort_92_8) no_llm average_q test_application 100 0.70 d Hd).
  apply cohort_scores. vm_compute. reflexivity.
Defined.

(** Three prepared points in batches of two. *)
Lemma batch_upsert_vectors_uploads_all_witness :
  List.concat (VectorStore.slices 2
                 (BuildVectorStore.prepare_points log1p_q requests))
  = BuildVectorStore.prepare_points log1p_q requests
  /\ VectorStore.batch_upsert_vectors collection record_batch []
       (BuildVectorStore.prepare_points log1p_q requests) 2
     = (sent record_batch []
          (VectorStore.slices 2
             (BuildVectorStore.prepare_points log1p_q requests)),
        Py.Ok 3%nat).
Proof.
  destruct (batch_upsert_vectors_uploads_all collection record_batch []
              (BuildVectorStore.prepare_points log1p_q requests) 2)
    as [Hconcat [_ Hupload]].
  - reflexivity.
  - exact record_batch_healthy.
  - vm_compute. reflexivity.
  - split; [exact Hconcat|exact Hupload].
Defined.

(** A point with a short vector in the second batch: the first batch
    stays in the collection and the call raises. *)
Lemma batch_upsert_vectors_partial_witness :
  VectorStore.batch_upsert_vectors collection record_batch []
    points_with_short_vector 2
  = (sent record_batch []
       [BuildVectorStore.prepare_points log1p_q [request "LC-1"; request "LC-2"]],
     Py.Raise Py.BackendError).
Proof.
  apply (batch_upsert_vectors_partial collection record_batch []
           points_with_short_vector 2
           [BuildVectorStore.prepare_points log1p_q
              [request "LC-1"; request "LC-2"]]
           (short_point
            :: BuildVectorStore.prepare_points log1p_q [request "LC-3"])
           []).
  - reflexivity.
  - exact record_batch_healthy.
  - reflexivity.
  - constructor; [vm_compute; reflexivity|constructor].
  - vm_compute. reflexivity.
Defined.

(** Three loan requests: numbered 0, 1, 2 and uploaded in two batches. *)
Lemma prepared_points_upload_witness :
  map VectorStore.point_id (BuildVectorStore.prepare_points log1p_q requests)
  = [0; 1; 2]%Z
  /\ VectorStore.batch_upsert_vectors collection record_batch []
       (BuildVectorStore.prepare_points log1p_q requests) 2
     = (sent record_batch []
          (VectorStore.slices 2
             (BuildVectorStore.prepare_points log1p_q requests)),
        Py.Ok 3%nat).
Proof.
  destruct (prepared_points_upload log1p_q collection record_batch []
              requests 2)
    as [Hids [_ Hupload]].
  - reflexivity.
  - exact record_batch_healthy.
  - split; [exact Hids|exact Hupload].
Defined.

(** A vector of two coordinates is refused; the vector of the self-test
    application gets the hits of the collection. *)
Lemma search_similar_checks_witness :
  VectorStore.search_similar _ answer_all (holding cohort_92_8)
    [0.1; 0.2] 100 None
  = Py.Raise Py.ValueError
  /\ exists hits,
       VectorStore.search_similar _ answer_all (holding cohort_92_8)
         (create_application_vector log1p_q test_application VECTOR_SIZE)
         100 None
       = Py.Ok hits
       /\ map score hits = map score cohort_92_8.
Proof.
  split.
  - apply (search_similar_checks _ answer_all (holding cohort_92_8)
             [0.1; 0.2] 100 None).
    left. discriminate.
  - destruct (search_similar_checks _ answer_all (holding cohort_92_8)
                (create_application_vector log1p_q test_application VECTOR_SIZE)
                100 None)
      as [_ Hhits].
    destruct Hhits as [Hhits _]; [vm_compute; reflexivity|lia|].
    destruct (Hhits (holding cohort_92_8) eq_refl) as [hits [Hok [Hs _]]].
    exists hits. split; [exact Hok|]. rewrite Hs. vm_compute. reflexivity.
Defined.

(** A ratio of zero is stored as [None] and the roadmap raises; the
    self-test application gives a roadmap. *)
Lemma ingested_roadmap_witness :
  make_roadmap float_str_q (BuildVectorStore.payload_of debt_free_request)
  = Py.Raise Py.TypeError
  /\ exists r,
       make_roadmap float_str_q (BuildVectorStore.payload_of (request "LC-1"))
       = Py.Ok r
       /\ target_fico r = Some 720
       /\ - 0.05 <= target_dti r - 18.5 <= 0.05.
Proof.
  split.
  - destruct (ingested_roadmap float_str_q debt_free_request)
      as [_ [_ [Hraise _]]].
    apply Hraise. right. reflexivity.
  - destruct (ingested_roadmap float_str_q (request "LC-1"))
      as [_ [_ [_ Hroad]]].
    destruct (Hroad 720 18.5) as [r [Hr [Hfico [_ Hnear]]]];
      [reflexivity|vm_compute; discriminate
      |reflexivity|vm_compute; discriminate|].
    exists r. split; [exact Hr|]. split; [exact Hfico|exact Hnear].
Defined.

End FurtherWitnesses.
